(** * core_excel.py: the shipment/backlog ETL into the tracking template

    A shallow embedding of [src/core_excel.py].  The program is a single
    routine, [process_excel_core], that reads two sheets of a data
    workbook through pandas, normalises and filters them column by
    column, concatenates the two frames, and writes the rows into fixed
    columns of a template workbook through openpyxl.

    The embedding keeps the shape of the code:
    - a pandas [DataFrame] is an ordered dictionary of named columns, a
      [Series] is the list of the cells of one column, and the column
      operations of the source ([df[col] = ...], boolean masks,
      [pd.concat], [dropna], [iterrows]) are functions on columns;
    - an openpyxl worksheet is a finite map from (row, column) to what
      [ws.cell] gives there: a cell with a value and a number format, or
      the placeholder of a merged range;
    - the file system, the log sink and the calls made to the two
      libraries are threaded through a state-and-exception monad, and the
      [try ... except Exception] of the source is a handler of that
      monad;
    - what the two libraries decide by rules of their own is not in the
      repository and is a parameter of the development, the record
      [Library]: what pandas reads off a sheet, what [pd.to_numeric] and
      [pd.to_datetime] make of a cell of a column, which number formats
      openpyxl takes for date formats and which values it refuses.

    The file has the model first (values, frames, sheets, the world, the
    routine, the row-level reading of the specification, sample data),
    then the facts: frames and their rows, worksheets, runs, the ten
    properties C1 to C10 of the specification, and further properties of
    the routine, of its helpers and of the page (X1 to X20). *)

From Stdlib Require Import QArith.
From stdpp Require Import gmap strings list fin_maps pretty.

Close Scope Q_scope.
Close Scope Z_scope.
Open Scope string_scope.
Open Scope list_scope.
Open Scope nat_scope.

(** ** Cell values *)

Record date := mkDate { year : nat; month : nat; day : nat }.
Record time := mkTime { hour : nat; minute : nat; second : nat }.

(** What a cell of a sheet, of a [Series] or of a row can hold.  pandas
    has three spellings of a missing value ([None], [NaN], [NaT]); all
    three answer [True] to [isna], and they are one constructor here.
    Floating-point numbers are idealised as rationals, beside the two
    infinities.  [VDateTime] is a time stamp ([datetime], pandas'
    [Timestamp]), [VDate] a [datetime.date] and [VTime] a
    [datetime.time]. *)
Inductive value :=
| VNull
| VStr (s : string)
| VNum (q : Q)
| VInf (negative : bool)
| VBool (b : bool)
| VDateTime (d : date) (t : time)
| VDate (d : date)
| VTime (t : time).

#[global] Instance date_eq_dec : EqDecision date.
Proof. solve_decision. Defined.
#[global] Instance time_eq_dec : EqDecision time.
Proof. solve_decision. Defined.
#[global] Instance Q_eq_dec : EqDecision Q.
Proof. solve_decision. Defined.
#[global] Instance value_eq_dec : EqDecision value.
Proof. solve_decision. Defined.

(** [Series.notna()] on one element. *)
Definition notna (v : value) : bool :=
  match v with VNull => false | _ => true end.

Definition isna (v : value) : bool := negb (notna v).

(** [series == s] on one element, for a string literal [s]: only a string
    cell with the same text compares equal. *)
Definition eq_str (v : value) (s : string) : bool :=
  match v with VStr s' => String.eqb s' s | _ => false end.

(** [series != s] on one element. *)
Definition ne_str (v : value) (s : string) : bool := negb (eq_str v s).

(** Python's [sub in name] on strings. *)
Fixpoint contains (sub name : string) : bool :=
  String.prefix sub name ||
  match name with
  | EmptyString => false
  | String _ rest => contains sub rest
  end.

(** ** Exceptions *)

Inductive exn :=
| FileNotFoundError (msg : string)
| IndexError (msg : string)
| KeyError (msg : string)
| OSError (msg : string)
| AttributeError (msg : string)
| ValueError (msg : string)
| BadZipFile (msg : string).

Definition dquote : string := String (Ascii.ascii_of_nat 34) EmptyString.

(** [repr(s)] for a string, escapes apart: single quotes around it, or
    double quotes when it holds a single quote and no double quote. *)
Definition py_repr (s : string) : string :=
  if contains "'" s && negb (contains dquote s)
  then dquote +:+ s +:+ dquote
  else "'" +:+ s +:+ "'".

(** [str(e)]: the message, except that a [KeyError] prints the [repr] of
    its argument. *)
Definition exn_str (e : exn) : string :=
  match e with
  | FileNotFoundError m | IndexError m | OSError m | AttributeError m
  | ValueError m | BadZipFile m => m
  | KeyError m => py_repr m
  end.

Definition result (A : Type) : Type := exn + A.

(** ** pandas: series and frames *)

Abbreviation Series := (list value).

(** Columns in order, each with its label. *)
Abbreviation DataFrame := (list (string * list value)).

Definition df_columns (df : DataFrame) : list string := df.*1.

(** [len(df)]: every column of a frame has the length of its index. *)
Definition df_len (df : DataFrame) : nat :=
  match df with
  | [] => 0
  | (_, s) :: _ => length s
  end.

(** [df.iloc[:, j]] *)
Definition iloc_col (df : DataFrame) (j : nat) : result Series :=
  match df !! j with
  | Some (_, s) => inr s
  | None => inl (IndexError "single positional indexer is out-of-bounds")
  end.

(** Lookup of a label in an ordered dictionary. *)
Fixpoint assoc {A} (k : string) (l : list (string * A)) : option A :=
  match l with
  | [] => None
  | (k', a) :: rest => if String.eqb k' k then Some a else assoc k rest
  end.

(** [df[col]] *)
Definition getitem (df : DataFrame) (col : string) : result Series :=
  match assoc col df with
  | Some s => inr s
  | None => inl (KeyError col)
  end.

(** [df[col] = s]: replaces the column in place, or appends a new one. *)
Fixpoint setitem (df : DataFrame) (col : string) (s : Series) : DataFrame :=
  match df with
  | [] => [(col, s)]
  | (k, s0) :: rest =>
      if String.eqb k col then (k, s) :: rest else (k, s0) :: setitem rest col s
  end.

(** Alignment of a series on the index [0 .. n-1]: positions it lacks are
    filled with a missing value. *)
Definition reindex (n : nat) (s : Series) : Series :=
  take n (s ++ replicate n VNull).

(** [pd.DataFrame(d)] for a dictionary of series, all on default range
    indexes: the frame's index is the union of theirs. *)
Definition pd_DataFrame (d : list (string * Series)) : DataFrame :=
  let n := max_list ((length ∘ snd) <$> d) in
  (λ kv, (kv.1, reindex n kv.2)) <$> d.

(** Selection of the positions where a boolean mask holds. *)
Fixpoint mask_select {A} (m : list bool) (l : list A) : list A :=
  match m, l with
  | b :: m', x :: l' => if b then x :: mask_select m' l' else mask_select m' l'
  | _, _ => []
  end.

(** [df[mask]] *)
Definition df_mask (df : DataFrame) (m : list bool) : DataFrame :=
  (λ kv, (kv.1, mask_select m kv.2)) <$> df.

(** [mask1 & mask2] *)
Definition mask_and (m1 m2 : list bool) : list bool := zip_with andb m1 m2.

(** [df.drop(col, axis=1)] *)
Definition df_drop (df : DataFrame) (col : string) : result DataFrame :=
  match assoc col df with
  | Some _ => inr (List.filter (λ kv, negb (String.eqb kv.1 col)) df)
  | None => inl (KeyError ("['" +:+ col +:+ "'] not found in axis"))
  end.

(** The column [col] of [df] as it enters a concatenation: its cells, or
    as many missing values as the frame has rows. *)
Definition column_or_na (df : DataFrame) (col : string) : Series :=
  match assoc col df with
  | Some s => s
  | None => replicate (df_len df) VNull
  end.

(** [pd.concat([a, b], ignore_index=True)]: the columns of [a], then those
    only [b] has; each is [a]'s part followed by [b]'s. *)
Definition pd_concat (a b : DataFrame) : DataFrame :=
  let cols :=
    df_columns a
    ++ List.filter (λ k, negb (existsb (String.eqb k) (df_columns a))) (df_columns b) in
  (λ k, (k, (column_or_na a k ++ column_or_na b k))) <$> cols.

(** The rows of a frame, each a series labelled by the column names
    (what [iterrows] yields, without the index label). *)
Abbreviation Row := (list (string * value)).

Fixpoint df_rows (n : nat) (df : DataFrame) : list Row :=
  match df with
  | [] => replicate n []
  | (k, s) :: rest => zip_with (λ v r, (k, v) :: r) s (df_rows n rest)
  end.

Definition iterrows (df : DataFrame) : list Row := df_rows (df_len df) df.

(** [df.dropna(how='all')]: rows in which every cell is missing go. *)
Definition all_na (r : Row) : bool := forallb (λ kv, isna kv.2) r.

Definition dropna_all (df : DataFrame) : DataFrame :=
  df_mask df ((negb ∘ all_na) <$> iterrows df).

(** [row[col]] *)
Definition row_get (r : Row) (col : string) : result value :=
  match assoc col r with
  | Some v => inr v
  | None => inl (KeyError col)
  end.

(** [enumerate(l)] *)
Definition enumerate {A} (l : list A) : list (nat * A) := imap pair l.

(** The cells of the column at position [j], none if there is no such
    column. *)
Definition column (df : DataFrame) (j : nat) : Series :=
  match df !! j with
  | Some (_, s) => s
  | None => []
  end.

(** ** The exception monad of pure library calls *)

#[global] Instance result_ret : MRet result := λ A a, inr a.
#[global] Instance result_bind : MBind result :=
  λ A B f m, match m with inl e => inl e | inr a => f a end.

(** ** openpyxl: cells, worksheets, workbooks *)

(** What [ws.cell(row, column)] gives: a cell, with its value and its
    number format, or a [MergedCell], the placeholder that stands at
    every position of a merged range but the first; it has a style and
    no value. *)
Inductive Cell :=
| mkCell (value_of : value) (number_format : string)
| MergedCell (number_format : string).

Definition value_of (cell : Cell) : value :=
  match cell with
  | mkCell v _ => v
  | MergedCell _ => VNull
  end.

Definition number_format (cell : Cell) : string :=
  match cell with
  | mkCell _ f => f
  | MergedCell f => f
  end.

#[global] Instance Cell_eq_dec : EqDecision Cell.
Proof. solve_decision. Defined.

(** The cells that exist, by (row, column), both counted from 1. *)
Abbreviation Worksheet := (gmap (nat * nat) Cell).

(** Sheets in workbook order, by title. *)
Abbreviation Workbook := (list (string * gmap (nat * nat) Cell)).

(** A cell that [ws.cell] has to create is empty and in format General. *)
Definition blank_cell : Cell := mkCell VNull "General".

(** [ws.cell(row=r, column=c)]: the cell there, created if need be. *)
Definition ws_cell (ws : Worksheet) (r c : nat) : Cell :=
  default blank_cell (ws !! (r, c)).

(** [ws.cell(row=r, column=c).number_format = f]: the style of either
    kind of cell can be set. *)
Definition set_number_format (r c : nat) (f : string) (ws : Worksheet) : Worksheet :=
  <[(r, c) := match ws_cell ws r c with
              | mkCell v _ => mkCell v f
              | MergedCell _ => MergedCell f
              end]> ws.

(** [ws.max_row] and [ws.max_column]: the largest row and column that
    hold a cell, 1 on an empty sheet. *)
Definition max_row (ws : Worksheet) : nat :=
  map_fold (λ (k : nat * nat) (_ : Cell) (m : nat), k.1 `max` m) 1 ws.

Definition max_column (ws : Worksheet) : nat :=
  map_fold (λ (k : nat * nat) (_ : Cell) (m : nat), k.2 `max` m) 1 ws.

Definition sheetnames (wb : Workbook) : list string := wb.*1.

(** [wb[title]] *)
Definition wb_getitem (wb : Workbook) (title : string) : result Worksheet :=
  match assoc title wb with
  | Some ws => inr ws
  | None => inl (KeyError ("Worksheet " +:+ title +:+ " does not exist."))
  end.

(** The workbook once its sheet [title] has become [ws]: the worksheet
    object is shared with the workbook, so what the code does to the
    sheet it got from [wb[title]] is done to the workbook's sheet. *)
Fixpoint wb_update (wb : Workbook) (title : string) (ws : Worksheet) : Workbook :=
  match wb with
  | [] => []
  | (k, ws0) :: rest =>
      if String.eqb k title then (k, ws) :: rest
      else (k, ws0) :: wb_update rest title ws
  end.

(** ** What the libraries decide

    The rules of pandas and openpyxl that the routine relies on and the
    repository does not contain.  Every definition and theorem below is
    about any such rules. *)

(** What pandas reads off a sheet: the labels of the columns and the
    records, each the list of its cells by position. *)
Abbreviation Table := (list string * list (list value))%type.

Record Library := {
  (** [pd.read_excel] on one sheet: the table it parses, with the
      header row, the texts it takes for missing values, and the width
      and the types it settles on. *)
  read_sheet : Worksheet → Table;
  (** It reads no column beyond the last one the sheet has. *)
  read_sheet_width : ∀ ws, length (read_sheet ws).1 ≤ max_column ws;
  (** [pd.to_numeric(s, errors='coerce')] at position [i] of the column
      [s]: the cell it gives when the cell there parses, in the type it
      settles on for the column, and [None] when the cell does not
      parse. *)
  to_numeric_parse : Series → nat → option value;
  (** [pd.to_datetime(s, format=None, errors='coerce', dayfirst=False)]
      at position [i] of the column [s]: the date and time of the cell
      there when it parses in the format pandas infers for the column. *)
  to_datetime_parse : Series → nat → option (date * time);
  (** openpyxl's [is_date_format]. *)
  is_date_format : string → bool;
  (** What [cell.value = v] raises for a value openpyxl does not take
      (a text with a character that is illegal in a sheet, an object of a
      type it cannot convert). *)
  check_value : value → option exn
}.

(** The frame of a table: one column per label, every column with one
    cell per record, missing where the record is short. *)
Definition table_frame (t : Table) : DataFrame :=
  imap (λ j k, (k, (λ r : list value, default VNull (r !! j)) <$> t.2)) t.1.

(** The format a cell of format [fmt] has after [v] is assigned to it:
    a date or time that arrives in a cell whose format is no date format
    brings the default format of its type.  (A missing time stamp is a
    date to openpyxl; it is not told apart from the other missing values
    here, and the facts below about formats leave room for it.) *)
Definition time_format (v : value) : option string :=
  match v with
  | VDateTime _ _ => Some "yyyy-mm-dd h:mm:ss"
  | VDate _ => Some "yyyy-mm-dd"
  | VTime _ => Some "h:mm:ss"
  | _ => None
  end.

Definition bind_format (L : Library) (v : value) (fmt : string) : string :=
  match time_format v with
  | Some f => if is_date_format L fmt then fmt else f
  | None => fmt
  end.

(** [ws.cell(row=r, column=c).value = v]: a merged cell is read-only,
    a value openpyxl does not take is refused ([None] is always taken),
    and otherwise the cell holds [v], in the format [bind_format]
    gives. *)
Definition set_value (L : Library) (r c : nat) (v : value) (ws : Worksheet)
  : result Worksheet :=
  match ws_cell ws r c with
  | MergedCell _ =>
      inl (AttributeError "'MergedCell' object attribute 'value' is read-only")
  | mkCell _ fmt =>
      match (match v with VNull => None | _ => check_value L v end) with
      | Some e => inl e
      | None => inr (<[(r, c) := mkCell v (bind_format L v fmt)]> ws)
      end
  end.

(** ** The world: files, log sink, library calls *)

(** A file: a workbook, or a file that is none, with what [pd.ExcelFile]
    and [load_workbook] raise on opening it. *)
Inductive FileData :=
| Xlsx (wb : Workbook)
| NotXlsx (pandas_error openpyxl_error : exn).

Inductive Event :=
| EvExists (path : string)
| EvExcelFile (path : string)
| EvReadExcel (path sheet : string)
| EvLoadWorkbook (path : string)
| EvSave (path : string).

Record World := mkWorld {
  files : gmap string FileData;   (* what exists, by path *)
  readonly : gset string;         (* paths that cannot be opened for writing *)
  (* paths at which a write, once begun, breaks off: the exception it
     raises and the incomplete file it leaves *)
  interrupted : gmap string (exn * FileData);
  log : list string;              (* what the log callback received, oldest first *)
  trace : list Event              (* library calls made, oldest first *)
}.

(** Computations that read and change the world and may raise. *)
Definition M (A : Type) : Type := World → World * result A.

#[global] Instance M_ret : MRet M := λ A a w, (w, inr a).
#[global] Instance M_bind : MBind M :=
  λ A B f m w,
    match m w with
    | (w', inl e) => (w', inl e)
    | (w', inr a) => f a w'
    end.

Definition raise {A} (e : exn) : M A := λ w, (w, inl e).

(** [if not ok: raise e] *)
Definition raise_unless (ok : bool) (e : exn) : M unit :=
  if ok then mret () else raise e.

(** A pure library call that may raise. *)
Definition lift {A} (r : result A) : M A := λ w, (w, r).

(** [try: body except Exception as e: handler e] *)
Definition try_except {A} (body : M A) (handler : exn → M A) : M A :=
  λ w,
    match body w with
    | (w', inl e) => handler e w'
    | (w', inr a) => (w', inr a)
    end.

(** Reading and changing the world. *)
Definition gets {A} (f : World → A) : M A := λ w, (w, inr (f w)).
Definition modify (f : World → World) : M unit := λ w, (f w, inr ()).

Definition record_event (ev : Event) : M unit :=
  modify (λ w, mkWorld (files w) (readonly w) (interrupted w) (log w)
                       (trace w ++ [ev])).

(** The sink the caller passes as [log_callback]. *)
Definition log_callback (msg : string) : M unit :=
  modify (λ w, mkWorld (files w) (readonly w) (interrupted w) (log w ++ [msg])
                       (trace w)).

(** [path] now holds [d]. *)
Definition write_file (path : string) (d : FileData) : M unit :=
  modify (λ w, mkWorld (<[path := d]> (files w)) (readonly w) (interrupted w)
                       (log w) (trace w)).

(** [os.path.exists(path)] *)
Definition os_path_exists (path : string) : M bool :=
  record_event (EvExists path);;
  gets (λ w, bool_decide (is_Some (files w !! path))).

(** Opening [path] as a workbook, by pandas or by openpyxl. *)
Definition open_file (by_pandas : bool) (fs : gmap string FileData) (path : string)
  : result Workbook :=
  match fs !! path with
  | Some (Xlsx wb) => inr wb
  | Some (NotXlsx pandas_error openpyxl_error) =>
      inl (if by_pandas then pandas_error else openpyxl_error)
  | None =>
      inl (FileNotFoundError
             ("[Errno 2] No such file or directory: '" +:+ path +:+ "'"))
  end.

Definition open_xlsx (by_pandas : bool) (path : string) : M Workbook :=
  fs ← gets files;
  lift (open_file by_pandas fs path).

(** The frame pandas reads off a sheet. *)
Definition read_frame (L : Library) (ws : Worksheet) : DataFrame :=
  table_frame (read_sheet L ws).

(** A sheet of an open workbook as a frame. *)
Definition parse_sheet (L : Library) (wb : Workbook) (sheet : string)
  : result DataFrame :=
  match assoc sheet wb with
  | Some ws => mret (read_frame L ws)
  | None => inl (ValueError ("Worksheet named '" +:+ sheet +:+ "' not found"))
  end.

(** [pd.ExcelFile(path).sheet_names] *)
Definition pd_ExcelFile_sheet_names (path : string) : M (list string) :=
  record_event (EvExcelFile path);;
  wb ← open_xlsx true path;
  mret (sheetnames wb).

(** [pd.read_excel(path, sheet_name=sheet)] *)
Definition pd_read_excel (L : Library) (path sheet : string) : M DataFrame :=
  record_event (EvReadExcel path sheet);;
  wb ← open_xlsx true path;
  lift (parse_sheet L wb sheet).

(** [load_workbook(path, data_only=False, keep_links=False)] *)
Definition load_workbook (path : string) : M Workbook :=
  record_event (EvLoadWorkbook path);;
  open_xlsx false path.

(** [wb.save(path)]: the target is opened for writing, which fails and
    leaves it as it was where it cannot be; then the workbook is written
    into it, and a write that breaks off leaves an incomplete file
    there. *)
Definition wb_save (wb : Workbook) (path : string) : M unit :=
  record_event (EvSave path);;
  ro ← gets readonly;
  if decide (path ∈ ro)
  then raise (OSError ("[Errno 13] Permission denied: '" +:+ path +:+ "'"))
  else
    breaks ← gets interrupted;
    match breaks !! path with
    | Some (e, left_over) => write_file path left_over;; raise e
    | None => write_file path (Xlsx wb)
    end.

(** ** The program *)

(** [l[0]] *)
Definition first_item {A} (l : list A) : result A :=
  match l with
  | x :: _ => inr x
  | [] => inl (IndexError "list index out of range")
  end.

(** [df.loc[mask, col]] reads the masked positions of a column, and
    [df.loc[mask, col] = vals] writes [vals], in order, into them. *)
Fixpoint mask_assign (m : list bool) (s vals : Series) : Series :=
  match m, s with
  | b :: m', x :: s' =>
      if b then
        match vals with
        | v :: vals' => v :: mask_assign m' s' vals'
        | [] => x :: mask_assign m' s' []
        end
      else x :: mask_assign m' s' vals
  | _, _ => s
  end.

(** [.dt.date] on one element: a time stamp gives its date. *)
Definition dt_date (v : value) : value :=
  match v with
  | VDateTime d _ => VDate d
  | _ => v
  end.

(** What a column of time stamps stores when a cell is assigned to: a
    date goes in as the time stamp of its midnight. *)
Definition as_datetime64 (v : value) : value :=
  match v with
  | VDate d => VDateTime d (mkTime 0 0 0)
  | _ => v
  end.

(** [.fillna(x)] on one element. *)
Definition fillna (x v : value) : value := if isna v then x else v.

(** [for x in l: s = f(x, s)], for a step that may raise. *)
Fixpoint for_each {A S} (f : A → S → result S) (l : list A) (s : S) : result S :=
  match l with
  | [] => mret s
  | x :: rest => s ← f x s; for_each f rest s
  end.

Section Pipeline.

Variable L : Library.

(** [pd.to_numeric(s, errors='coerce')]: a cell that does not parse
    becomes a missing value. *)
Definition to_numeric_coerce (s : Series) : Series :=
  imap (λ i _, default VNull (to_numeric_parse L s i)) s.

(** [pd.to_datetime(s, format=None, errors='coerce', dayfirst=False)]:
    a column of time stamps, missing where the cell does not parse. *)
Definition to_datetime_coerce (s : Series) : Series :=
  imap (λ i _, match to_datetime_parse L s i with
               | Some (d, t) => VDateTime d t
               | None => VNull
               end) s.

(** The date helper (lines 14-31): the column is parsed into a column
    of time stamps; the dates of the cells that parsed are assigned back
    into that column through [df.loc], which stores each as a time
    stamp; the rest stay missing. *)
Definition process_date_column (df : DataFrame) (date_col_name : string)
  : result DataFrame :=
  s ← getitem df date_col_name;
  let df := setitem df date_col_name (to_datetime_coerce s) in
  s ← getitem df date_col_name;
  let valid_dates := notna <$> s in
  s ← getitem df date_col_name;
  let dates := dt_date <$> mask_select valid_dates s in
  s ← getitem df date_col_name;
  let df := setitem df date_col_name
                    (mask_assign valid_dates s (as_datetime64 <$> dates)) in
  s ← getitem df date_col_name;
  let df := setitem df date_col_name (fillna VNull <$> s) in
  mret df.

(** The numeric helper (lines 35-45): each named column the frame has
    is converted.  The guard [if col in df.columns] and the read
    [df[col]] are one lookup here. *)
Definition convert_numeric_columns (df : DataFrame)
    (numeric_col_names : list string) : DataFrame :=
  foldl (λ df col,
           match assoc col df with
           | Some s => setitem df col (to_numeric_coerce s)
           | None => df
           end) df numeric_col_names.

Definition numeric_cols : list string :=
  ["发货数量"; "净重(吨)"; "价目表价格"; "税率"].

(** Lines 91-100: the dictionary of the shipment columns. *)
Definition ship_cols (df_ship : DataFrame) : result (list (string * Series)) :=
  c3 ← iloc_col df_ship 3;
  c7 ← iloc_col df_ship 7;
  c15 ← iloc_col df_ship 15;
  c21 ← iloc_col df_ship 21;
  c24 ← iloc_col df_ship 24;
  c26 ← iloc_col df_ship 26;
  c43 ← iloc_col df_ship 43;
  c28 ← iloc_col df_ship 28;
  mret [("城市群", c3); ("客户名称", c7); ("物品说明", c15);
        ("发货数量", c21); ("净重(吨)", c24); ("价目表价格", c26);
        ("税率", c43); ("签收关单时间", c28)].

(** Lines 119-129: the dictionary of the backlog columns; the sign-off
    column starts as an empty series. *)
Definition delay_cols (df_delay : DataFrame) : result (list (string * Series)) :=
  c3 ← iloc_col df_delay 3;
  c5 ← iloc_col df_delay 5;
  c18 ← iloc_col df_delay 18;
  c27 ← iloc_col df_delay 27;
  c30 ← iloc_col df_delay 30;
  c33 ← iloc_col df_delay 33;
  c55 ← iloc_col df_delay 55;
  c26 ← iloc_col df_delay 26;
  mret [("城市群", c3); ("客户名称", c5); ("物品说明", c18);
        ("发货数量", c27); ("净重(吨)", c30); ("价目表价格", c33);
        ("税率", c55); ("发运库存组织", c26); ("签收关单时间", [])].

(** Line 112: [df[df['城市群'] == '舟山区'].copy()] *)
Definition filter_ship (df_ship_processed : DataFrame) : result DataFrame :=
  region ← getitem df_ship_processed "城市群";
  mret (df_mask df_ship_processed ((λ v, eq_str v "舟山区") <$> region)).

(** Lines 139-144: the three-part mask, then the drop of the
    organisation column. *)
Definition filter_delay (df_delay_processed : DataFrame) : result DataFrame :=
  region ← getitem df_delay_processed "城市群";
  org ← getitem df_delay_processed "发运库存组织";
  org' ← getitem df_delay_processed "发运库存组织";
  let m := mask_and (mask_and ((λ v, eq_str v "舟山区") <$> region)
                              (notna <$> org))
                    ((λ v, ne_str v "") <$> org') in
  df_drop (df_mask df_delay_processed m) "发运库存组织".

Definition clean_columns : list nat := [4; 8; 15; 21; 24; 26; 43; 45].

Definition start_row : nat := 2.

(** Lines 167-171: the values of the clean columns go, row by row from
    row 2 to the last row the sheet has when the loop starts. *)
Definition clean_template (ws : Worksheet) : result Worksheet :=
  for_each (λ row, for_each (λ col, set_value L row col VNull) clean_columns)
           (seq 2 (max_row ws - 1)) ws.

(** Lines 177-198: one row of the merged frame into [current_row]. *)
Definition fill_row (current_row : nat) (row : Row) (ws : Worksheet)
  : result Worksheet :=
  v ← row_get row "城市群";
  ws ← set_value L current_row 4 v ws;
  v ← row_get row "客户名称";
  ws ← set_value L current_row 8 v ws;
  v ← row_get row "物品说明";
  ws ← set_value L current_row 15 v ws;
  v ← row_get row "发货数量";
  ws ← set_value L current_row 21 v ws;
  let ws := set_number_format current_row 21 "0.00" ws in
  v ← row_get row "净重(吨)";
  ws ← set_value L current_row 24 v ws;
  let ws := set_number_format current_row 24 "0.000" ws in
  v ← row_get row "价目表价格";
  ws ← set_value L current_row 26 v ws;
  let ws := set_number_format current_row 26 "0.00" ws in
  v ← row_get row "税率";
  ws ← set_value L current_row 43 v ws;
  let ws := set_number_format current_row 43 "0.00%" ws in
  v ← row_get row "签收关单时间";
  ws ← set_value L current_row 45 v ws;
  let ws := set_number_format current_row 45 "yyyy/mm/dd" ws in
  mret ws.

(** Lines 176-198: [for idx, (_, row) in enumerate(df.iterrows())],
    from the row numbered [idx] on. *)
Fixpoint fill_rows (idx : nat) (rows : list Row) (ws : Worksheet)
  : result Worksheet :=
  match rows with
  | [] => mret ws
  | row :: rest =>
      ws ← fill_row (start_row + idx) row ws;
      fill_rows (S idx) rest ws
  end.

Definition fill_template (df_combined : DataFrame) (ws : Worksheet)
  : result Worksheet :=
  fill_rows 0 (iterrows df_combined) ws.

(** Steps 1 to 5 (lines 72-151): the existence checks, the two sheets
    of the data file, the two filtered frames and the merged frame
    [df_combined] of line 150. *)
Definition merge_phase (template_path data_path : string) : M DataFrame :=
  (* 1 *)
  template_exists ← os_path_exists template_path;
  raise_unless template_exists
    (FileNotFoundError ("模板文件不存在：" +:+ template_path));;
  data_exists ← os_path_exists data_path;
  raise_unless data_exists
    (FileNotFoundError ("数据文件不存在：" +:+ data_path));;
  log_callback "开始读取数据文件（提取数据并转换数值类型）...";;
  (* 2 *)
  sheet_names ← pd_ExcelFile_sheet_names data_path;
  ship_sheet_name ← lift (first_item (List.filter (contains "发货") sheet_names));
  delay_sheet_name ← lift (first_item (List.filter (contains "滞留") sheet_names));
  log_callback ("识别到数据文件发货表：" +:+ ship_sheet_name
                +:+ "，滞留表：" +:+ delay_sheet_name);;
  (* 3 *)
  log_callback "提取数据文件发货表舟山区数据并转换数值类型...";;
  df_ship ← pd_read_excel L data_path ship_sheet_name;
  cols ← lift (ship_cols df_ship);
  let df_ship_processed := pd_DataFrame cols in
  let df_ship_processed :=
    convert_numeric_columns df_ship_processed numeric_cols in
  log_callback "转换发货表签收关单时间（仅保留年月日，隐藏时分秒）...";;
  df_ship_processed ← lift (process_date_column df_ship_processed "签收关单时间");
  df_ship_zhoushan ← lift (filter_ship df_ship_processed);
  log_callback ("数据文件发货表提取到舟山区数据 "
                +:+ pretty (df_len df_ship_zhoushan) +:+ " 行");;
  (* 4 *)
  log_callback "提取数据文件滞留表舟山区数据并转换数值类型...";;
  df_delay ← pd_read_excel L data_path delay_sheet_name;
  cols ← lift (delay_cols df_delay);
  let df_delay_processed := pd_DataFrame cols in
  let df_delay_processed :=
    convert_numeric_columns df_delay_processed numeric_cols in
  let df_delay_processed :=
    setitem df_delay_processed "签收关单时间"
            (replicate (df_len df_delay_processed) VNull) in
  df_delay_zhoushan ← lift (filter_delay df_delay_processed);
  log_callback ("数据文件滞留表提取到舟山区数据 "
                +:+ pretty (df_len df_delay_zhoushan) +:+ " 行");;
  (* 5 *)
  log_callback "合并数据文件发货/滞留数据（仅保留日期，隐藏时分秒）...";;
  let df_combined := pd_concat df_ship_zhoushan df_delay_zhoushan in
  let df_combined := dropna_all df_combined in
  log_callback ("数据文件合并后总数据 " +:+ pretty (df_len df_combined) +:+ " 行");;
  mret df_combined.

(** Steps 6 to 9 (lines 157-205): the template is loaded, cleaned,
    filled and saved.  [ws] is the workbook's own sheet object, so the
    workbook that is saved has the sheet as the loops left it;
    [wb.close()] does nothing to a workbook that was not opened
    read-only. *)
Definition write_phase (template_path save_path : string)
    (df_combined : DataFrame) : M (bool * option string) :=
  (* 6 *)
  log_callback "加载模板文件（保留所有原始格式）...";;
  wb ← load_workbook template_path;
  raise_unless (bool_decide ("宁波发货" ∈ sheetnames wb))
    (KeyError "模板文件中不存在'宁波发货'工作表");;
  ws ← lift (wb_getitem wb "宁波发货");
  (* 7 *)
  log_callback "清洗模板表原有数据（仅清空数值，保留格式和公式）...";;
  ws ← lift (clean_template ws);
  (* 8 *)
  log_callback "填充数据文件新数据到模板（仅保留日期，兼容Excel公式）...";;
  ws ← lift (fill_template df_combined ws);
  (* 9 *)
  wb_save (wb_update wb "宁波发货" ws) save_path;;
  log_callback ("处理完成！模板表原有数据已清洗，AS列（45列）仅保留日期部分，保存至："
                +:+ save_path);;
  mret (true, None).

(** The routine: the two phases, the early return of lines 153-155
    between them, and the handler of lines 207-210 around all of it. *)
Definition process_excel_core (template_path data_path save_path : string)
  : M (bool * option string) :=
  try_except
    (df_combined ← merge_phase template_path data_path;
     if decide (df_len df_combined = 0) then
       log_callback "警告：数据文件合并后无有效数据！";;
       mret (false, Some "数据文件合并后无有效数据")
     else
       write_phase template_path save_path df_combined)
    (λ e,
       let error_msg := "处理失败：" +:+ exn_str e in
       log_callback error_msg;;
       mret (false, Some error_msg)).

(** *** The stages of the routine as functions

    The routine interleaves its steps with calls of the log callback.
    The functions below are the same steps, in the same order, without
    the log calls: what steps 3, 4 and 5 compute from the two frames,
    what steps 2 to 5 compute from the data file, and what steps 6 to 8
    make of the template for a given merged frame.  The facts about
    runs say that the routine computes exactly these. *)

Definition ship_stage (df_ship : DataFrame) : result DataFrame :=
  cols ← ship_cols df_ship;
  let df_ship_processed := pd_DataFrame cols in
  let df_ship_processed :=
    convert_numeric_columns df_ship_processed numeric_cols in
  df_ship_processed ← process_date_column df_ship_processed "签收关单时间";
  filter_ship df_ship_processed.

Definition delay_stage (df_delay : DataFrame) : result DataFrame :=
  cols ← delay_cols df_delay;
  let df_delay_processed := pd_DataFrame cols in
  let df_delay_processed :=
    convert_numeric_columns df_delay_processed numeric_cols in
  let df_delay_processed :=
    setitem df_delay_processed "签收关单时间"
            (replicate (df_len df_delay_processed) VNull) in
  filter_delay df_delay_processed.

Definition combine (df_ship_zhoushan df_delay_zhoushan : DataFrame) : DataFrame :=
  dropna_all (pd_concat df_ship_zhoushan df_delay_zhoushan).

Definition combined_of_file (fs : gmap string FileData) (data_path : string)
  : result DataFrame :=
  wb ← open_file true fs data_path;
  ship_sheet_name ← first_item (List.filter (contains "发货") (sheetnames wb));
  delay_sheet_name ← first_item (List.filter (contains "滞留") (sheetnames wb));
  df_ship ← parse_sheet L wb ship_sheet_name;
  df_ship_zhoushan ← ship_stage df_ship;
  df_delay ← parse_sheet L wb delay_sheet_name;
  df_delay_zhoushan ← delay_stage df_delay;
  mret (combine df_ship_zhoushan df_delay_zhoushan).

Definition filled_book (fs : gmap string FileData) (template_path : string)
    (df_combined : DataFrame) : result Workbook :=
  wb ← open_file false fs template_path;
  (if bool_decide ("宁波发货" ∈ sheetnames wb) then mret ()
   else inl (KeyError "模板文件中不存在'宁波发货'工作表"));;
  ws ← wb_getitem wb "宁波发货";
  ws ← clean_template ws;
  ws ← fill_template df_combined ws;
  mret (wb_update wb "宁波发货" ws).

(** *** The rows the specification speaks of

    The specification describes the merged table row by row.  A record
    of a source sheet is a row of the frame pandas read off the sheet,
    with its position; its text fields are read from the row by
    position, its numeric fields and its sign-off date are what pandas
    makes of the cell at the record's position in the column; and the
    merged rows are the normalised records that pass the region filter,
    shipment before backlog, without the rows in which every field is
    missing. *)

(** The cell at position [j] of a row. *)
Definition field (r : Row) (j : nat) : value :=
  match r !! j with
  | Some (_, v) => v
  | None => VNull
  end.

(** The cell at position [i] of the column [s] as a number. *)
Definition numeric_at (s : Series) (i : nat) : value :=
  default VNull (to_numeric_parse L s i).

(** The cell at position [i] of the column [s] as a date: the time
    stamp of its midnight. *)
Definition date_at (s : Series) (i : nat) : value :=
  match to_datetime_parse L s i with
  | Some (d, _) => VDateTime d (mkTime 0 0 0)
  | None => VNull
  end.

Definition ship_record (df_ship : DataFrame) (i : nat) (r : Row) : Row :=
  [("城市群", field r 3); ("客户名称", field r 7); ("物品说明", field r 15);
   ("发货数量", numeric_at (column df_ship 21) i);
   ("净重(吨)", numeric_at (column df_ship 24) i);
   ("价目表价格", numeric_at (column df_ship 26) i);
   ("税率", numeric_at (column df_ship 43) i);
   ("签收关单时间", date_at (column df_ship 28) i)].

Definition delay_record (df_delay : DataFrame) (i : nat) (r : Row) : Row :=
  [("城市群", field r 3); ("客户名称", field r 5); ("物品说明", field r 18);
   ("发货数量", numeric_at (column df_delay 27) i);
   ("净重(吨)", numeric_at (column df_delay 30) i);
   ("价目表价格", numeric_at (column df_delay 33) i);
   ("税率", numeric_at (column df_delay 55) i);
   ("签收关单时间", VNull)].

Definition ship_keep (r : Row) : bool := eq_str (field r 3) "舟山区".

Definition delay_keep (r : Row) : bool :=
  eq_str (field r 3) "舟山区" && notna (field r 26) && ne_str (field r 26) "".

(** What the record at position [i] adds to the merged table. *)
Definition ship_contribution (df_ship : DataFrame) (ir : nat * Row) : list Row :=
  if ship_keep ir.2 then [ship_record df_ship ir.1 ir.2] else [].

Definition delay_contribution (df_delay : DataFrame) (ir : nat * Row) : list Row :=
  if delay_keep ir.2 then [delay_record df_delay ir.1 ir.2] else [].

Definition ship_rows (df_ship : DataFrame) : list Row :=
  (λ ir, ship_record df_ship ir.1 ir.2)
    <$> List.filter (λ ir, ship_keep ir.2) (enumerate (iterrows df_ship)).

Definition delay_rows (df_delay : DataFrame) : list Row :=
  (λ ir, delay_record df_delay ir.1 ir.2)
    <$> List.filter (λ ir, delay_keep ir.2) (enumerate (iterrows df_delay)).

Definition merged_rows (df_ship df_delay : DataFrame) : list Row :=
  List.filter (negb ∘ all_na) (ship_rows df_ship ++ delay_rows df_delay).

End Pipeline.

(** The frame whose rows are given records of the eight merged fields. *)
Definition merged_columns : list string :=
  ["城市群"; "客户名称"; "物品说明"; "发货数量"; "净重(吨)"; "价目表价格";
   "税率"; "签收关单时间"].

Definition frame_of_records (rows : list Row) : DataFrame :=
  imap (λ j k, (k, (λ r, field r j) <$> rows)) merged_columns.

(** A record of the merged table: the eight fields, under their labels. *)
Definition is_record (r : Row) : Prop := r.*1 = merged_columns.

(** A frame all of whose columns have [n] cells. *)
Definition rect (n : nat) (df : DataFrame) : Prop :=
  Forall (λ kv, length kv.2 = n) df.

(** Where the four numeric fields are read, by position, in a shipment
    record and in a backlog record. *)
Definition ship_numeric_source : list (string * nat) :=
  [("发货数量", 21); ("净重(吨)", 24); ("价目表价格", 26); ("税率", 43)].

Definition delay_numeric_source : list (string * nat) :=
  [("发货数量", 27); ("净重(吨)", 30); ("价目表价格", 33); ("税率", 55)].

(** The column table of the template: label of the field, column of the
    template (from 1), and the display format the writer assigns, if it
    assigns one. *)
Definition template_table : list (string * nat * option string) :=
  [("城市群", 4, None); ("客户名称", 8, None); ("物品说明", 15, None);
   ("发货数量", 21, Some "0.00"); ("净重(吨)", 24, Some "0.000");
   ("价目表价格", 26, Some "0.00"); ("税率", 43, Some "0.00%");
   ("签收关单时间", 45, Some "yyyy/mm/dd")].

(** What the table makes of the cell [old] in column [c] for a record:
    the field of the column as its value, and as its format the one the
    table assigns or, for want of one, the one the assignment of the
    value leaves. *)
Definition written_cell (L : Library) (row : Row) (c : nat) (old : Cell) : Cell :=
  match List.find (λ e, Nat.eqb e.1.2 c) template_table with
  | Some (label, _, fmt) =>
      let v := default VNull (assoc label row) in
      mkCell v (default (bind_format L v (number_format old)) fmt)
  | None => old
  end.

(** ** The two loops of the writer as lists of assignments

    Both loops of the writer assign to cells, one after the other.  An
    assignment is a position, a value and the format to set after it,
    if one is set; the facts about worksheets say that the loops do
    exactly the assignments listed here, in this order. *)

Abbreviation Assignment := (nat * nat * value * option string)%type.

(** [cell.value = v], then [cell.number_format = f] if there is an [f]. *)
Definition put (L : Library) (a : Assignment) (ws : Worksheet) : result Worksheet :=
  ws ← set_value L a.1.1.1 a.1.1.2 a.1.2 ws;
  mret (match a.2 with
        | Some f => set_number_format a.1.1.1 a.1.1.2 f ws
        | None => ws
        end).

(** Lines 169-171 on a sheet whose last row is [last]. *)
Definition clean_items (last : nat) : list Assignment :=
  row ← seq 2 (last - 1); (λ col, (row, col, VNull, None)) <$> clean_columns.

(** Lines 177-198 for one row, and lines 176-198 for the rows from the
    one numbered [idx] on. *)
Definition row_items (current_row : nat) (row : Row) : list Assignment :=
  (λ e : string * nat * option string,
     (current_row, e.1.2, default VNull (assoc e.1.1 row), e.2))
    <$> template_table.

Definition fill_items (idx : nat) (rows : list Row) : list Assignment :=
  ir ← enumerate rows; row_items (start_row + idx + ir.1) ir.2.

(** The position of an assignment, and the cell it leaves there when it
    finds the format [old]. *)
Definition place (a : Assignment) : nat * nat := a.1.1.

Definition put_cell (L : Library) (a : Assignment) (old : string) : Cell :=
  mkCell a.1.2 (default (bind_format L a.1.2 old) a.2).

(** A value openpyxl takes. *)
Definition accepted (L : Library) (v : value) : Prop :=
  match v with VNull => None | _ => check_value L v end = None.

(** A cell that is no placeholder of a merged range. *)
Definition plain (cell : Cell) : Prop :=
  match cell with mkCell _ _ => True | MergedCell _ => False end.

(** The two sheets of the data file that lines 81-83 pick: the first
    whose name has the shipment marker in it and the first whose name
    has the backlog marker in it. *)
Definition data_sheets (fs : gmap string FileData) (data_path : string)
    (ws_ship ws_delay : Worksheet) : Prop :=
  ∃ (wb : Workbook) (ship_sheet_name delay_sheet_name : string),
    fs !! data_path = Some (Xlsx wb)
    ∧ first_item (List.filter (contains "发货") (sheetnames wb)) = inr ship_sheet_name
    ∧ first_item (List.filter (contains "滞留") (sheetnames wb)) = inr delay_sheet_name
    ∧ assoc ship_sheet_name wb = Some ws_ship
    ∧ assoc delay_sheet_name wb = Some ws_delay.

Section Outcome.

Variable L : Library.

(** What the first phase comes to, as a function of the files: the
    merged frame, if both paths exist and the data file yields one. *)
Definition merged_of (fs : gmap string FileData)
    (template_path data_path : string) : result DataFrame :=
  (if bool_decide (is_Some (fs !! template_path)) then mret ()
   else inl (FileNotFoundError ("模板文件不存在：" +:+ template_path)));;
  (if bool_decide (is_Some (fs !! data_path)) then mret ()
   else inl (FileNotFoundError ("数据文件不存在：" +:+ data_path)));;
  combined_of_file L fs data_path.

(** What [wb.save] comes to at a path: what it returns or raises, and
    the file it leaves there, if it writes there at all. *)
Definition save_outcome (ro : gset string) (breaks : gmap string (exn * FileData))
    (save_path : string) (wb : Workbook) : result unit * option FileData :=
  if decide (save_path ∈ ro)
  then (inl (OSError ("[Errno 13] Permission denied: '" +:+ save_path +:+ "'")),
        None)
  else match breaks !! save_path with
       | Some (e, left_over) => (inl e, Some left_over)
       | None => (inr (), Some (Xlsx wb))
       end.

(** What a run comes to, as a function of the files and of the paths
    that cannot be written or break off: what the body of the [try]
    returns or raises, and the file the run leaves at the save path, if
    it writes there at all. *)
Definition outcome (fs : gmap string FileData) (ro : gset string)
    (breaks : gmap string (exn * FileData))
    (template_path data_path save_path : string)
  : result (bool * option string) * option FileData :=
  match merged_of fs template_path data_path with
  | inl e => (inl e, None)
  | inr df_combined =>
      if decide (df_len df_combined = 0)
      then (inr (false, Some "数据文件合并后无有效数据"), None)
      else
        match filled_book L fs template_path df_combined with
        | inl e => (inl e, None)
        | inr wb =>
            let (r, left) := save_outcome ro breaks save_path wb in
            (r ≫= λ _, mret (true, None), left)
        end
  end.

(** The pair the routine returns for what its body came to. *)
Definition returned (r : result (bool * option string)) : bool * option string :=
  match r with
  | inr res => res
  | inl e => (false, Some ("处理失败：" +:+ exn_str e))
  end.

(** The files a run leaves. *)
Definition files_after (fs : gmap string FileData) (save_path : string)
    (left : option FileData) : gmap string FileData :=
  match left with
  | Some d => <[save_path := d]> fs
  | None => fs
  end.

End Outcome.

(** ** Sample data

    A data workbook and a template small enough to run the routine on,
    with stand-ins for the rules of the two libraries. *)

(** A number parses as itself and the text "10.5" as its number. *)
Definition sample_to_numeric (s : Series) (i : nat) : option value :=
  match s !! i with
  | Some (VNum q) => Some (VNum q)
  | Some (VStr "10.5") => Some (VNum (Qmake 21 2))
  | _ => None
  end.

(** A time stamp and a date parse, nothing else does. *)
Definition sample_to_datetime (s : Series) (i : nat) : option (date * time) :=
  match s !! i with
  | Some (VDateTime d t) => Some (d, t)
  | Some (VDate d) => Some (d, mkTime 0 0 0)
  | _ => None
  end.

(** The label of column [j] (from 0) of a sheet: the text of its header
    cell. *)
Definition header_label (ws : Worksheet) (j : nat) : string :=
  match value_of (ws_cell ws 1 (S j)) with
  | VStr s => s
  | _ => "Unnamed: " +:+ pretty j
  end.

(** The texts pandas reads as a missing value. *)
Definition na_values : list string :=
  [""; "#N/A"; "#N/A N/A"; "#NA"; "-1.#IND"; "-1.#QNAN"; "-NaN"; "-nan";
   "1.#IND"; "1.#QNAN"; "<NA>"; "N/A"; "NA"; "NULL"; "NaN"; "None"; "n/a";
   "nan"; "null"].

Definition read_cell (cell : Cell) : value :=
  match value_of cell with
  | VStr s => if bool_decide (s ∈ na_values) then VNull else VStr s
  | v => v
  end.

(** The last row, or column, in which a cell has a value. *)
Definition used (side : nat * nat → nat) (ws : Worksheet) : nat :=
  map_fold (λ (k : nat * nat) (cell : Cell) (m : nat),
              match value_of cell with VNull => m | _ => side k `max` m end)
           0 ws.

(** A sheet read cell by cell: row 1 is the header, every later row
    down to the last one with a value is a record, as wide as the part
    of the sheet that has values; an absent cell and a text of
    [na_values] read as missing. *)
Definition sample_read_sheet (ws : Worksheet) : Table :=
  (header_label ws <$> seq 0 (used snd ws),
   (λ r, (λ j, read_cell (ws_cell ws r (S j))) <$> seq 0 (used snd ws))
     <$> seq 2 (used fst ws - 1)).

Lemma used_le_max_column (ws : Worksheet) : used snd ws ≤ max_column ws.
Proof.
  assert (∀ b, (∀ k cell, ws !! k = Some cell → k.2 ≤ b) → used snd ws ≤ b) as Hused.
  { intros b. unfold used.
    apply (map_fold_weak_ind
             (λ (r : nat) (m : Worksheet),
                (∀ k cell, m !! k = Some cell → k.2 ≤ b) → r ≤ b)).
    - lia.
    - intros k cell m r Hk IH Hb.
      assert (k.2 ≤ b) by (apply (Hb k cell); by rewrite lookup_insert_eq).
      assert (r ≤ b).
      { apply IH. intros k' cell' Hk'. apply (Hb k' cell').
        rewrite lookup_insert_ne; [done|]. intros ->. congruence. }
      destruct (value_of cell); lia. }
  apply Hused. unfold max_column.
  apply (map_fold_weak_ind
           (λ (r : nat) (m : Worksheet), ∀ k cell, m !! k = Some cell → k.2 ≤ r)).
  - intros k cell Hk. by rewrite lookup_empty in Hk.
  - intros k cell m r Hk IH k' cell' Hk'.
    destruct (decide (k = k')) as [->|Hne]; [lia|].
    rewrite lookup_insert_ne in Hk' by done. pose proof (IH _ _ Hk'). lia.
Qed.

Lemma sample_read_sheet_width (ws : Worksheet) :
  length (sample_read_sheet ws).1 ≤ max_column ws.
Proof. cbn. rewrite length_fmap, length_seq. apply used_le_max_column. Qed.

(** A format is a date format when it has one of the letters of a date
    or a time in it. *)
Definition sample_is_date_format (fmt : string) : bool :=
  existsb (λ letter, contains letter fmt) ["y"; "m"; "d"; "h"; "s"].

Definition sample_library : Library :=
  {| read_sheet := sample_read_sheet;
     read_sheet_width := sample_read_sheet_width;
     to_numeric_parse := sample_to_numeric;
     to_datetime_parse := sample_to_datetime;
     is_date_format := sample_is_date_format;
     check_value := λ _, None |}.

Definition general (v : value) : Cell := mkCell v "General".

(** Three shipment records: one of the target region with a quantity and
    a sign-off time, one of another region, one of the target region
    whose sign-off cell is no date. *)
Definition sample_ship_sheet : Worksheet :=
  list_to_map
    [((1, 44), general (VStr "税率"));
     ((2, 4), general (VStr "舟山区")); ((2, 8), general (VStr "A"));
     ((2, 22), general (VStr "10.5"));
     ((2, 29), general (VDateTime (mkDate 2024 1 2) (mkTime 8 0 0)));
     ((3, 4), general (VStr "宁波区")); ((3, 8), general (VStr "B"));
     ((4, 4), general (VStr "舟山区")); ((4, 8), general (VStr "C"));
     ((4, 22), general (VStr "")); ((4, 29), general (VStr "pending"))].

(** Two backlog records of the target region: one without organisation,
    one with. *)
Definition sample_delay_sheet : Worksheet :=
  list_to_map
    [((1, 56), general (VStr "税率"));
     ((2, 4), general (VStr "舟山区")); ((2, 6), general (VStr "D"));
     ((2, 27), general (VStr ""));
     ((3, 4), general (VStr "舟山区")); ((3, 6), general (VStr "E"));
     ((3, 27), general (VStr "ORG1"));
     ((3, 28), general (VNum (Qmake 3 1)))].

(** A template with a header, one old record in row 5 and a formula
    beside it. *)
Definition sample_template_sheet : Worksheet :=
  list_to_map
    [((1, 4), general (VStr "城市群"));
     ((5, 4), mkCell (VStr "old") "@");
     ((5, 5), mkCell (VStr "=D5") "0.0");
     ((5, 21), mkCell (VNum (Qmake 7 1)) "0.0")].


Definition sample_world : World :=
  mkWorld
    (list_to_map
       [("t.xlsx", Xlsx [("说明", ∅); ("宁波发货", sample_template_sheet)]);
        ("d.xlsx", Xlsx [("发货明细", sample_ship_sheet);
                         ("滞留明细", sample_delay_sheet)])])
    ∅ ∅ [] [].

(** A data workbook none of whose records is kept, beside a template
    that has no target sheet. *)
Definition sample_world_empty : World :=
  mkWorld
    (list_to_map
       [("t.xlsx", Xlsx [("说明", ∅)]);
        ("d.xlsx",
         Xlsx [("发货明细",
                list_to_map [((1, 44), general (VStr "税率"));
                             ((2, 4), general (VStr "宁波区"))]);
               ("滞留明细",
                list_to_map [((1, 56), general (VStr "税率"));
                             ((2, 4), general (VStr "舟山区"));
                             ((2, 27), general (VStr ""))])])])
    ∅ ∅ [] [].

(** The frame the sample run merges. *)
Definition sample_merged : DataFrame :=
  match (merge_phase sample_library "t.xlsx" "d.xlsx" sample_world).2 with
  | inr df => df
  | inl _ => []
  end.

(** The target sheet of the workbook the sample run saves. *)
Definition sample_saved_sheet : Worksheet :=
  match files (process_excel_core sample_library
                 "t.xlsx" "d.xlsx" "o.xlsx" sample_world).1 !! "o.xlsx" with
  | Some (Xlsx wb) => default ∅ (assoc "宁波发货" wb)
  | _ => ∅
  end.

(** A data workbook whose shipment sheet has four columns only. *)
Definition sample_world_narrow : World :=
  mkWorld
    (list_to_map
       [("t.xlsx", Xlsx [("宁波发货", sample_template_sheet)]);
        ("d.xlsx",
         Xlsx [("发货", list_to_map [((1, 4), general (VStr "城市群"));
                                     ((2, 4), general (VStr "舟山区"))]);
               ("滞留", sample_delay_sheet)])])
    ∅ ∅ [] [].


(** A shipment sheet in which the customer cell of the one record holds
    a date and time. *)
Definition sample_dated_sheet : Worksheet :=
  list_to_map
    [((1, 44), general (VStr "税率"));
     ((2, 4), general (VStr "舟山区"));
     ((2, 8), mkCell (VDateTime (mkDate 2024 1 2) (mkTime 8 0 0)) "yyyy-mm-dd h:mm:ss")].

Definition sample_world_dated : World :=
  mkWorld
    (list_to_map
       [("t.xlsx", Xlsx [("宁波发货", sample_template_sheet)]);
        ("d.xlsx", Xlsx [("发货明细", sample_dated_sheet);
                         ("滞留明细", sample_delay_sheet)])])
    ∅ ∅ [] [].

(** ** The page (src/app.py)

    The page keeps three things in the session state of Streamlit, logs
    through a callback that stamps each message and keeps the latest
    fifty, completes the name of the result file, and after a run shows
    one of three result areas. *)

(** [st.session_state]: the three keys lines 62-67 initialise. *)
Record Session := mkSession {
  log_list : list string;
  process_success : bool;
  save_path : string
}.

(** [l[-n:]] for a positive [n]. *)
Definition last_items {A} (n : nat) (l : list A) : list A :=
  drop (length l - n) l.

(** Lines 70-78.  [timestamp] is what [strftime] gives at the call. *)
Definition streamlit_log_callback (timestamp msg : string) (s : Session)
  : Session :=
  let log_msg := timestamp +:+ " " +:+ msg in
  let l := log_list s ++ [log_msg] in
  mkSession (if 50 <? length l then last_items 50 l else l)
            (process_success s) (save_path s).

(** [s.endswith(suffix)]: some tail of [s] is [suffix]. *)
Fixpoint endswith (s suffix : string) : bool :=
  String.eqb s suffix ||
  match s with
  | EmptyString => false
  | String _ rest => endswith rest suffix
  end.

(** Lines 116-117: the name typed into the text input, completed. *)
Definition result_filename (typed : string) : string :=
  if negb (endswith typed ".xlsx") then typed +:+ ".xlsx" else typed.

(** [f"{error_msg}"] for a message that may be [None]. *)
Definition format_msg (error_msg : option string) : string :=
  default "None" error_msg.

(** Lines 175-179: the pair the routine returned goes into the session
    and into the log. *)
Definition report_result (timestamp : string) (res : bool * option string)
    (result_path : string) (s : Session) : Session :=
  let (success, error_msg) := res in
  let s := mkSession (log_list s) success (save_path s) in
  if success then
    streamlit_log_callback timestamp
      ("🎉 处理成功！结果文件已保存至项目根目录：" +:+ result_path) s
  else
    streamlit_log_callback timestamp ("❌ 处理失败：" +:+ format_msg error_msg) s.

(** Lines 187-205: what the result area shows. *)
Inductive Area :=
| Download (path : string)
| ErrorBanner
| Hint.

Definition result_area (path_exists : string → bool) (s : Session) : Area :=
  if process_success s && path_exists (save_path s) then Download (save_path s)
  else if match last (log_list s) with
          | Some m => contains "处理失败" m
          | None => false
          end
       then ErrorBanner
       else Hint.

(** A session in which a run that saves at "o.xlsx" has just begun. *)
Definition sample_session : Session :=
  mkSession ["[2024-01-02 08:00:00] 🔍 开始校验上传文件，准备处理..."] false "o.xlsx".

(** * Frames and their rows *)

Lemma zip_with_fmap_same {X A B C} (g : A → B → C) (f : X → A) (h : X → B) (R : list X) :
  zip_with g (f <$> R) (h <$> R) = (λ x, g (f x) (h x)) <$> R.
Proof. induction R as [|x R IH]; simpl; [done | by f_equal]. Qed.

Lemma replicate_fmap_const {X A} (a : A) (R : list X) :
  replicate (length R) a = (λ _, a) <$> R.
Proof. induction R as [|x R IH]; simpl; [done | by f_equal]. Qed.

Lemma df_rows_fmap {X} (fs : list (string * (X → value))) (R : list X) :
  df_rows (length R) ((λ kf, (kf.1, kf.2 <$> R)) <$> fs)
  = (λ x, (λ kf, (kf.1, kf.2 x)) <$> fs) <$> R.
Proof.
  induction fs as [|[k f] fs IH].
  - apply replicate_fmap_const.
  - rewrite fmap_cons. cbn [df_rows fst snd]. rewrite IH.
    apply (zip_with_fmap_same (λ v r, (k, v) :: r)).
Qed.

Lemma df_rows_length n df : rect n df → length (df_rows n df) = n.
Proof.
  induction 1 as [|[k s] df Hs _ IH]; simpl.
  - apply length_replicate.
  - rewrite length_zip_with. simpl in Hs. lia.
Qed.

Lemma fmap_zip_with_snd {A B C D} (g : C → D) (h : B → D) (f : A → B → C)
    (l : list A) (k : list B) :
  (∀ x y, g (f x y) = h y) → length k ≤ length l →
  g <$> zip_with f l k = h <$> k.
Proof.
  intros Hg. revert k.
  induction l as [|x l IH]; intros [|y k] Hlen; simpl in *; try done; [lia|].
  f_equal; [apply Hg | apply IH; lia].
Qed.

Lemma column_of_rows n df j k s :
  rect n df → df !! j = Some (k, s) → s = (λ r, field r j) <$> df_rows n df.
Proof.
  intros Hrect. revert j.
  induction Hrect as [|[k0 s0] df Hs Hrect IH]; intros j Hj; [done|].
  simpl in Hs. pose proof (df_rows_length _ _ Hrect) as Hlen.
  destruct j as [|j]; simpl in *.
  - injection Hj as -> ->. symmetry.
    apply fmap_zip_with_l; [done | lia].
  - rewrite (IH _ Hj) at 1. symmetry.
    apply fmap_zip_with_snd; [done | lia].
Qed.

Lemma iloc_col_rows n df j :
  rect n df → j < length df →
  iloc_col df j = inr ((λ r, field r j) <$> df_rows n df).
Proof.
  intros Hrect Hj. unfold iloc_col.
  destruct (lookup_lt_is_Some_2 df j Hj) as [[k s] Hs].
  rewrite Hs. f_equal. by eapply column_of_rows.
Qed.

Lemma df_len_rect n df : rect n df → df ≠ [] → df_len df = n.
Proof. intros Hrect Hne. destruct Hrect as [|[k s] df Hs _]; done. Qed.

Lemma mask_select_fmap {X A} (p : X → bool) (f : X → A) (R : list X) :
  mask_select (p <$> R) (f <$> R) = f <$> List.filter p R.
Proof.
  induction R as [|x R IH]; simpl; [done|].
  destruct (p x); simpl; by f_equal.
Qed.

Lemma mask_assign_valid (g : value → value) (s : Series) :
  mask_assign (notna <$> s) s (g <$> mask_select (notna <$> s) s)
  = (λ v, if notna v then g v else v) <$> s.
Proof.
  induction s as [|v s IH]; simpl; [done|].
  destruct (notna v); simpl; by f_equal.
Qed.

Lemma reindex_full n (s : Series) : length s = n → reindex n s = s.
Proof. intros <-. unfold reindex. by rewrite take_app_length. Qed.

Lemma reindex_nil n : reindex n [] = replicate n VNull.
Proof. unfold reindex. simpl. by rewrite take_replicate, Nat.min_id. Qed.

Lemma pd_DataFrame_reindex n (d : list (string * Series)) :
  max_list ((length ∘ snd) <$> d) = n →
  pd_DataFrame d = (λ kv, (kv.1, reindex n kv.2)) <$> d.
Proof. intros <-. done. Qed.

Lemma column_rows n df j :
  rect n df → j < length df → column df j = (λ r, field r j) <$> df_rows n df.
Proof.
  intros Hrect Hj. unfold column.
  destruct (lookup_lt_is_Some_2 df j Hj) as [[k s] Hs].
  rewrite Hs. by eapply column_of_rows.
Qed.

(** Rows with their positions. *)
Lemma fmap_enumerate_snd {A B} (f : A → B) (l : list A) :
  (λ ix, f ix.2) <$> enumerate l = f <$> l.
Proof.
  unfold enumerate.
  assert (∀ (e : nat → nat),
            (λ ix : nat * A, f ix.2) <$> imap (λ i x, (e i, x)) l = f <$> l) as H.
  { induction l as [|x l IH]; intros e; cbn; [done|].
    f_equal. apply (IH (e ∘ S)). }
  apply (H id).
Qed.

Lemma imap_fmap_enumerate {A B C} (g : nat → C) (f : nat * A → B) (l : list A) :
  imap (λ i _, g i) (f <$> enumerate l) = (λ ix, g ix.1) <$> enumerate l.
Proof.
  unfold enumerate.
  assert (∀ (e : nat → nat),
            imap (λ i _, g (e i)) (f <$> imap (λ i x, (e i, x)) l)
            = (λ ix : nat * A, g ix.1) <$> imap (λ i x, (e i, x)) l) as H.
  { induction l as [|x l IH]; intros e; cbn; [done|].
    f_equal. apply (IH (e ∘ S)). }
  apply (H id).
Qed.

Lemma length_enumerate {A} (l : list A) : length (enumerate l) = length l.
Proof. apply length_imap. Qed.

Lemma enumerate_lookup {A} (l : list A) (i : nat) (x : A) :
  l !! i = Some x → enumerate l !! i = Some (i, x).
Proof. intros Hx. unfold enumerate. by rewrite list_lookup_imap, Hx. Qed.

Lemma elem_of_enumerate {A} (l : list A) (i : nat) (x : A) :
  (i, x) ∈ enumerate l ↔ l !! i = Some x.
Proof.
  unfold enumerate. rewrite list_elem_of_lookup. split.
  - intros [j Hj]. rewrite list_lookup_imap in Hj.
    destruct (l !! j) as [y|] eqn:Hy; [|done]. cbn in Hj. by simplify_eq.
  - intros Hx. exists i. by rewrite list_lookup_imap, Hx.
Qed.

Section StageFacts.
Variable L : Library.

Local Abbreviation ship_stage := (ship_stage L).
Local Abbreviation ship_rows := (ship_rows L).
Local Abbreviation to_numeric_coerce := (to_numeric_coerce L).
Local Abbreviation to_datetime_coerce := (to_datetime_coerce L).
Local Abbreviation numeric_at := (numeric_at L).
Local Abbreviation date_at := (date_at L).

Lemma to_numeric_coerce_enumerate {A} (f : nat * A → value) (l : list A) :
  to_numeric_coerce (f <$> enumerate l)
  = (λ ix, numeric_at (f <$> enumerate l) ix.1) <$> enumerate l.
Proof. unfold to_numeric_coerce. apply imap_fmap_enumerate. Qed.

Lemma to_datetime_coerce_enumerate {A} (f : nat * A → value) (l : list A) :
  to_datetime_coerce (f <$> enumerate l)
  = (λ ix, match to_datetime_parse L (f <$> enumerate l) ix.1 with
           | Some (d, t) => VDateTime d t
           | None => VNull
           end) <$> enumerate l.
Proof. unfold to_datetime_coerce. apply (imap_fmap_enumerate (λ i, _)). Qed.

Lemma ship_stage_rows n df :
  rect n df → 44 ≤ length df →
  ship_stage df = inr (frame_of_records (ship_rows df)).
Proof.
  intros Hrect Hw.
  assert (df_len df = n) as Hn.
  { apply df_len_rect; [done|]. intros ->. simpl in Hw. lia. }
  unfold ship_stage, ship_cols.
  rewrite !(iloc_col_rows n) by (done || lia).
  cbn [mbind result_bind mret result_ret].
  pose proof (df_rows_length _ _ Hrect) as HR.
  unfold ship_rows, ship_record, iterrows. rewrite Hn.
  rewrite !(column_rows n) by (done || lia).
  set (R := df_rows n df) in *. clearbody R.
  rewrite (pd_DataFrame_reindex n)
    by (cbn [fmap list_fmap compose snd max_list]; rewrite !length_fmap;
        unfold id; lia).
  cbn [fmap list_fmap fst snd].
  rewrite !reindex_full by (by rewrite length_fmap).
  rewrite <- !(fmap_enumerate_snd (λ r, field r _) R).
  unfold convert_numeric_columns, numeric_cols.
  cbn -[to_numeric_coerce to_datetime_coerce fmap mask_assign mask_select enumerate].
  rewrite !to_numeric_coerce_enumerate, to_datetime_coerce_enumerate.
  rewrite <- (list_fmap_compose dt_date as_datetime64), mask_assign_valid.
  unfold df_mask, frame_of_records.
  cbn [fmap list_fmap fst snd imap merged_columns compose].
  rewrite <- !list_fmap_compose, !mask_select_fmap.
  unfold mret, result_ret.
  f_equal.
  repeat (apply (f_equal2 (@cons _)); [apply (f_equal2 pair); [reflexivity|] |]);
    try reflexivity.
  apply list_fmap_ext. intros _ [i r] _. unfold compose, date_at.
  cbn [field lookup list_lookup fst snd].
  destruct (to_datetime_parse L _ i) as [[d t]|]; done.
Qed.

Local Abbreviation delay_stage := (delay_stage L).
Local Abbreviation delay_rows := (delay_rows L).

Lemma delay_stage_rows n df :
  rect n df → 56 ≤ length df →
  delay_stage df = inr (frame_of_records (delay_rows df)).
Proof.
  intros Hrect Hw.
  assert (df_len df = n) as Hn.
  { apply df_len_rect; [done|]. intros ->. simpl in Hw. lia. }
  unfold delay_stage, delay_cols.
  rewrite !(iloc_col_rows n) by (done || lia).
  cbn [mbind result_bind mret result_ret].
  pose proof (df_rows_length _ _ Hrect) as HR.
  unfold delay_rows, delay_record, iterrows. rewrite Hn.
  rewrite !(column_rows n) by (done || lia).
  set (R := df_rows n df) in *. clearbody R.
  rewrite (pd_DataFrame_reindex n)
    by (cbn [fmap list_fmap compose snd max_list length]; rewrite !length_fmap;
        unfold id; lia).
  cbn [fmap list_fmap fst snd].
  rewrite !reindex_full by (by rewrite length_fmap).
  rewrite <- !(fmap_enumerate_snd (λ r, field r _) R).
  unfold convert_numeric_columns, numeric_cols.
  cbn -[to_numeric_coerce fmap replicate reindex enumerate].
  rewrite !to_numeric_coerce_enumerate.
  rewrite length_fmap, length_enumerate, HR.
  unfold filter_delay.
  cbn -[fmap replicate reindex mask_and mask_select enumerate].
  rewrite <- HR, <- (length_enumerate R), replicate_fmap_const.
  unfold mask_and.
  rewrite <- !list_fmap_compose, !zip_with_fmap_same.
  unfold df_drop, df_mask, frame_of_records.
  cbn [fmap list_fmap fst snd imap merged_columns compose].
  rewrite <- ?list_fmap_compose, !mask_select_fmap.
  cbn -[fmap enumerate].
  unfold mret, result_ret. f_equal.
Qed.
End StageFacts.

Lemma frame_of_records_columns (rows : list Row) :
  frame_of_records rows
  = (λ kf : string * (Row → value), (kf.1, kf.2 <$> rows))
      <$> imap (λ j k, (k, λ r : Row, field r j)) merged_columns.
Proof. done. Qed.

Lemma df_len_frame_of_records rows : df_len (frame_of_records rows) = length rows.
Proof. unfold frame_of_records. cbn [imap merged_columns df_len]. apply length_fmap. Qed.

Lemma record_eta (r : Row) :
  is_record r →
  (λ kf : string * (Row → value), (kf.1, kf.2 r))
    <$> imap (λ j k, (k, λ r : Row, field r j)) merged_columns = r.
Proof.
  unfold is_record, merged_columns. intros Hr.
  do 9 (destruct r as [|[? ?] r]; try discriminate Hr).
  cbn in Hr. by simplify_eq.
Qed.

Lemma iterrows_frame_of_records rows :
  Forall is_record rows → iterrows (frame_of_records rows) = rows.
Proof.
  intros Hrec. unfold iterrows. rewrite df_len_frame_of_records.
  rewrite frame_of_records_columns, df_rows_fmap.
  rewrite <- (list_fmap_id rows) at 2.
  apply Forall_fmap_ext, (Forall_impl _ _ _ Hrec). intros r Hr.
  by apply record_eta.
Qed.

Lemma pd_concat_frame_of_records (a b : list Row) :
  pd_concat (frame_of_records a) (frame_of_records b) = frame_of_records (a ++ b).
Proof.
  unfold pd_concat, frame_of_records, df_columns, column_or_na.
  cbn -[fmap]. cbn [fmap list_fmap fst snd]. cbn -[fmap].
  by rewrite !fmap_app.
Qed.

Lemma dropna_all_frame_of_records rows :
  Forall is_record rows →
  dropna_all (frame_of_records rows)
  = frame_of_records (List.filter (negb ∘ all_na) rows).
Proof.
  intros Hrec. unfold dropna_all. rewrite iterrows_frame_of_records by done.
  unfold df_mask, frame_of_records.
  cbn [imap merged_columns fmap list_fmap fst snd compose].
  by rewrite !mask_select_fmap.
Qed.

Lemma Forall_list_filter {A} (P : A → Prop) (p : A → bool) (l : list A) :
  Forall P l → Forall P (List.filter p l).
Proof.
  induction 1 as [|x l Hx _ IH]; simpl; [done|].
  destruct (p x); [by constructor | done].
Qed.

Section MergeFacts.
Variable L : Library.

Local Abbreviation ship_stage := (ship_stage L).
Local Abbreviation ship_rows := (ship_rows L).
Local Abbreviation delay_stage := (delay_stage L).
Local Abbreviation delay_rows := (delay_rows L).
Local Abbreviation merged_rows := (merged_rows L).

Lemma ship_rows_records df : Forall is_record (ship_rows df).
Proof. unfold ship_rows. apply Forall_fmap, Forall_forall. by intros r _. Qed.

Lemma delay_rows_records df : Forall is_record (delay_rows df).
Proof. unfold delay_rows. apply Forall_fmap, Forall_forall. by intros r _. Qed.

Lemma merged_rows_records s d : Forall is_record (merged_rows s d).
Proof.
  unfold merged_rows. apply Forall_list_filter, Forall_app.
  split; [apply ship_rows_records | apply delay_rows_records].
Qed.

Lemma combine_frame_of_records a b :
  Forall is_record a → Forall is_record b →
  combine (frame_of_records a) (frame_of_records b)
  = frame_of_records (List.filter (negb ∘ all_na) (a ++ b)).
Proof.
  intros Ha Hb. unfold combine.
  rewrite pd_concat_frame_of_records, dropna_all_frame_of_records; [done|].
  by apply Forall_app.
Qed.
End MergeFacts.

(** * Worksheets *)

Lemma ws_cell_lookup (ws ws' : Worksheet) (r c : nat) :
  ws' !! (r, c) = ws !! (r, c) → ws_cell ws' r c = ws_cell ws r c.
Proof. unfold ws_cell. by intros ->. Qed.

Lemma ws_cell_insert (ws : Worksheet) (k : nat * nat) (cell : Cell) :
  ws_cell (<[k := cell]> ws) k.1 k.2 = cell.
Proof. destruct k as [r c]. unfold ws_cell. cbn. by rewrite lookup_insert_eq. Qed.

Lemma bind_format_null (L : Library) (f : string) : bind_format L VNull f = f.
Proof. reflexivity. Qed.

(** Assigning a value a second time leaves the format of the first. *)
Lemma bind_format_again (L : Library) (v : value) (f : string) :
  bind_format L v (bind_format L v f) = bind_format L v f.
Proof.
  unfold bind_format. destruct (time_format v) as [g|]; [|done].
  destruct (is_date_format L f) eqn:Hf; [by rewrite Hf|].
  by destruct (is_date_format L g).
Qed.

Lemma for_each_app {A S} (f : A → S → result S) (l1 l2 : list A) (s : S) :
  for_each f (l1 ++ l2) s = for_each f l1 s ≫= for_each f l2.
Proof.
  revert s. induction l1 as [|x l1 IH]; intros s; [done|].
  cbn. destruct (f x s) as [e|s']; [done|]. apply IH.
Qed.

Lemma for_each_ext {A S} (f g : A → S → result S) (l : list A) (s : S) :
  (∀ x s, f x s = g x s) → for_each f l s = for_each g l s.
Proof.
  intros Hfg. revert s. induction l as [|x l IH]; intros s; [done|].
  cbn. rewrite Hfg. destruct (g x s) as [e|s']; [done|]. apply IH.
Qed.

Lemma for_each_fmap {A B S} (f : B → S → result S) (h : A → B) (l : list A) (s : S) :
  for_each f (h <$> l) s = for_each (λ x, f (h x)) l s.
Proof.
  revert s. induction l as [|x l IH]; intros s; [done|].
  cbn. destruct (f (h x) s) as [e|s']; [done|]. apply IH.
Qed.

Lemma for_each_flat {A B S} (f : B → S → result S) (g : A → list B)
    (l : list A) (s : S) :
  for_each f (l ≫= g) s = for_each (λ x, for_each f (g x)) l s.
Proof.
  revert s. induction l as [|x l IH]; intros s; [done|].
  cbn. rewrite for_each_app.
  destruct (for_each f (g x) s) as [e|s']; [done|]. apply IH.
Qed.

Lemma fmap_bind_list {A B C} (f : B → C) (g : A → list B) (l : list A) :
  f <$> (l ≫= g) = l ≫= (λ x, f <$> g x).
Proof.
  induction l as [|x l IH]; [done|]. cbn. by rewrite fmap_app, IH.
Qed.

Lemma NoDup_clean_columns : NoDup clean_columns.
Proof. apply (bool_decide_unpack _). reflexivity. Qed.

Lemma clean_columns_table : clean_columns = (λ e, e.1.2) <$> template_table.
Proof. reflexivity. Qed.

Lemma table_column (c : nat) :
  c ∈ clean_columns ↔ ∃ e, e ∈ template_table ∧ e.1.2 = c.
Proof.
  rewrite clean_columns_table, list_elem_of_fmap. split.
  - intros (e & -> & He). by exists e.
  - intros (e & He & <-). by exists e.
Qed.

Section Assignments.

Variable L : Library.

(** One assignment: it goes through on a cell that is no placeholder
    with a value the library takes, and then it replaces that one cell. *)
Lemma put_inr (a : Assignment) (ws ws' : Worksheet) :
  put L a ws = inr ws' ↔
  plain (ws_cell ws (place a).1 (place a).2) ∧ accepted L a.1.2 ∧
  ws' = <[place a :=
            put_cell L a (number_format (ws_cell ws (place a).1 (place a).2))]> ws.
Proof.
  destruct a as [[[r c] v] fmt]. unfold put, set_value, place, put_cell, accepted.
  cbn [fst snd].
  destruct (ws_cell ws r c) as [v0 f0|f0] eqn:Hcell; cbn.
  - destruct (match v with VNull => None | _ => check_value L v end) as [e|] eqn:Hv.
    + destruct v; cbn in *; split; try done; intros (_ & ? & _); congruence.
    + assert (match fmt with
              | Some f => set_number_format r c f (<[(r, c) := mkCell v (bind_format L v f0)]> ws)
              | None => <[(r, c) := mkCell v (bind_format L v f0)]> ws
              end = <[(r, c) := mkCell v (default (bind_format L v f0) fmt)]> ws) as Heq.
      { destruct fmt as [f|]; [|done]. unfold set_number_format.
        rewrite (ws_cell_insert ws (r, c)). by rewrite insert_insert_eq. }
      destruct v; cbn in *; rewrite ?Hv, ?Heq; cbn;
        (split; [intros [= <-]; done | intros (_ & _ & ->); done]).
  - split; [by destruct v | by intros []].
Qed.

Lemma put_set_value (r c : nat) (v : value) (ws : Worksheet) :
  put L (r, c, v, None) ws = set_value L r c v ws.
Proof. unfold put. cbn. by destruct (set_value L r c v ws). Qed.

(** A list of assignments to distinct cells: it goes through on cells
    that are no placeholders with values the library takes, and then
    every cell it names holds what its assignment makes of it, and every
    other cell is as before. *)
Lemma puts_inr (items : list Assignment) (ws ws' : Worksheet) :
  NoDup (place <$> items) →
  for_each (put L) items ws = inr ws' →
  (∀ a, a ∈ items →
     plain (ws_cell ws (place a).1 (place a).2) ∧ accepted L a.1.2
     ∧ ws' !! place a
       = Some (put_cell L a (number_format (ws_cell ws (place a).1 (place a).2))))
  ∧ (∀ k, k ∉ place <$> items → ws' !! k = ws !! k).
Proof.
  revert ws. induction items as [|a items IH]; intros ws Hnd Hrun.
  - cbn in Hrun. injection Hrun as <-. split; [intros a Ha; by apply elem_of_nil in Ha|done].
  - cbn in Hrun. destruct (put L a ws) as [e|ws1] eqn:Hput; [done|]. cbn in Hrun.
    apply put_inr in Hput as (Hplain & Hacc & ->).
    rewrite fmap_cons in Hnd. apply NoDup_cons in Hnd as [Hnotin Hnd].
    destruct (IH _ Hnd Hrun) as [Hin Hout]. split.
    + intros b Hb. apply elem_of_cons in Hb as [->|Hb].
      * split; [done|]. split; [done|]. rewrite (Hout _ Hnotin). by rewrite lookup_insert_eq.
      * destruct (Hin b Hb) as (Hp & Ha & Hcell).
        assert (place b ≠ place a) as Hne.
        { intros Heq. apply Hnotin. rewrite <- Heq. by apply list_elem_of_fmap_2. }
        assert (ws_cell (<[place a := put_cell L a
                   (number_format (ws_cell ws (place a).1 (place a).2))]> ws)
                  (place b).1 (place b).2 = ws_cell ws (place b).1 (place b).2) as Hsame.
        { apply ws_cell_lookup. destruct (place b) as [rb cb] eqn:Hpb. cbn.
          by rewrite lookup_insert_ne. }
        by rewrite Hsame in Hp, Hcell.
    + intros k Hk. rewrite fmap_cons in Hk. apply not_elem_of_cons in Hk as [Hka Hk].
      rewrite (Hout _ Hk). by rewrite lookup_insert_ne.
Qed.

Lemma puts_is_inr (items : list Assignment) (ws : Worksheet) :
  NoDup (place <$> items) →
  (∀ a, a ∈ items →
     plain (ws_cell ws (place a).1 (place a).2) ∧ accepted L a.1.2) →
  ∃ ws', for_each (put L) items ws = inr ws'.
Proof.
  revert ws. induction items as [|a items IH]; intros ws Hnd Hok.
  - by exists ws.
  - rewrite fmap_cons in Hnd. apply NoDup_cons in Hnd as [Hnotin Hnd].
    destruct (Hok a) as [Hp Ha]; [by left|].
    cbn. erewrite (proj2 (put_inr a ws _)); [|by split_and!]. cbn.
    apply IH; [done|]. intros b Hb. destruct (Hok b) as [Hpb Hab]; [by right|].
    split; [|done].
    assert (place b ≠ place a) as Hne.
    { intros Heq. apply Hnotin. rewrite <- Heq. by apply list_elem_of_fmap_2. }
    erewrite ws_cell_lookup; [done|].
    destruct (place b) as [rb cb] eqn:Hpb'. cbn. by rewrite lookup_insert_ne.
Qed.

(** The loop that clears is its list of assignments. *)
Lemma clean_template_puts (ws : Worksheet) :
  clean_template L ws = for_each (put L) (clean_items (max_row ws)) ws.
Proof.
  unfold clean_template, clean_items. rewrite for_each_flat.
  apply for_each_ext. intros row s. rewrite for_each_fmap.
  apply for_each_ext. intros col s'. by rewrite put_set_value.
Qed.

(** The loop that fills is its list of assignments, on records. *)
Lemma fill_row_puts (cr : nat) (row : Row) (ws : Worksheet) :
  is_record row →
  fill_row L cr row ws = for_each (put L) (row_items cr row) ws.
Proof.
  intros Hrec. unfold is_record in Hrec.
  destruct row as [|[k1 v1] [|[k2 v2] [|[k3 v3] [|[k4 v4] [|[k5 v5]
    [|[k6 v6] [|[k7 v7] [|[k8 v8] [|? ?]]]]]]]]]; try discriminate Hrec.
  injection Hrec as -> -> -> -> -> -> -> ->.
  unfold fill_row, row_items, template_table, put. cbn -[set_value set_number_format].
  repeat (match goal with
          | |- context [set_value L ?r ?c ?v ?w] =>
              destruct (set_value L r c v w) as [?|?]; cbn -[set_value set_number_format];
              [reflexivity|]
          end).
  reflexivity.
Qed.

Lemma bind_imap {A B C} (h : nat → A → B) (f : B → list C) (l : list A) :
  imap h l ≫= f = concat (imap (λ i x, f (h i x)) l).
Proof.
  revert h. induction l as [|x l IH]; intros h; [done|].
  cbn. f_equal. apply IH.
Qed.

Lemma fill_items_cons (idx : nat) (row : Row) (rows : list Row) :
  fill_items idx (row :: rows)
  = row_items (start_row + idx) row ++ fill_items (S idx) rows.
Proof.
  unfold fill_items, enumerate. rewrite !bind_imap. cbn [imap concat fst snd].
  rewrite Nat.add_0_r. f_equal. f_equal. apply imap_ext. intros i x _. unfold compose. cbn [fst snd].
  by replace (start_row + idx + S i) with (start_row + S idx + i) by lia.
Qed.

Lemma fill_rows_puts (rows : list Row) (idx : nat) (ws : Worksheet) :
  Forall is_record rows →
  fill_rows L idx rows ws = for_each (put L) (fill_items idx rows) ws.
Proof.
  intros Hrec. revert idx ws. induction Hrec as [|row rows Hrow Hrows IH]; intros idx ws.
  - done.
  - rewrite fill_items_cons, for_each_app. cbn [fill_rows].
    rewrite <- (fill_row_puts _ _ _ Hrow).
    destruct (fill_row L (start_row + idx) row ws) as [e|ws1]; [done|]. cbn.
    apply IH.
Qed.

(** The cells the two loops assign to. *)
Lemma elem_of_clean_items (last : nat) (a : Assignment) :
  a ∈ clean_items last
  ↔ ∃ r c, 2 ≤ r ≤ last ∧ c ∈ clean_columns ∧ a = (r, c, VNull, None).
Proof.
  unfold clean_items. rewrite list_elem_of_bind. split.
  - intros (r & Ha & Hr). apply list_elem_of_fmap in Ha as (c & -> & Hc).
    apply elem_of_seq in Hr. exists r, c. split; [lia|done].
  - intros (r & c & Hr & Hc & ->). exists r. split.
    + apply list_elem_of_fmap. by exists c.
    + apply elem_of_seq. lia.
Qed.

Lemma place_clean_items (last : nat) (k : nat * nat) :
  k ∈ place <$> clean_items last ↔ 2 ≤ k.1 ≤ last ∧ k.2 ∈ clean_columns.
Proof.
  rewrite list_elem_of_fmap. split.
  - intros (a & -> & Ha). apply elem_of_clean_items in Ha as (r & c & Hr & Hc & ->).
    done.
  - intros [Hr Hc]. exists (k.1, k.2, VNull, None). split; [by destruct k|].
    apply elem_of_clean_items. by exists k.1, k.2.
Qed.

Lemma NoDup_clean_items (last : nat) : NoDup (place <$> clean_items last).
Proof.
  unfold clean_items. rewrite fmap_bind_list.
  apply NoDup_bind.
  - intros r1 r2 k _ _ H1 H2. cbn in H1, H2.
    assert (k.1 = r1) as <-.
    { repeat (apply elem_of_cons in H1 as [->|H1]; [reflexivity|]).
      by apply elem_of_nil in H1. }
    repeat (apply elem_of_cons in H2 as [->|H2]; [reflexivity|]).
    by apply elem_of_nil in H2.
  - intros r _. rewrite <- list_fmap_compose.
    apply NoDup_fmap_2_strong; [|apply NoDup_clean_columns].
    intros c1 c2 _ _ Heq. cbn in Heq. congruence.
  - apply NoDup_seq.
Qed.

Lemma place_row_items (cr : nat) (row : Row) :
  place <$> row_items cr row = (λ c, (cr, c)) <$> clean_columns.
Proof. reflexivity. Qed.

Lemma elem_of_fill_items (idx : nat) (rows : list Row) (a : Assignment) :
  a ∈ fill_items idx rows
  ↔ ∃ i row e, rows !! i = Some row ∧ e ∈ template_table
      ∧ a = (start_row + idx + i, e.1.2, default VNull (assoc e.1.1 row), e.2).
Proof.
  unfold fill_items. rewrite list_elem_of_bind. split.
  - intros ([i row] & Ha & Hir). apply elem_of_enumerate in Hir.
    apply list_elem_of_fmap in Ha as (e & -> & He). by exists i, row, e.
  - intros (i & row & e & Hi & He & ->). exists (i, row). split.
    + apply list_elem_of_fmap. by exists e.
    + by apply elem_of_enumerate.
Qed.

Lemma place_fill_items (idx : nat) (rows : list Row) (k : nat * nat) :
  k ∈ place <$> fill_items idx rows
  ↔ start_row + idx ≤ k.1 < start_row + idx + length rows ∧ k.2 ∈ clean_columns.
Proof.
  rewrite list_elem_of_fmap. split.
  - intros (a & -> & Ha). apply elem_of_fill_items in Ha as (i & row & e & Hi & He & ->).
    apply lookup_lt_Some in Hi. cbn. split; [lia|].
    apply table_column. by exists e.
  - intros [Hr Hc].
    destruct (lookup_lt_is_Some_2 rows (k.1 - (start_row + idx))) as [row Hrow]; [lia|].
    apply table_column in Hc as (e & He & Hek).
    exists (k.1, k.2, default VNull (assoc e.1.1 row), e.2). split; [by destruct k|].
    apply elem_of_fill_items. exists (k.1 - (start_row + idx)), row, e.
    split; [done|]. split; [done|]. rewrite Hek. repeat f_equal. lia.
Qed.

Lemma NoDup_enumerate {A} (l : list A) : NoDup (enumerate l).
Proof.
  apply NoDup_alt. intros i j [i' x] Hi Hj.
  unfold enumerate in Hi, Hj. rewrite list_lookup_imap in Hi, Hj.
  destruct (l !! i) as [y|]; [|done]. destruct (l !! j) as [z|]; [|done].
  cbn in Hi, Hj. congruence.
Qed.

Lemma NoDup_fill_items (idx : nat) (rows : list Row) :
  NoDup (place <$> fill_items idx rows).
Proof.
  unfold fill_items. rewrite fmap_bind_list.
  apply NoDup_bind.
  - intros [i1 r1] [i2 r2] k Hi1 Hi2 H1 H2.
    rewrite place_row_items in H1, H2.
    apply list_elem_of_fmap in H1 as (c1 & -> & _).
    apply list_elem_of_fmap in H2 as (c2 & Heq & _).
    apply elem_of_enumerate in Hi1, Hi2. cbn [fst snd] in Heq.
    assert (i1 = i2) as -> by (injection Heq; lia). congruence.
  - intros [i r] _. rewrite place_row_items.
    apply NoDup_fmap_2_strong.
    + intros c1 c2 _ _ Heq. congruence.
    + apply NoDup_clean_columns.
  - apply NoDup_enumerate.
Qed.

(** The cell an assignment of the filling loop leaves is the one of the
    column table. *)
Lemma put_cell_written (cr : nat) (row : Row) (e : string * nat * option string)
    (old : Cell) :
  e ∈ template_table →
  put_cell L (cr, e.1.2, default VNull (assoc e.1.1 row), e.2) (number_format old)
  = written_cell L row e.1.2 old.
Proof.
  intros He. unfold template_table in He.
  repeat (apply elem_of_cons in He as [->|He]; [reflexivity|]).
  by apply elem_of_nil in He.
Qed.

(** ** The loop that clears *)

Lemma clean_template_spec (ws ws' : Worksheet) :
  clean_template L ws = inr ws' →
  (∀ r c, 2 ≤ r ≤ max_row ws → c ∈ clean_columns →
     plain (ws_cell ws r c)
     ∧ ws' !! (r, c) = Some (mkCell VNull (number_format (ws_cell ws r c))))
  ∧ (∀ r c, c ∉ clean_columns ∨ r < 2 ∨ max_row ws < r →
       ws' !! (r, c) = ws !! (r, c)).
Proof.
  rewrite clean_template_puts. intros Hrun.
  destruct (puts_inr _ _ _ (NoDup_clean_items _) Hrun) as [Hin Hout]. split.
  - intros r c Hr Hc.
    destruct (Hin (r, c, VNull, None)) as (Hp & _ & Hcell).
    { apply elem_of_clean_items. by exists r, c. }
    done.
  - intros r c Hrc. apply Hout. rewrite place_clean_items. cbn.
    intros [Hr Hc]. destruct Hrc as [?|[?|?]]; [done|lia|lia].
Qed.

Lemma clean_template_is_inr (ws : Worksheet) :
  (∀ r c, 2 ≤ r ≤ max_row ws → c ∈ clean_columns → plain (ws_cell ws r c)) →
  ∃ ws', clean_template L ws = inr ws'.
Proof.
  intros Hplain. rewrite clean_template_puts.
  apply puts_is_inr; [apply NoDup_clean_items|].
  intros a Ha. apply elem_of_clean_items in Ha as (r & c & Hr & Hc & ->).
  split; [by apply Hplain|done].
Qed.

(** Clearing keeps every format. *)
Lemma clean_template_format (ws ws' : Worksheet) (r c : nat) :
  clean_template L ws = inr ws' →
  number_format (ws_cell ws' r c) = number_format (ws_cell ws r c).
Proof.
  intros Hrun. destruct (clean_template_spec _ _ Hrun) as [Hin Hout].
  destruct (decide (c ∈ clean_columns ∧ 2 ≤ r ≤ max_row ws)) as [[Hc Hr]|Hno].
  - destruct (Hin r c Hr Hc) as [_ Hcell]. unfold ws_cell at 1. by rewrite Hcell.
  - f_equal. apply ws_cell_lookup, Hout.
    destruct (decide (c ∈ clean_columns)); [|by left]. right.
    destruct (decide (r < 2)); [by left|right].
    destruct (decide (max_row ws < r)); [done|]. exfalso. apply Hno. split; [done|lia].
Qed.

(** ** The loop that fills *)

Lemma fill_rows_spec (rows : list Row) (idx : nat) (ws ws' : Worksheet) :
  Forall is_record rows →
  fill_rows L idx rows ws = inr ws' →
  (∀ i row c, rows !! i = Some row → c ∈ clean_columns →
     plain (ws_cell ws (start_row + idx + i) c)
     ∧ ws' !! (start_row + idx + i, c)
       = Some (written_cell L row c (ws_cell ws (start_row + idx + i) c)))
  ∧ (∀ i row e, rows !! i = Some row → e ∈ template_table →
       accepted L (default VNull (assoc e.1.1 row)))
  ∧ (∀ r c, c ∉ clean_columns ∨ r < start_row + idx
            ∨ start_row + idx + length rows ≤ r →
       ws' !! (r, c) = ws !! (r, c)).
Proof.
  intros Hrec. rewrite (fill_rows_puts _ _ _ Hrec). intros Hrun.
  destruct (puts_inr _ _ _ (NoDup_fill_items _ _) Hrun) as [Hin Hout].
  split; [|split].
  - intros i row c Hi Hc.
    apply table_column in Hc as (e & He & <-).
    destruct (Hin (start_row + idx + i, e.1.2, default VNull (assoc e.1.1 row), e.2))
      as (Hp & _ & Hcell).
    { apply elem_of_fill_items. by exists i, row, e. }
    split; [done|]. unfold place in Hcell. cbn [fst snd] in Hcell.
    rewrite Hcell. f_equal. by apply put_cell_written.
  - intros i row e Hi He.
    destruct (Hin (start_row + idx + i, e.1.2, default VNull (assoc e.1.1 row), e.2))
      as (_ & Ha & _); [|done].
    apply elem_of_fill_items. by exists i, row, e.
  - intros r c Hrc. apply Hout. rewrite place_fill_items. cbn [fst snd].
    intros [Hr Hc]. destruct Hrc as [?|[?|?]]; [done|lia|lia].
Qed.

Lemma fill_rows_is_inr (rows : list Row) (idx : nat) (ws : Worksheet) :
  Forall is_record rows →
  (∀ i row c, rows !! i = Some row → c ∈ clean_columns →
     plain (ws_cell ws (start_row + idx + i) c)) →
  (∀ i row e, rows !! i = Some row → e ∈ template_table →
     accepted L (default VNull (assoc e.1.1 row))) →
  ∃ ws', fill_rows L idx rows ws = inr ws'.
Proof.
  intros Hrec Hplain Hacc. rewrite (fill_rows_puts _ _ _ Hrec).
  apply puts_is_inr; [apply NoDup_fill_items|].
  intros a Ha. apply elem_of_fill_items in Ha as (i & row & e & Hi & He & ->).
  split; [|by eapply Hacc]. cbn. apply (Hplain i row); [done|].
  apply table_column. by exists e.
Qed.

End Assignments.

(** ** The extent of a sheet *)

(** [max_row] bounds the row of every cell, and is 1 at least. *)
Lemma max_row_bounds (ws : Worksheet) :
  1 ≤ max_row ws ∧ ∀ k cell, ws !! k = Some cell → k.1 ≤ max_row ws.
Proof.
  unfold max_row.
  apply (map_fold_weak_ind
           (λ (r : nat) (m : Worksheet),
              1 ≤ r ∧ ∀ k cell, m !! k = Some cell → k.1 ≤ r)).
  - split; [lia|]. intros k cell Hk. by rewrite lookup_empty in Hk.
  - intros k cell m r Hk [Hone IH]. split; [lia|]. intros k' cell' Hk'.
    destruct (decide (k = k')) as [->|Hne]; [lia|].
    rewrite lookup_insert_ne in Hk' by done. pose proof (IH _ _ Hk'). lia.
Qed.

Lemma max_row_le (ws : Worksheet) (r c : nat) :
  is_Some (ws !! (r, c)) → r ≤ max_row ws.
Proof. intros [cell Hcell]. by apply (proj2 (max_row_bounds ws) (r, c) cell). Qed.

(** [max_row] is the least such bound. *)
Lemma max_row_least (ws : Worksheet) (b : nat) :
  1 ≤ b → (∀ k cell, ws !! k = Some cell → k.1 ≤ b) → max_row ws ≤ b.
Proof.
  intros Hb. unfold max_row.
  apply (map_fold_weak_ind
           (λ (r : nat) (m : Worksheet),
              (∀ k cell, m !! k = Some cell → k.1 ≤ b) → r ≤ b)).
  - lia.
  - intros k cell m r Hk IH Hall.
    assert (k.1 ≤ b) by (apply (Hall k cell); by rewrite lookup_insert_eq).
    assert (r ≤ b); [|lia].
    apply IH. intros k' cell' Hk'. apply (Hall k' cell').
    rewrite lookup_insert_ne; [done|]. intros ->. congruence.
Qed.

(** * Runs of the routine *)

Section Run.

Variable L : Library.

Local Abbreviation process_excel_core := (process_excel_core L).
Local Abbreviation merge_phase := (merge_phase L).
Local Abbreviation write_phase := (write_phase L).
Local Abbreviation outcome := (outcome L).
Local Abbreviation merged_of := (merged_of L).
Local Abbreviation filled_book := (filled_book L).

Local Opaque ship_cols delay_cols process_date_column filter_ship filter_delay
  convert_numeric_columns pd_DataFrame fill_template clean_template
  pd_concat dropna_all df_len first_item parse_sheet wb_getitem wb_update
  setitem pretty String.append sheetnames List.filter contains.

Ltac run_cases :=
  unfold merge_phase, write_phase, merged_of, filled_book, save_outcome,
    combined_of_file, ship_stage, delay_stage, combine;
  unfold os_path_exists, pd_ExcelFile_sheet_names, pd_read_excel, load_workbook,
    wb_save, write_file, open_xlsx, record_event, log_callback, raise_unless,
    lift, raise, gets, modify, mbind, M_bind, mret, M_ret, result_bind, result_ret;
  cbn;
  repeat match goal with
         | H : ?x = _ |- context [match ?x with inl _ => _ | inr _ => _ end] =>
             rewrite H; cbn
         | H : ?x = _ |- context [if ?x then _ else _] => rewrite H; cbn
         | |- context [bool_decide ?P] => destruct (bool_decide P) eqn:?; cbn
         | |- context [decide ?P] => destruct (decide P); cbn
         | |- context [match ?x with inl _ => _ | inr _ => _ end] =>
             match x with
             | open_file _ _ _ => idtac | first_item _ => idtac
             | parse_sheet _ _ _ => idtac | ship_cols _ => idtac
             | delay_cols _ => idtac | process_date_column _ _ _ => idtac
             | filter_ship _ => idtac | filter_delay _ => idtac
             | wb_getitem _ _ => idtac | fill_template _ _ _ => idtac
             | clean_template _ _ => idtac
             end; destruct x eqn:?; cbn
         | |- context [match interrupted ?w !! ?p with Some _ => _ | None => _ end] =>
             destruct (interrupted w !! p) as [[? ?]|] eqn:?; cbn
         end;
  rewrite <- ?app_assoc; cbn [app].

Ltac no_such_event Hp :=
  exfalso;
  repeat (apply elem_of_cons in Hp as [Hp|Hp]; [discriminate Hp|]);
  by apply elem_of_nil in Hp.

(** The first phase computes [merged_of] of the files, changes no file,
    and makes no call to openpyxl. *)
Lemma merge_phase_run tp dp w :
  (merge_phase tp dp w).2 = merged_of (files w) tp dp
  ∧ files (merge_phase tp dp w).1 = files w
  ∧ readonly (merge_phase tp dp w).1 = readonly w
  ∧ interrupted (merge_phase tp dp w).1 = interrupted w
  ∧ ∃ evs, trace (merge_phase tp dp w).1 = trace w ++ evs
      ∧ ∀ p, (EvLoadWorkbook p ∉ evs) ∧ (EvSave p ∉ evs).
Proof.
  run_cases.
  all: split; [done|]; split; [done|]; split; [done|]; split; [done|].
  all: eexists; split; [reflexivity|].
  all: intros p; split; intros Hp; no_such_event Hp.
Qed.

(** The second phase saves the workbook [filled_book] gives, if it gives
    one, and returns success when the save goes through; it changes no
    file but the one at the save path, and that one only by saving. *)
Lemma write_phase_run tp sp df w :
  (write_phase tp sp df w).2
  = match filled_book (files w) tp df with
    | inl e => inl e
    | inr wb =>
        (save_outcome (readonly w) (interrupted w) sp wb).1 ≫= λ _, mret (true, None)
    end
  ∧ files (write_phase tp sp df w).1
    = match filled_book (files w) tp df with
      | inl _ => files w
      | inr wb =>
          files_after (files w) sp
                      (save_outcome (readonly w) (interrupted w) sp wb).2
      end
  ∧ readonly (write_phase tp sp df w).1 = readonly w
  ∧ interrupted (write_phase tp sp df w).1 = interrupted w
  ∧ ∃ evs, trace (write_phase tp sp df w).1 = trace w ++ evs.
Proof.
  run_cases.
  all: split; [done|]; split; [done|]; split; [done|]; split; [done|].
  all: eexists; reflexivity.
Qed.

Lemma bind_run {A B} (m : M A) (k : A → M B) (w : World) :
  (m ≫= k) w
  = match m w with
    | (w', inl e) => (w', inl e)
    | (w', inr a) => k a w'
    end.
Proof. done. Qed.

(** The routine returns the pair of its [outcome] and leaves the files
    of its [outcome]; it calls [load_workbook] or [wb.save] only with a
    merged frame that has rows. *)
Lemma process_excel_core_run tp dp sp w :
  (process_excel_core tp dp sp w).2
  = inr (returned (outcome (files w) (readonly w) (interrupted w) tp dp sp).1)
  ∧ files (process_excel_core tp dp sp w).1
    = files_after (files w) sp
                  (outcome (files w) (readonly w) (interrupted w) tp dp sp).2
  ∧ readonly (process_excel_core tp dp sp w).1 = readonly w
  ∧ interrupted (process_excel_core tp dp sp w).1 = interrupted w
  ∧ ∃ evs, trace (process_excel_core tp dp sp w).1 = trace w ++ evs
      ∧ ((∃ p, EvLoadWorkbook p ∈ evs ∨ EvSave p ∈ evs) →
         ∃ df, merged_of (files w) tp dp = inr df ∧ df_len df ≠ 0).
Proof.
  destruct (merge_phase_run tp dp w) as (Hr1 & Hf1 & Hro1 & Hin1 & evs1 & Ht1 & Hevs1).
  destruct (process_excel_core tp dp sp w) as [w' r] eqn:Hrun.
  unfold process_excel_core, try_except in Hrun.
  rewrite bind_run in Hrun.
  destruct (merge_phase tp dp w) as [w1 r1].
  cbn [fst snd] in *. unfold outcome. rewrite <- Hr1.
  assert ((∃ p, EvLoadWorkbook p ∈ evs1 ∨ EvSave p ∈ evs1) → False) as Hnone.
  { intros [p Hp]. destruct (Hevs1 p). tauto. }
  destruct r1 as [e|df]; cbn [mbind result_bind].
  - cbn in Hrun. injection Hrun as <- <-. cbn.
    split; [done|]. split; [done|]. split; [done|]. split; [done|].
    exists evs1. split; [done|]. by intros ?%Hnone.
  - destruct (decide (df_len df = 0)) as [Hlen|Hlen].
    + cbn in Hrun. injection Hrun as <- <-. cbn.
      split; [done|]. split; [done|]. split; [done|]. split; [done|].
      exists evs1. split; [done|]. by intros ?%Hnone.
    + destruct (write_phase_run tp sp df w1) as (Hr2 & Hf2 & Hro2 & Hin2 & evs2 & Ht2).
      destruct (write_phase tp sp df w1) as [w2 r2].
      cbn [fst snd] in Hr2, Hf2, Hro2, Hin2, Ht2. rewrite Hf1, Hro1, Hin1 in *.
      assert (trace w2 = trace w ++ (evs1 ++ evs2)) as Ht
        by by rewrite Ht2, Ht1, app_assoc.
      destruct (filled_book (files w) tp df) as [e|wb].
      * subst r2. cbn in Hrun. injection Hrun as <- <-. cbn.
        split; [done|]. split; [done|]. split; [congruence|]. split; [congruence|].
        exists (evs1 ++ evs2). split; [done|]. by exists df.
      * destruct (save_outcome (readonly w) (interrupted w) sp wb) as [[e|[]] left];
          cbn [fst snd mbind result_bind mret result_ret] in Hr2, Hf2;
          subst r2; cbn in Hrun; injection Hrun as <- <-; cbn.
        all: split; [done|]; split; [done|]; split; [congruence|];
          split; [congruence|].
        all: exists (evs1 ++ evs2); split; [done|]; by exists df.
Qed.

End Run.

(** What a run comes to, read off its result. *)
Section Outcomes.

Variable L : Library.

Lemma open_file_inr (by_pandas : bool) (fs : gmap string FileData) (path : string)
    (wb : Workbook) :
  open_file by_pandas fs path = inr wb ↔ fs !! path = Some (Xlsx wb).
Proof.
  unfold open_file. destruct (fs !! path) as [[wb'|e1 e2]|]; split; intros H;
    by simplify_eq.
Qed.

Lemma merged_of_inr (fs : gmap string FileData) (tp dp : string) (df : DataFrame) :
  merged_of L fs tp dp = inr df
  ↔ is_Some (fs !! tp) ∧ combined_of_file L fs dp = inr df.
Proof.
  unfold merged_of. destruct (bool_decide (is_Some (fs !! tp))) eqn:Htp; cbn.
  - apply bool_decide_eq_true in Htp.
    destruct (bool_decide (is_Some (fs !! dp))) eqn:Hdp; cbn.
    + tauto.
    + apply bool_decide_eq_false in Hdp. split; [done|]. intros [_ Hc].
      unfold combined_of_file in Hc.
      destruct (open_file true fs dp) as [e|wb] eqn:Ho; [done|].
      apply open_file_inr in Ho. exfalso. apply Hdp. by rewrite Ho.
  - apply bool_decide_eq_false in Htp. split; [done|]. by intros [? _].
Qed.

End Outcomes.

(** * Lists, frames and workbooks: further facts *)

Lemma list_filter_true {A} (p : A → bool) (l : list A) :
  Forall (λ x, p x = true) l → List.filter p l = l.
Proof.
  induction 1 as [|x l Hx _ IH]; simpl; [done|]. rewrite Hx. by f_equal.
Qed.

Lemma fmap_list_filter_flat_map {A B} (p : A → bool) (f : A → B) (l : list A) :
  f <$> List.filter p l = flat_map (λ x, if p x then [f x] else []) l.
Proof.
  induction l as [|x l IH]; simpl; [done|].
  destruct (p x); simpl; by f_equal.
Qed.

Lemma eq_str_true (v : value) (s : string) : eq_str v s = true ↔ v = VStr s.
Proof.
  destruct v; simpl; try (split; [discriminate|intros [=]]).
  rewrite String.eqb_eq. split; [by intros ->|by intros [= ->]].
Qed.

Lemma elem_of_list_filter {A} (p : A → bool) (l : list A) (x : A) :
  x ∈ List.filter p l ↔ x ∈ l ∧ p x = true.
Proof. rewrite !list_elem_of_In. apply filter_In. Qed.

Lemma assoc_setitem_eq (df : DataFrame) (col : string) (s : Series) :
  assoc col (setitem df col s) = Some s.
Proof.
  induction df as [|[k s0] df IH]; simpl.
  - by rewrite String.eqb_refl.
  - destruct (String.eqb k col) eqn:Hk; simpl; by rewrite Hk.
Qed.

Lemma assoc_setitem_ne (df : DataFrame) (col col' : string) (s : Series) :
  col ≠ col' → assoc col (setitem df col' s) = assoc col df.
Proof.
  intros Hne. induction df as [|[k s0] df IH]; simpl.
  - by rewrite (proj2 (String.eqb_neq col' col)).
  - destruct (String.eqb k col') eqn:Hk; simpl.
    + apply String.eqb_eq in Hk as ->.
      by rewrite !(proj2 (String.eqb_neq col' col)).
    + by rewrite IH.
Qed.

Lemma assoc_wb_update_ne (wb : Workbook) (title title' : string) (ws : Worksheet) :
  title ≠ title' → assoc title (wb_update wb title' ws) = assoc title wb.
Proof.
  intros Hne. induction wb as [|[k ws0] wb IH]; simpl; [done|].
  destruct (String.eqb k title') eqn:Hk; simpl.
  - apply String.eqb_eq in Hk as ->.
    by rewrite !(proj2 (String.eqb_neq title' title)).
  - by rewrite IH.
Qed.

Lemma sheetnames_wb_update (wb : Workbook) (title : string) (ws : Worksheet) :
  sheetnames (wb_update wb title ws) = sheetnames wb.
Proof.
  unfold sheetnames. induction wb as [|[k ws0] wb IH]; simpl; [done|].
  destruct (String.eqb k title); simpl; [done | by f_equal].
Qed.

(** What pandas reads off a sheet is a frame: every column has one cell
    per record; and it is never wider than the sheet. *)
Lemma table_frame_rect (t : Table) : rect (length t.2) (table_frame t).
Proof.
  unfold rect, table_frame. apply Forall_forall. intros kv Hkv.
  apply elem_of_lookup_imap in Hkv as (j & k & -> & _). cbn. by rewrite length_fmap.
Qed.

Lemma read_frame_rect (L : Library) (ws : Worksheet) :
  rect (length (read_sheet L ws).2) (read_frame L ws).
Proof. apply table_frame_rect. Qed.

Lemma read_frame_width (L : Library) (ws : Worksheet) :
  length (read_frame L ws) ≤ max_column ws.
Proof.
  unfold read_frame, table_frame. rewrite length_imap. apply read_sheet_width.
Qed.

Lemma assoc_sheetnames {A} (title : string) (wb : list (string * A)) :
  title ∈ wb.*1 → is_Some (assoc title wb).
Proof.
  induction wb as [|[k ws] wb IH]; cbn.
  - by intros ?%elem_of_nil.
  - destruct (String.eqb k title) eqn:Hk; [by eauto|].
    apply String.eqb_neq in Hk. intros [?|?]%elem_of_cons; [congruence | auto].
Qed.

Lemma assoc_Some_sheetnames {A} (title : string) (wb : list (string * A)) (a : A) :
  assoc title wb = Some a → title ∈ wb.*1.
Proof.
  induction wb as [|[k ws] wb IH]; cbn; [done|].
  destruct (String.eqb k title) eqn:Hk.
  - apply String.eqb_eq in Hk as ->. intros _. apply elem_of_cons. by left.
  - intros ?%IH. apply elem_of_cons. by right.
Qed.

Lemma iloc_col_narrow (df : DataFrame) (j : nat) :
  length df ≤ j →
  iloc_col df j = inl (IndexError "single positional indexer is out-of-bounds").
Proof. intros Hj. unfold iloc_col. by rewrite lookup_ge_None_2. Qed.

Lemma iloc_col_inl (df : DataFrame) (j : nat) (e : exn) :
  iloc_col df j = inl e →
  e = IndexError "single positional indexer is out-of-bounds".
Proof. unfold iloc_col. destruct (df !! j) as [[? ?]|]; by intros [=]. Qed.

Lemma parse_sheet_inr (L : Library) (wb : Workbook) (sheet : string) (df : DataFrame) :
  parse_sheet L wb sheet = inr df →
  ∃ ws : Worksheet, assoc sheet wb = Some ws ∧ df = read_frame L ws.
Proof.
  unfold parse_sheet. destruct (assoc sheet wb) as [ws|]; [|done].
  intros [= <-]. by exists ws.
Qed.

Ltac iloc_case df j :=
  let He := fresh "He" in
  destruct (iloc_col df j) as [?|?] eqn:He;
  [ by apply iloc_col_inl in He as -> | cbn [mbind result_bind] ].

Section Cases.

Variable L : Library.

Local Abbreviation ship_stage := (ship_stage L).
Local Abbreviation delay_stage := (delay_stage L).
Local Abbreviation ship_rows := (ship_rows L).
Local Abbreviation delay_rows := (delay_rows L).
Local Abbreviation merged_rows := (merged_rows L).
Local Abbreviation process_excel_core := (process_excel_core L).
Local Abbreviation merge_phase := (merge_phase L).
Local Abbreviation outcome := (outcome L).
Local Abbreviation merged_of := (merged_of L).
Local Abbreviation combined_of_file := (combined_of_file L).
Local Abbreviation read_frame := (read_frame L).

Lemma ship_rows_region df row :
  row ∈ ship_rows df → assoc "城市群" row = Some (VStr "舟山区").
Proof.
  unfold ship_rows. intros ([i r] & -> & Hr)%list_elem_of_fmap.
  apply elem_of_list_filter in Hr as [_ Hr]. apply eq_str_true in Hr.
  cbn in *. by rewrite Hr.
Qed.

Lemma delay_rows_region df row :
  row ∈ delay_rows df → assoc "城市群" row = Some (VStr "舟山区").
Proof.
  unfold delay_rows. intros ([i r] & -> & Hr)%list_elem_of_fmap.
  apply elem_of_list_filter in Hr as [_ Hr]. unfold delay_keep in Hr.
  apply andb_prop in Hr as [Hr _]. apply andb_prop in Hr as [Hr _].
  apply eq_str_true in Hr. cbn in *. by rewrite Hr.
Qed.

Lemma region_not_all_na row :
  is_record row → assoc "城市群" row = Some (VStr "舟山区") →
  (negb ∘ all_na) row = true.
Proof.
  unfold is_record, merged_columns. intros Hr.
  destruct row as [|[k v] row]; [discriminate Hr|].
  cbn in Hr. injection Hr as -> _. cbn. by intros [= ->].
Qed.

(** The drop of the rows that are missing throughout removes nothing:
    every row that passed the region filter has its region. *)
Lemma merged_rows_app s d : merged_rows s d = ship_rows s ++ delay_rows d.
Proof.
  unfold merged_rows. apply list_filter_true, Forall_app. split.
  - apply Forall_forall. intros row Hrow. apply region_not_all_na.
    + revert row Hrow. apply Forall_forall, ship_rows_records.
    + by eapply ship_rows_region.
  - apply Forall_forall. intros row Hrow. apply region_not_all_na.
    + revert row Hrow. apply Forall_forall, delay_rows_records.
    + by eapply delay_rows_region.
Qed.

(** The merged frame, row by row: what the three stages compute from
    two well-formed source frames is the frame of the merged rows. *)
Lemma combine_stages n m s d :
  rect n s → 44 ≤ length s → rect m d → 56 ≤ length d →
  ∃ a b, ship_stage s = inr a ∧ delay_stage d = inr b
    ∧ iterrows a = ship_rows s ∧ iterrows b = delay_rows d
    ∧ combine a b = frame_of_records (ship_rows s ++ delay_rows d)
    ∧ iterrows (combine a b) = ship_rows s ++ delay_rows d.
Proof.
  intros Hs Hws Hd Hwd.
  exists (frame_of_records (ship_rows s)), (frame_of_records (delay_rows d)).
  pose proof (ship_rows_records L s) as Hrs.
  pose proof (delay_rows_records L d) as Hrd.
  assert (combine (frame_of_records (ship_rows s)) (frame_of_records (delay_rows d))
          = frame_of_records (ship_rows s ++ delay_rows d)) as Hc.
  { rewrite combine_frame_of_records by done. f_equal. apply merged_rows_app. }
  split; [by eapply ship_stage_rows|].
  split; [by eapply delay_stage_rows|].
  split; [by apply iterrows_frame_of_records|].
  split; [by apply iterrows_frame_of_records|].
  split; [done|].
  rewrite Hc. apply iterrows_frame_of_records. by apply Forall_app.
Qed.

Lemma ship_stage_narrow (df : DataFrame) :
  length df < 44 →
  ship_stage df = inl (IndexError "single positional indexer is out-of-bounds").
Proof.
  intros Hw. unfold ship_stage, ship_cols.
  rewrite (iloc_col_narrow df 43) by lia.
  iloc_case df 3. iloc_case df 7. iloc_case df 15. iloc_case df 21. iloc_case df 24. iloc_case df 26.
  done.
Qed.

Lemma delay_stage_narrow (df : DataFrame) :
  length df < 56 →
  delay_stage df = inl (IndexError "single positional indexer is out-of-bounds").
Proof.
  intros Hw. unfold delay_stage, delay_cols.
  rewrite (iloc_col_narrow df 55) by lia.
  iloc_case df 3. iloc_case df 5. iloc_case df 18. iloc_case df 27. iloc_case df 30. iloc_case df 33.
  done.
Qed.

(** The merged frame of a data file whose two sheets are found. *)
Lemma combined_of_file_sheets (fs : gmap string FileData) (dp : string) (wb : Workbook)
    (s1 s2 : string) (ws1 ws2 : Worksheet) :
  fs !! dp = Some (Xlsx wb) →
  first_item (List.filter (contains "发货") (sheetnames wb)) = inr s1 →
  first_item (List.filter (contains "滞留") (sheetnames wb)) = inr s2 →
  assoc s1 wb = Some ws1 → assoc s2 wb = Some ws2 →
  combined_of_file fs dp
  = (a ← ship_stage (read_frame ws1);
     b ← delay_stage (read_frame ws2);
     mret (combine a b)).
Proof.
  intros Hdp Hs1 Hs2 Hws1 Hws2. unfold combined_of_file, open_file, parse_sheet.
  rewrite Hdp. cbn [mbind result_bind]. rewrite Hs1. cbn [mbind result_bind].
  rewrite Hs2. cbn [mbind result_bind]. rewrite Hws1.
  cbn [mbind result_bind mret result_ret].
  destruct (ship_stage (read_frame ws1)); [done|]. cbn [mbind result_bind].
  by rewrite Hws2.
Qed.

Lemma combined_of_file_wide (fs : gmap string FileData) (dp : string) (wb : Workbook)
    (s1 s2 : string) (ws1 ws2 : Worksheet) :
  fs !! dp = Some (Xlsx wb) →
  first_item (List.filter (contains "发货") (sheetnames wb)) = inr s1 →
  first_item (List.filter (contains "滞留") (sheetnames wb)) = inr s2 →
  assoc s1 wb = Some ws1 → assoc s2 wb = Some ws2 →
  44 ≤ length (read_frame ws1) → 56 ≤ length (read_frame ws2) →
  combined_of_file fs dp
  = inr (frame_of_records (ship_rows (read_frame ws1)
                           ++ delay_rows (read_frame ws2))).
Proof.
  intros Hdp Hs1 Hs2 Hws1 Hws2 Hw1 Hw2.
  rewrite (combined_of_file_sheets _ _ _ _ _ _ _ Hdp Hs1 Hs2 Hws1 Hws2).
  destruct (combine_stages _ _ (read_frame ws1) (read_frame ws2)
              (read_frame_rect L ws1) Hw1 (read_frame_rect L ws2) Hw2)
    as (a & b & Ha & Hb & _ & _ & Hab & _).
  rewrite Ha. cbn [mbind result_bind]. rewrite Hb. cbn [mbind result_bind].
  by rewrite <- Hab.
Qed.

(** Conversely, a merged frame comes from two sheets that were found
    and were read wide enough, and is the frame of their kept records. *)
Lemma combined_of_file_inr (fs : gmap string FileData) (dp : string)
    (df : DataFrame) :
  combined_of_file fs dp = inr df →
  ∃ (wb : Workbook) (s1 s2 : string) (ws1 ws2 : Worksheet),
    fs !! dp = Some (Xlsx wb)
    ∧ first_item (List.filter (contains "发货") (sheetnames wb)) = inr s1
    ∧ first_item (List.filter (contains "滞留") (sheetnames wb)) = inr s2
    ∧ assoc s1 wb = Some ws1 ∧ assoc s2 wb = Some ws2
    ∧ 44 ≤ length (read_frame ws1) ∧ 56 ≤ length (read_frame ws2)
    ∧ df = frame_of_records (ship_rows (read_frame ws1)
                             ++ delay_rows (read_frame ws2)).
Proof.
  intros Hdf. pose proof Hdf as Hdf0. revert Hdf.
  unfold combined_of_file at 1.
  destruct (open_file true fs dp) as [?|wb] eqn:Hwb; [done|].
  apply open_file_inr in Hwb. cbn [mbind result_bind].
  destruct (first_item (List.filter (contains "发货") (sheetnames wb)))
    as [?|s1] eqn:Hs1; [done|]. cbn [mbind result_bind].
  destruct (first_item (List.filter (contains "滞留") (sheetnames wb)))
    as [?|s2] eqn:Hs2; [done|]. cbn [mbind result_bind].
  destruct (parse_sheet L wb s1) as [?|d1] eqn:Hws1; [done|].
  apply parse_sheet_inr in Hws1 as (ws1 & Hws1 & ->). cbn [mbind result_bind].
  destruct (ship_stage (read_frame ws1)) as [?|a] eqn:Ha; [done|].
  cbn [mbind result_bind].
  destruct (parse_sheet L wb s2) as [?|d2] eqn:Hws2; [done|].
  apply parse_sheet_inr in Hws2 as (ws2 & Hws2 & ->). cbn [mbind result_bind].
  destruct (delay_stage (read_frame ws2)) as [?|b] eqn:Hb; [done|].
  intros _.
  assert (44 ≤ length (read_frame ws1)) as Hw1.
  { destruct (decide (44 ≤ length (read_frame ws1))); [done|].
    rewrite ship_stage_narrow in Ha by lia. done. }
  assert (56 ≤ length (read_frame ws2)) as Hw2.
  { destruct (decide (56 ≤ length (read_frame ws2))); [done|].
    rewrite delay_stage_narrow in Hb by lia. done. }
  exists wb, s1, s2, ws1, ws2. repeat (split; [done|]).
  rewrite (combined_of_file_wide _ _ _ _ _ _ _ Hwb Hs1 Hs2 Hws1 Hws2 Hw1 Hw2)
    in Hdf0. by injection Hdf0.
Qed.

Lemma merged_of_present fs tp dp :
  is_Some (fs !! tp) → is_Some (fs !! dp) →
  merged_of fs tp dp = combined_of_file fs dp.
Proof.
  intros Htp Hdp. unfold merged_of.
  by rewrite !bool_decide_eq_true_2.
Qed.

(** The frame the first phase hands on, read off its result: both paths
    exist, the data file is a workbook, its two sheets were found and
    read wide enough, and the frame is the frame of the kept records. *)
Lemma merge_phase_inr (tp dp : string) (w : World) (df : DataFrame) :
  (merge_phase tp dp w).2 = inr df →
  ∃ (wb : Workbook) (s1 s2 : string) (ws1 ws2 : Worksheet),
    is_Some (files w !! tp) ∧ files w !! dp = Some (Xlsx wb)
    ∧ first_item (List.filter (contains "发货") (sheetnames wb)) = inr s1
    ∧ first_item (List.filter (contains "滞留") (sheetnames wb)) = inr s2
    ∧ assoc s1 wb = Some ws1 ∧ assoc s2 wb = Some ws2
    ∧ 44 ≤ length (read_frame ws1) ∧ 56 ≤ length (read_frame ws2)
    ∧ df = frame_of_records (ship_rows (read_frame ws1)
                             ++ delay_rows (read_frame ws2))
    ∧ iterrows df = ship_rows (read_frame ws1) ++ delay_rows (read_frame ws2).
Proof.
  intros Hrun. destruct (merge_phase_run L tp dp w) as (Hr & _).
  rewrite Hrun in Hr. symmetry in Hr. apply merged_of_inr in Hr as [Htp Hc].
  apply combined_of_file_inr in Hc
    as (wb & s1 & s2 & ws1 & ws2 & Hdp & Hs1 & Hs2 & Hws1 & Hws2 & Hw1 & Hw2 & ->).
  exists wb, s1, s2, ws1, ws2. repeat (split; [done|]).
  apply iterrows_frame_of_records, Forall_app.
  split; [apply ship_rows_records | apply delay_rows_records].
Qed.

End Cases.

(** * What a run came to, read off its result *)

Lemma assoc_wb_update_eq (wb : Workbook) (title : string) (ws ws' : Worksheet) :
  assoc title wb = Some ws → assoc title (wb_update wb title ws') = Some ws'.
Proof.
  induction wb as [|[k ws0] wb IH]; simpl; [done|].
  destruct (String.eqb k title) eqn:Hk; simpl; rewrite Hk; [done|exact IH].
Qed.

Lemma wb_getitem_inr (wb : Workbook) title ws :
  wb_getitem wb title = inr ws → assoc title wb = Some ws.
Proof. unfold wb_getitem. by destruct (assoc title wb); intros [= ->]. Qed.

Lemma returned_success (r : result (bool * option string)) :
  returned r = (true, None) → r = inr (true, None).
Proof. destruct r as [e|res]; [done|]. cbn. by intros ->. Qed.

(** In a column of the table, the cell written depends on the format
    of the cell it replaces only. *)
Lemma written_cell_format (L : Library) (row : Row) (c : nat) (old1 old2 : Cell) :
  c ∈ clean_columns → number_format old1 = number_format old2 →
  written_cell L row c old1 = written_cell L row c old2.
Proof.
  intros Hc Hf. unfold clean_columns in Hc.
  repeat (apply elem_of_cons in Hc as [->|Hc];
          [unfold written_cell; cbn [List.find template_table Nat.eqb fst snd];
           by rewrite Hf|]).
  by apply elem_of_nil in Hc.
Qed.

Section Success.

Variable L : Library.

Local Abbreviation ship_rows := (ship_rows L).
Local Abbreviation delay_rows := (delay_rows L).
Local Abbreviation process_excel_core := (process_excel_core L).
Local Abbreviation merge_phase := (merge_phase L).
Local Abbreviation outcome := (outcome L).
Local Abbreviation merged_of := (merged_of L).
Local Abbreviation combined_of_file := (combined_of_file L).
Local Abbreviation filled_book := (filled_book L).
Local Abbreviation read_frame := (read_frame L).
Local Abbreviation clean_template := (clean_template L).
Local Abbreviation fill_template := (fill_template L).
Local Abbreviation fill_rows := (fill_rows L).

Lemma kept_rows_records (a b : DataFrame) :
  Forall is_record (ship_rows a ++ delay_rows b).
Proof.
  apply Forall_app. split; [apply ship_rows_records | apply delay_rows_records].
Qed.

Lemma outcome_empty fs ro breaks tp dp sp df :
  merged_of fs tp dp = inr df → df_len df = 0 →
  outcome fs ro breaks tp dp sp
  = (inr (false, Some "数据文件合并后无有效数据"), None).
Proof.
  intros Hdf Hlen. unfold outcome. rewrite Hdf. by rewrite decide_True.
Qed.

Lemma outcome_filled fs ro breaks tp dp sp df wb :
  merged_of fs tp dp = inr df → df_len df ≠ 0 →
  filled_book fs tp df = inr wb →
  outcome fs ro breaks tp dp sp
  = ((save_outcome ro breaks sp wb).1 ≫= λ _, mret (true, None),
     (save_outcome ro breaks sp wb).2).
Proof.
  intros Hdf Hlen Hwb. unfold outcome. rewrite Hdf, decide_False by done.
  rewrite Hwb. by destruct (save_outcome ro breaks sp wb).
Qed.

Lemma outcome_not_filled fs ro breaks tp dp sp df e :
  merged_of fs tp dp = inr df → df_len df ≠ 0 →
  filled_book fs tp df = inl e →
  outcome fs ro breaks tp dp sp = (inl e, None).
Proof.
  intros Hdf Hlen Hwb. unfold outcome. rewrite Hdf, decide_False by done.
  by rewrite Hwb.
Qed.

Lemma save_outcome_cases ro breaks sp wb :
  (sp ∈ ro
   ∧ save_outcome ro breaks sp wb
     = (inl (OSError ("[Errno 13] Permission denied: '" +:+ sp +:+ "'")), None))
  ∨ ((sp ∉ ro) ∧ ∃ e left_over, breaks !! sp = Some (e, left_over)
       ∧ save_outcome ro breaks sp wb = (inl e, Some left_over))
  ∨ ((sp ∉ ro) ∧ breaks !! sp = None
     ∧ save_outcome ro breaks sp wb = (inr (), Some (Xlsx wb))).
Proof.
  unfold save_outcome. destruct (decide (sp ∈ ro)); [by left|right].
  destruct (breaks !! sp) as [[e left_over]|]; [left|right]; [|done].
  split; [done|]. by exists e, left_over.
Qed.

(** A run that returns success has merged a frame with rows, filled the
    template with it and saved it whole. *)
Lemma outcome_saved fs ro breaks tp dp sp :
  returned (outcome fs ro breaks tp dp sp).1 = (true, None) →
  ∃ df wb, merged_of fs tp dp = inr df ∧ df_len df ≠ 0
    ∧ filled_book fs tp df = inr wb ∧ (sp ∉ ro) ∧ breaks !! sp = None
    ∧ (outcome fs ro breaks tp dp sp).2 = Some (Xlsx wb).
Proof.
  intros Hret. apply returned_success in Hret. revert Hret. unfold outcome.
  destruct (merged_of fs tp dp) as [e|df]; [done|].
  destruct (decide (df_len df = 0)); [done|].
  destruct (filled_book fs tp df) as [e|wb] eqn:Hwb; [done|].
  destruct (save_outcome_cases ro breaks sp wb)
    as [[? ->]|[(? & e & left_over & ? & ->)|(? & ? & ->)]]; [done|done|].
  intros _. by exists df, wb.
Qed.

Lemma outcome_saved_eq fs ro breaks tp dp sp df wb :
  merged_of fs tp dp = inr df → df_len df ≠ 0 →
  filled_book fs tp df = inr wb → sp ∉ ro → breaks !! sp = None →
  outcome fs ro breaks tp dp sp = (inr (true, None), Some (Xlsx wb)).
Proof.
  intros Hdf Hlen Hwb Hsp Hbr. rewrite (outcome_filled _ _ _ _ _ _ _ _ Hdf Hlen Hwb).
  unfold save_outcome. rewrite decide_False by done. by rewrite Hbr.
Qed.

Lemma filled_book_inr fs tp df wb' :
  filled_book fs tp df = inr wb' →
  ∃ wb ws ws1 ws', fs !! tp = Some (Xlsx wb) ∧ wb_getitem wb "宁波发货" = inr ws
    ∧ clean_template ws = inr ws1 ∧ fill_template df ws1 = inr ws'
    ∧ wb' = wb_update wb "宁波发货" ws'.
Proof.
  unfold filled_book.
  destruct (open_file false fs tp) as [e|wb] eqn:Hwb; [done|].
  cbn [mbind result_bind mret result_ret].
  destruct (bool_decide _); [|done]. cbn [mbind result_bind].
  destruct (wb_getitem wb "宁波发货") as [e|ws] eqn:Hws; [done|].
  cbn [mbind result_bind].
  destruct (clean_template ws) as [e|ws1] eqn:Hclean; [done|].
  cbn [mbind result_bind].
  destruct (fill_template df ws1) as [e|ws'] eqn:Hfill; [done|].
  intros [= <-]. exists wb, ws, ws1, ws'. by apply open_file_inr in Hwb.
Qed.

Lemma filled_book_eq (fs : gmap string FileData) (tp : string) (df : DataFrame)
    (wb : Workbook) (ws ws1 ws' : Worksheet) :
  fs !! tp = Some (Xlsx wb) → wb_getitem wb "宁波发货" = inr ws →
  clean_template ws = inr ws1 → fill_template df ws1 = inr ws' →
  filled_book fs tp df = inr (wb_update wb "宁波发货" ws').
Proof.
  intros Htp Hws Hclean Hfill. unfold filled_book, open_file. rewrite Htp.
  cbn [mbind result_bind].
  rewrite bool_decide_eq_true_2
    by (eapply assoc_Some_sheetnames; by apply wb_getitem_inr).
  cbn [mbind result_bind mret result_ret]. rewrite Hws. cbn [mbind result_bind].
  rewrite Hclean. cbn [mbind result_bind]. by rewrite Hfill.
Qed.

Lemma combined_of_file_insert (fs : gmap string FileData) (dp sp : string)
    (x : FileData) :
  sp ≠ dp → combined_of_file (<[sp := x]> fs) dp = combined_of_file fs dp.
Proof.
  intros Hne. unfold combined_of_file, open_file.
  by rewrite lookup_insert_ne by done.
Qed.

(** What a successful run has read, filled and saved. *)
Lemma success_sheets (tp dp sp : string) (w : World) :
  (process_excel_core tp dp sp w).2 = inr (true, None) →
  ∃ (wbt wbd : Workbook) (s1 s2 : string) (ws1 ws2 ws wsc ws' : Worksheet),
    files w !! tp = Some (Xlsx wbt) ∧ files w !! dp = Some (Xlsx wbd)
    ∧ first_item (List.filter (contains "发货") (sheetnames wbd)) = inr s1
    ∧ first_item (List.filter (contains "滞留") (sheetnames wbd)) = inr s2
    ∧ assoc s1 wbd = Some ws1 ∧ assoc s2 wbd = Some ws2
    ∧ 44 ≤ length (read_frame ws1) ∧ 56 ≤ length (read_frame ws2)
    ∧ ship_rows (read_frame ws1) ++ delay_rows (read_frame ws2) ≠ []
    ∧ wb_getitem wbt "宁波发货" = inr ws
    ∧ clean_template ws = inr wsc
    ∧ fill_rows 0 (ship_rows (read_frame ws1) ++ delay_rows (read_frame ws2)) wsc
      = inr ws'
    ∧ (sp ∉ readonly w) ∧ interrupted w !! sp = None
    ∧ files (process_excel_core tp dp sp w).1
      = <[sp := Xlsx (wb_update wbt "宁波发货" ws')]> (files w).
Proof.
  intros Hok.
  destruct (process_excel_core_run L tp dp sp w) as (Hres & Hfiles & _).
  rewrite Hok in Hres. injection Hres as Hret. symmetry in Hret.
  apply outcome_saved in Hret as (df & wb' & Hdf & Hlen & Hbook & Hsp & Hbr & Ho).
  rewrite Ho in Hfiles. cbn in Hfiles.
  apply merged_of_inr in Hdf as (_ & Hdf).
  apply filled_book_inr in Hbook as (wb & ws & wsc & ws' & Htp & Hws & Hclean & Hfill & ->).
  apply combined_of_file_inr in Hdf
    as (wbd & s1 & s2 & ws1 & ws2 & Hdp & Hs1 & Hs2 & Hws1 & Hws2 & Hw1 & Hw2 & ->).
  unfold fill_template in Hfill.
  rewrite iterrows_frame_of_records in Hfill by apply kept_rows_records.
  rewrite df_len_frame_of_records in Hlen.
  exists wb, wbd, s1, s2, ws1, ws2, ws, wsc, ws'.
  repeat (split; [done|]).
  split; [by intros Hnil; rewrite Hnil in Hlen|]. done.
Qed.

Lemma success_inv (tp dp sp : string) (w : World) :
  (process_excel_core tp dp sp w).2 = inr (true, None) →
  ∃ (wb : Workbook) (ws wsc ws' : Worksheet) (rows : list Row),
    files w !! tp = Some (Xlsx wb) ∧ is_Some (files w !! dp)
    ∧ wb_getitem wb "宁波发货" = inr ws
    ∧ combined_of_file (files w) dp = inr (frame_of_records rows)
    ∧ Forall is_record rows ∧ rows ≠ []
    ∧ clean_template ws = inr wsc
    ∧ fill_rows 0 rows wsc = inr ws'
    ∧ (sp ∉ readonly w) ∧ interrupted w !! sp = None
    ∧ files (process_excel_core tp dp sp w).1
      = <[sp := Xlsx (wb_update wb "宁波发货" ws')]> (files w).
Proof.
  intros Hok. destruct (success_sheets _ _ _ _ Hok)
    as (wb & wbd & s1 & s2 & ws1 & ws2 & ws & wsc & ws' & Htp & Hdp & Hs1 & Hs2 & Hws1
        & Hws2 & Hw1 & Hw2 & Hrows & Hws & Hclean & Hfill & Hsp & Hbr & Hfiles).
  exists wb, ws, wsc, ws', (ship_rows (read_frame ws1) ++ delay_rows (read_frame ws2)).
  split; [done|]. split; [by rewrite Hdp|]. split; [done|].
  split; [by eapply combined_of_file_wide|].
  split; [apply kept_rows_records|]. done.
Qed.

(** What the writer leaves in the target sheet, cell by cell: a written
    row holds its record as the column table says, a row of the template
    below the written rows is cleared, and every other cell is the
    template's. *)
Lemma written_sheet (rows : list Row) (ws wsc ws' : Worksheet) :
  Forall is_record rows →
  clean_template ws = inr wsc → fill_rows 0 rows wsc = inr ws' →
  (∀ i row c, rows !! i = Some row → c ∈ clean_columns →
     ws' !! (2 + i, c) = Some (written_cell L row c (ws_cell ws (2 + i) c)))
  ∧ (∀ r c, c ∈ clean_columns → 2 + length rows ≤ r ≤ max_row ws →
       ws' !! (r, c) = Some (mkCell VNull (number_format (ws_cell ws r c))))
  ∧ (∀ r c, c ∉ clean_columns ∨ r < 2
            ∨ (max_row ws < r ∧ 2 + length rows ≤ r) →
       ws' !! (r, c) = ws !! (r, c)).
Proof.
  intros Hrec Hclean Hfill.
  destruct (clean_template_spec L _ _ Hclean) as [Hcin Hcout].
  destruct (fill_rows_spec L _ _ _ _ Hrec Hfill) as (Hfin & _ & Hfout).
  unfold start_row in Hfin, Hfout.
  split; [|split].
  - intros i row c Hi Hc. destruct (Hfin i row c Hi Hc) as [_ Hcell].
    replace (2 + i) with (2 + 0 + i) by lia. rewrite Hcell. f_equal.
    apply written_cell_format; [done|]. by apply (clean_template_format L).
  - intros r c Hc Hr. rewrite Hfout by (right; right; lia).
    apply Hcin; [lia|done].
  - intros r c Hrc. rewrite Hfout by (destruct Hrc as [?|[?|[? ?]]]; [by left|right; left; lia|right; right; lia]).
    apply Hcout. destruct Hrc as [?|[?|[? ?]]]; [by left|by right; left|by right; right].
Qed.

End Success.

(** * The properties of the specification *)

Section Claims.

Variable L : Library.

Local Abbreviation ship_stage := (ship_stage L).
Local Abbreviation delay_stage := (delay_stage L).
Local Abbreviation ship_record := (ship_record L).
Local Abbreviation delay_record := (delay_record L).
Local Abbreviation ship_rows := (ship_rows L).
Local Abbreviation delay_rows := (delay_rows L).
Local Abbreviation merged_rows := (merged_rows L).
Local Abbreviation ship_contribution := (ship_contribution L).
Local Abbreviation delay_contribution := (delay_contribution L).
Local Abbreviation read_frame := (read_frame L).
Local Abbreviation process_excel_core := (process_excel_core L).
Local Abbreviation merge_phase := (merge_phase L).
Local Abbreviation outcome := (outcome L).
Local Abbreviation merged_of := (merged_of L).
Local Abbreviation combined_of_file := (combined_of_file L).
Local Abbreviation filled_book := (filled_book L).
Local Abbreviation convert_numeric_columns := (convert_numeric_columns L).
Local Abbreviation to_numeric_coerce := (to_numeric_coerce L).
Local Abbreviation to_datetime_coerce := (to_datetime_coerce L).
Local Abbreviation process_date_column := (process_date_column L).
Local Abbreviation numeric_at := (numeric_at L).
Local Abbreviation date_at := (date_at L).

(** The frame the first phase hands on is the frame of the kept records
    of the two sheets it picked. *)
Lemma merge_phase_rows (tp dp : string) (w : World) (df : DataFrame) :
  (merge_phase tp dp w).2 = inr df →
  ∃ ws1 ws2, data_sheets (files w) dp ws1 ws2
    ∧ 44 ≤ length (read_frame ws1) ∧ 56 ≤ length (read_frame ws2)
    ∧ iterrows df = ship_rows (read_frame ws1) ++ delay_rows (read_frame ws2).
Proof.
  intros Hrun. apply merge_phase_inr in Hrun
    as (wb & s1 & s2 & ws1 & ws2 & _ & Hdp & Hs1 & Hs2 & Hws1 & Hws2 & Hw1 & Hw2 & _ & Hrows).
  exists ws1, ws2. split; [by exists wb, s1, s2|]. done.
Qed.

(** C1. Region filter, on the frame the routine merges: a record of
    either sheet whose region is not the target literal adds nothing to
    the merged frame; every merged row carries the target region; and a
    backlog record is kept only if its organisation cell is neither
    missing nor the empty string. *)
Theorem region_filter_correct (tp dp : string) (w : World) (df : DataFrame) :
  (merge_phase tp dp w).2 = inr df →
  ∃ ws1 ws2, data_sheets (files w) dp ws1 ws2
    ∧ iterrows df
      = flat_map (ship_contribution (read_frame ws1))
                 (enumerate (iterrows (read_frame ws1)))
        ++ flat_map (delay_contribution (read_frame ws2))
                    (enumerate (iterrows (read_frame ws2)))
    ∧ (∀ d ir, field ir.2 3 ≠ VStr "舟山区" →
         ship_contribution d ir = [] ∧ delay_contribution d ir = [])
    ∧ (∀ row, row ∈ iterrows df → row_get row "城市群" = inr (VStr "舟山区"))
    ∧ (∀ d ir, delay_contribution d ir ≠ [] →
         field ir.2 3 = VStr "舟山区"
         ∧ field ir.2 26 ≠ VNull ∧ field ir.2 26 ≠ VStr "").
Proof.
  intros Hrun.
  destruct (merge_phase_rows _ _ _ _ Hrun) as (ws1 & ws2 & Hsheets & _ & _ & Hrows).
  exists ws1, ws2. split; [done|]. split; [|split; [|split]].
  - rewrite Hrows. unfold ship_rows, delay_rows.
    by rewrite !fmap_list_filter_flat_map.
  - intros d ir Hr.
    assert (eq_str (field ir.2 3) "舟山区" = false) as Hne.
    { apply not_true_is_false. by rewrite eq_str_true. }
    unfold ship_contribution, delay_contribution, ship_keep, delay_keep.
    by rewrite Hne.
  - intros row Hrow. rewrite Hrows in Hrow. unfold row_get.
    apply elem_of_app in Hrow as [Hrow|Hrow].
    + by rewrite (ship_rows_region _ _ _ Hrow).
    + by rewrite (delay_rows_region _ _ _ Hrow).
  - intros d ir Hr.
    unfold delay_contribution, delay_keep in Hr.
    destruct (eq_str (field ir.2 3) "舟山区") eqn:Hreg; [|done].
    apply eq_str_true in Hreg.
    destruct (field ir.2 26) as [|org| | | | | |]; try done.
    split; [done|]. split; [done|]. intros [= ->]. by apply Hr.
Qed.


Lemma convert_numeric_columns_assoc df names col :
  NoDup names →
  assoc col (convert_numeric_columns df names)
  = if decide (col ∈ names) then to_numeric_coerce <$> assoc col df
    else assoc col df.
Proof.
  unfold convert_numeric_columns.
  intros Hnd. revert df.
  induction Hnd as [|name names Hname _ IH]; intros df.
  - cbn. by rewrite decide_False by apply not_elem_of_nil.
  - cbn [foldl]. rewrite IH.
    destruct (decide (col = name)) as [->|Hne].
    + rewrite decide_False by done. rewrite decide_True by left.
      destruct (assoc name df) as [s|] eqn:Hs; [|by rewrite Hs].
      by rewrite assoc_setitem_eq.
    + assert (assoc col match assoc name df with
                        | Some s => setitem df name (to_numeric_coerce s)
                        | None => df
                        end = assoc col df) as ->.
      { destruct (assoc name df); [by apply assoc_setitem_ne|done]. }
      destruct (decide (col ∈ names)) as [Hin|Hin].
      * by rewrite decide_True by by right.
      * rewrite decide_False; [done|]. by intros [?|?]%elem_of_cons.
Qed.

Lemma numeric_cols_NoDup : NoDup numeric_cols.
Proof. apply (bool_decide_unpack _). by vm_compute. Qed.

Lemma to_numeric_coerce_lookup (s : Series) (i : nat) :
  i < length s → to_numeric_coerce s !! i = Some (numeric_at s i).
Proof.
  intros Hi. unfold to_numeric_coerce.
  rewrite list_lookup_imap.
  by destruct (lookup_lt_is_Some_2 s i Hi) as [v ->].
Qed.

Lemma length_to_numeric_coerce (s : Series) :
  length (to_numeric_coerce s) = length s.
Proof. apply length_imap. Qed.

(** C3. Numeric coercion: in each of the four numeric columns, a cell
    that pandas does not parse as a number, the empty string among
    them, becomes a missing value, and the conversion always returns:
    it does not turn the cell into zero and has no error to raise.  The
    rows of the frame the routine merges take their numeric fields
    through it: the field of a kept record is missing wherever the cell
    of the record in the source column does not parse. *)
Theorem numeric_coercion_to_null :
  (∀ s i, s !! i = Some (VStr "") → to_numeric_parse L s i = None) →
  (∀ df col s i,
     col ∈ numeric_cols → getitem df col = inr s → i < length s →
     to_numeric_parse L s i = None ∨ s !! i = Some (VStr "") →
     ∃ s', getitem (convert_numeric_columns df numeric_cols) col = inr s'
       ∧ length s' = length s
       ∧ s' !! i = Some VNull ∧ s' !! i ≠ Some (VNum 0))
  ∧ (∀ tp dp w df,
       (merge_phase tp dp w).2 = inr df →
       ∃ ws1 ws2, data_sheets (files w) dp ws1 ws2
         ∧ iterrows df
           = ((λ ir, ship_record (read_frame ws1) ir.1 ir.2)
                <$> List.filter (λ ir, ship_keep ir.2)
                                (enumerate (iterrows (read_frame ws1))))
             ++ ((λ ir, delay_record (read_frame ws2) ir.1 ir.2)
                   <$> List.filter (λ ir, delay_keep ir.2)
                                   (enumerate (iterrows (read_frame ws2)))))
  ∧ (∀ d i r label j v,
       ((label, j) ∈ ship_numeric_source ∧ row_get (ship_record d i r) label = inr v)
       ∨ ((label, j) ∈ delay_numeric_source
          ∧ row_get (delay_record d i r) label = inr v) →
       to_numeric_parse L (column d j) i = None
       ∨ column d j !! i = Some (VStr "") →
       v = VNull).
Proof.
  intros Hempty.
  assert (∀ s i, to_numeric_parse L s i = None ∨ s !! i = Some (VStr "") →
                 numeric_at s i = VNull) as Hnull.
  { intros s i [Hv|Hv]; unfold numeric_at;
      [by rewrite Hv | by rewrite (Hempty _ _ Hv)]. }
  split; [|split].
  - intros df col s i Hcol Hs Hi Hv. unfold getitem in *.
    destruct (assoc col df) as [s0|] eqn:Hs0; [|done]. injection Hs as ->.
    rewrite convert_numeric_columns_assoc by apply numeric_cols_NoDup.
    rewrite decide_True, Hs0 by done. cbn [fmap option_fmap option_map].
    eexists. split; [done|]. split; [apply length_to_numeric_coerce|].
    rewrite (to_numeric_coerce_lookup _ _ Hi), Hnull by done. done.
  - intros tp dp w df Hrun.
    destruct (merge_phase_rows _ _ _ _ Hrun) as (ws1 & ws2 & Hsheets & _ & _ & Hrows).
    by exists ws1, ws2.
  - intros d i r label j v Hsrc Hv. apply Hnull in Hv.
    unfold ship_numeric_source, delay_numeric_source in Hsrc.
    destruct Hsrc as [[Hin Hget]|[Hin Hget]];
      repeat (apply elem_of_cons in Hin as [[= -> ->]|Hin];
              [cbn in Hget; injection Hget as <-; exact Hv|]);
      by apply elem_of_nil in Hin.
Qed.

Lemma getitem_setitem_eq (df : DataFrame) col (s : Series) :
  getitem (setitem df col s) col = inr s.
Proof. unfold getitem. by rewrite assoc_setitem_eq. Qed.

Lemma setitem_setitem (df : DataFrame) col (s s' : Series) :
  setitem (setitem df col s) col s' = setitem df col s'.
Proof.
  induction df as [|[k s0] df IH]; simpl.
  - by rewrite String.eqb_refl.
  - destruct (String.eqb k col) eqn:Hk; simpl; rewrite Hk; [done | by f_equal].
Qed.

(** What the date helper does to a frame: the date column is rewritten
    cell by cell, nothing else changes. *)
Lemma process_date_column_eq df col s :
  getitem df col = inr s →
  process_date_column df col = inr (setitem df col (imap (λ i _, date_at s i) s)).
Proof.
  intros Hs. unfold process_date_column. rewrite Hs.
  cbn [mbind result_bind mret result_ret].
  repeat (rewrite getitem_setitem_eq; cbn [mbind result_bind]).
  rewrite !setitem_setitem.
  rewrite <- (list_fmap_compose dt_date as_datetime64), mask_assign_valid.
  do 2 f_equal.
  unfold to_datetime_coerce.
  rewrite <- list_fmap_compose, fmap_imap.
  apply imap_ext. intros i v _. unfold compose, date_at.
  by destruct (to_datetime_parse L s i) as [[d t]|].
Qed.

(** C4. Sign-off dates: a sign-off cell of the shipment sheet that
    pandas parses as a date and time is replaced by the time stamp of
    the midnight of its date, whatever its time of day, and one that
    does not parse becomes a missing value; this is the value the
    shipment rows of the merged frame carry, and the value a successful
    run saves in column 45 of the row, under the format of a date
    without a time. *)
Theorem signoff_date_truncated :
  (∀ s i d t, to_datetime_parse L s i = Some (d, t) →
     date_at s i = VDateTime d (mkTime 0 0 0))
  ∧ (∀ s i, to_datetime_parse L s i = None → date_at s i = VNull)
  ∧ (∀ df col s,
       getitem df col = inr s →
       ∃ df' s', process_date_column df col = inr df'
         ∧ getitem df' col = inr s' ∧ length s' = length s
         ∧ ∀ i, i < length s → s' !! i = Some (date_at s i))
  ∧ (∀ d i r, row_get (ship_record d i r) "签收关单时间"
              = inr (date_at (column d 28) i))
  ∧ (∀ tp dp w df,
       (merge_phase tp dp w).2 = inr df →
       ∃ ws1 ws2, data_sheets (files w) dp ws1 ws2
         ∧ iterrows df
           = ((λ ir, ship_record (read_frame ws1) ir.1 ir.2)
                <$> List.filter (λ ir, ship_keep ir.2)
                                (enumerate (iterrows (read_frame ws1))))
             ++ ((λ ir, delay_record (read_frame ws2) ir.1 ir.2)
                   <$> List.filter (λ ir, delay_keep ir.2)
                                   (enumerate (iterrows (read_frame ws2)))))
  ∧ (∀ tp dp sp w,
       (process_excel_core tp dp sp w).2 = inr (true, None) →
       ∃ df wb ws',
         (merge_phase tp dp w).2 = inr df
         ∧ files (process_excel_core tp dp sp w).1 !! sp = Some (Xlsx wb)
         ∧ wb_getitem wb "宁波发货" = inr ws'
         ∧ ∀ i row v, iterrows df !! i = Some row →
             row_get row "签收关单时间" = inr v →
             ws' !! (2 + i, 45) = Some (mkCell v "yyyy/mm/dd")).
Proof.
  split; [|split; [|split; [|split; [|split]]]].
  - intros s i d t Hp. unfold date_at. by rewrite Hp.
  - intros s i Hp. unfold date_at. by rewrite Hp.
  - intros df col s Hs. eexists _, _.
    split; [by apply process_date_column_eq|].
    split; [apply getitem_setitem_eq|].
    split; [apply length_imap|].
    intros i Hi. rewrite list_lookup_imap.
    by destruct (lookup_lt_is_Some_2 s i Hi) as [v ->].
  - done.
  - intros tp dp w df Hrun.
    destruct (merge_phase_rows _ _ _ _ Hrun) as (ws1 & ws2 & Hsheets & _ & _ & Hrows).
    by exists ws1, ws2.
  - intros tp dp sp w Hok.
    destruct (success_inv L _ _ _ _ Hok)
      as (wb & ws & wsc & ws' & rows & Htp & Hdp & Hws & Hdf & Hrec & Hne & Hclean
          & Hfill & Hsp & Hbr & Hfiles).
    exists (frame_of_records rows), (wb_update wb "宁波发货" ws'), ws'.
    split.
    { destruct (merge_phase_run L tp dp w) as (-> & _).
      apply merged_of_inr. split; [by rewrite Htp|done]. }
    split; [by rewrite Hfiles, lookup_insert_eq|].
    split.
    { unfold wb_getitem. by rewrite (assoc_wb_update_eq _ _ ws) by by apply wb_getitem_inr. }
    intros i row v Hi Hv. rewrite iterrows_frame_of_records in Hi by done.
    destruct (written_sheet L rows ws wsc ws' Hrec Hclean Hfill) as (Hin & _).
    rewrite (Hin i row 45 Hi) by by apply (bool_decide_unpack _).
    unfold row_get in Hv. unfold written_cell. cbn.
    by destruct (assoc "签收关单时间" row); simplify_eq.
Qed.

(** C5. An empty merged frame is reported, not raised: when the merged
    frame the run computes has no rows, the routine returns the failure
    pair with the fixed message, leaves every file as it was and makes
    no call to save a workbook. *)
Theorem empty_merge_reported tp dp sp w df :
  (merge_phase tp dp w).2 = inr df → df_len df = 0 →
  (process_excel_core tp dp sp w).2 = inr (false, Some "数据文件合并后无有效数据")
  ∧ files (process_excel_core tp dp sp w).1 = files w
  ∧ ∃ evs, trace (process_excel_core tp dp sp w).1 = trace w ++ evs
      ∧ ∀ p, EvSave p ∉ evs.
Proof.
  intros Hdf Hlen.
  destruct (merge_phase_run L tp dp w) as (Hm & _). rewrite Hm in Hdf.
  destruct (process_excel_core_run L tp dp sp w)
    as (Hres & Hfiles & _ & _ & evs & Htrace & Hevs).
  rewrite (outcome_empty L _ (readonly w) (interrupted w) tp dp sp df)
    in Hres, Hfiles by done.
  split; [done|]. split; [done|].
  exists evs. split; [done|]. intros p Hp.
  destruct Hevs as (df' & Hdf' & Hlen'); [by exists p; right|].
  rewrite Hdf in Hdf'. by simplify_eq.
Qed.

Lemma written_cell_table row label c fmt old :
  is_record row → (label, c, fmt) ∈ template_table →
  c ∈ clean_columns
  ∧ ∃ v, row_get row label = inr v
      ∧ written_cell L row c old
        = mkCell v (default (bind_format L v (number_format old)) fmt).
Proof.
  unfold is_record, merged_columns. intros Hr Hin.
  do 9 (destruct row as [|[? ?] row]; try discriminate Hr).
  cbn in Hr. simplify_eq.
  unfold template_table in Hin.
  repeat (apply elem_of_cons in Hin as [[= -> -> ->]|Hin];
          [split; [by apply (bool_decide_unpack _)|]; eexists; split; reflexivity|]).
  by apply elem_of_nil in Hin.
Qed.

(** What a successful run has merged and saved. *)
Lemma success_saved (tp dp sp : string) (w : World) :
  (process_excel_core tp dp sp w).2 = inr (true, None) →
  ∃ (ws1 ws2 : Worksheet) (wb : Workbook) (ws wsc ws' : Worksheet) (df : DataFrame),
    data_sheets (files w) dp ws1 ws2
    ∧ (merge_phase tp dp w).2 = inr df
    ∧ iterrows df = ship_rows (read_frame ws1) ++ delay_rows (read_frame ws2)
    ∧ files w !! tp = Some (Xlsx wb)
    ∧ wb_getitem wb "宁波发货" = inr ws
    ∧ clean_template L ws = inr wsc
    ∧ fill_rows L 0 (iterrows df) wsc = inr ws'
    ∧ files (process_excel_core tp dp sp w).1
      = <[sp := Xlsx (wb_update wb "宁波发货" ws')]> (files w)
    ∧ wb_getitem (wb_update wb "宁波发货" ws') "宁波发货" = inr ws'.
Proof.
  intros Hok. destruct (success_sheets L _ _ _ _ Hok)
    as (wb & wbd & s1 & s2 & ws1 & ws2 & ws & wsc & ws' & Htp & Hdp & Hs1 & Hs2 & Hws1
        & Hws2 & Hw1 & Hw2 & Hrows & Hws & Hclean & Hfill & Hsp & Hbr & Hfiles).
  assert (iterrows (frame_of_records (ship_rows (read_frame ws1)
                                      ++ delay_rows (read_frame ws2)))
          = ship_rows (read_frame ws1) ++ delay_rows (read_frame ws2)) as Hit
    by apply iterrows_frame_of_records, kept_rows_records.
  exists ws1, ws2, wb, ws, wsc, ws',
    (frame_of_records (ship_rows (read_frame ws1) ++ delay_rows (read_frame ws2))).
  split; [by exists wbd, s1, s2|].
  split.
  { destruct (merge_phase_run L tp dp w) as (-> & _).
    apply merged_of_inr. split; [by rewrite Htp|]. by eapply combined_of_file_wide. }
  split; [done|]. split; [done|]. split; [done|]. split; [done|].
  split; [by rewrite Hit|]. split; [done|].
  unfold wb_getitem. by rewrite (assoc_wb_update_eq _ _ ws) by by apply wb_getitem_inr.
Qed.

(** C7. Order and placement: the frame a successful run merges is the
    kept shipment records followed by the kept backlog records, and in
    the sheet it saves row [i] of that frame (from 0) is in spreadsheet
    row [2 + i], each field in its column of the table, with the table's
    display format on the four numeric columns and the date column. *)
Theorem rows_written_in_order (tp dp sp : string) (w : World) :
  (process_excel_core tp dp sp w).2 = inr (true, None) →
  ∃ ws1 ws2 wb ws' df,
    data_sheets (files w) dp ws1 ws2
    ∧ (merge_phase tp dp w).2 = inr df
    ∧ iterrows df
      = ((λ ir, ship_record (read_frame ws1) ir.1 ir.2)
           <$> List.filter (λ ir, ship_keep ir.2)
                           (enumerate (iterrows (read_frame ws1))))
        ++ ((λ ir, delay_record (read_frame ws2) ir.1 ir.2)
              <$> List.filter (λ ir, delay_keep ir.2)
                              (enumerate (iterrows (read_frame ws2))))
    ∧ files (process_excel_core tp dp sp w).1 !! sp = Some (Xlsx wb)
    ∧ wb_getitem wb "宁波发货" = inr ws'
    ∧ ∀ i row label c fmt,
        iterrows df !! i = Some row →
        (label, c, fmt) ∈ template_table →
        ∃ v, row_get row label = inr v
          ∧ value_of (ws_cell ws' (2 + i) c) = v
          ∧ ∀ f, fmt = Some f → number_format (ws_cell ws' (2 + i) c) = f.
Proof.
  intros Hok. destruct (success_saved _ _ _ _ Hok)
    as (ws1 & ws2 & wb & ws & wsc & ws' & df & Hsheets & Hdf & Hrows & Htp & Hws
        & Hclean & Hfill & Hfiles & Hget).
  assert (Forall is_record (iterrows df)) as Hrec
    by (rewrite Hrows; apply kept_rows_records).
  exists ws1, ws2, (wb_update wb "宁波发货" ws'), ws', df.
  split; [done|]. split; [done|]. split; [done|].
  split; [by rewrite Hfiles, lookup_insert_eq|]. split; [done|].
  intros i row label c fmt Hi Hin.
  assert (is_record row) as Hrow.
  { eapply Forall_forall; [exact Hrec|]. by eapply list_elem_of_lookup_2. }
  destruct (written_cell_table row label c fmt (ws_cell ws (2 + i) c) Hrow Hin)
    as (Hc & v & Hv & Hcell).
  exists v. split; [done|].
  destruct (written_sheet L _ ws wsc ws' Hrec Hclean Hfill) as (Hcells & _).
  specialize (Hcells i row c Hi Hc).
  unfold ws_cell at 1 2. rewrite Hcells, Hcell. cbn. split; [done|].
  by intros f ->.
Qed.



(** C10. The empty-result check comes before the template is opened:
    when the merged frame the run computes has no rows, the routine
    returns the empty-data failure and never calls [load_workbook],
    also when the template has no target sheet, so that the missing
    sheet does not turn the result into the missing-sheet failure. *)
Theorem empty_check_precedes_template tp dp sp w df :
  (merge_phase tp dp w).2 = inr df → df_len df = 0 →
  (process_excel_core tp dp sp w).2 = inr (false, Some "数据文件合并后无有效数据")
  ∧ (∃ evs, trace (process_excel_core tp dp sp w).1 = trace w ++ evs
       ∧ ∀ p, EvLoadWorkbook p ∉ evs)
  ∧ (∀ wb, files w !! tp = Some (Xlsx wb) → "宁波发货" ∉ sheetnames wb →
       (process_excel_core tp dp sp w).2
       ≠ inr (false, Some ("处理失败：" +:+
                           exn_str (KeyError "模板文件中不存在'宁波发货'工作表")))).
Proof.
  intros Hdf Hlen.
  destruct (merge_phase_run L tp dp w) as (Hm & _). rewrite Hm in Hdf.
  destruct (process_excel_core_run L tp dp sp w)
    as (Hres & _ & _ & _ & evs & Htrace & Hevs).
  rewrite (outcome_empty L _ (readonly w) (interrupted w) tp dp sp df) in Hres by done.
  split; [done|]. split.
  - exists evs. split; [done|]. intros p Hp.
    destruct Hevs as (df' & Hdf' & Hlen'); [by exists p; left|].
    rewrite Hdf in Hdf'. by simplify_eq.
  - intros wb _ _. by rewrite Hres.
Qed.

End Claims.

(** C6. The formats of the template are not all kept.  At the sample
    input whose first shipment record has a date and time for its
    customer, the run succeeds, and cell H2 of the saved sheet, whose
    format in the template is [General], has the format of a date and
    time: the assignment of the value has changed it. *)
Theorem text_column_format_changed :
  (process_excel_core sample_library
     "t.xlsx" "d.xlsx" "o.xlsx" sample_world_dated).2 = inr (true, None)
  ∧ ∃ wb ws ws',
      files sample_world_dated !! "t.xlsx" = Some (Xlsx wb)
      ∧ wb_getitem wb "宁波发货" = inr ws
      ∧ files (process_excel_core sample_library
                 "t.xlsx" "d.xlsx" "o.xlsx" sample_world_dated).1 !! "o.xlsx"
        = Some (Xlsx (wb_update wb "宁波发货" ws'))
      ∧ number_format (ws_cell ws 2 8) = "General"
      ∧ ws' !! (2, 8)
        = Some (mkCell (VDateTime (mkDate 2024 1 2) (mkTime 8 0 0))
                       "yyyy-mm-dd h:mm:ss").
Proof.
  split; [by vm_compute|].
  eexists _, _, _. split; [by vm_compute|]. split; [by vm_compute|].
  split; [by vm_compute|]. split; by vm_compute.
Qed.

(** * More on runs: the failures *)

Lemma list_filter_nil {A} (p : A → bool) (l : list A) :
  (∀ x, x ∈ l → p x = false) → List.filter p l = [].
Proof.
  induction l as [|x l IH]; cbn; [done|]. intros Hl.
  rewrite (Hl x) by (apply elem_of_cons; by left).
  apply IH. intros y Hy. apply Hl, elem_of_cons. by right.
Qed.

Lemma first_item_inl {A} (l : list A) (e : exn) :
  first_item l = inl e → e = IndexError "list index out of range".
Proof. destruct l; by intros [=]. Qed.

Lemma wb_update_wb_update (wb : Workbook) (title : string) (a b : Worksheet) :
  wb_update (wb_update wb title a) title b = wb_update wb title b.
Proof.
  induction wb as [|[k ws0] wb IH]; cbn; [done|].
  destruct (String.eqb k title) eqn:Hk; cbn; rewrite Hk; [done | by f_equal].
Qed.

Section Early.

Variable L : Library.

Local Abbreviation process_excel_core := (process_excel_core L).
Local Abbreviation merge_phase := (merge_phase L).

Ltac run_early :=
  unfold process_excel_core, try_except, merge_phase;
  unfold os_path_exists, pd_ExcelFile_sheet_names, pd_read_excel, load_workbook,
    wb_save, open_xlsx, record_event, log_callback, raise_unless, lift, raise,
    gets, modify, mbind, M_bind, mret, M_ret, result_bind, result_ret;
  cbn [files readonly interrupted log trace fst snd].

(** X1. A template path that does not exist: the run stops at its first
    check.  It has asked for the existence of the template and of
    nothing else, has logged the one failure line, returns that line as
    its message, and leaves the files as they were; the data path is not
    looked at, so the message names the template also when both files
    are missing. *)
Theorem missing_template_reported (tp dp sp : string) (w : World) :
  files w !! tp = None →
  process_excel_core tp dp sp w
  = (mkWorld (files w) (readonly w) (interrupted w)
       (log w ++ ["处理失败：模板文件不存在：" +:+ tp])
       (trace w ++ [EvExists tp]),
     inr (false, Some ("处理失败：模板文件不存在：" +:+ tp))).
Proof.
  intros Htp. run_early. rewrite Htp.
  rewrite bool_decide_eq_false_2 by by intros [? [=]].
  reflexivity.
Qed.

(** X2. A data path that does not exist, beside a template that does:
    the run stops at its second check, with the two existence checks as
    its only library calls, the one failure line in the log and as its
    message, and the files as they were. *)
Theorem missing_data_reported (tp dp sp : string) (w : World) :
  is_Some (files w !! tp) → files w !! dp = None →
  process_excel_core tp dp sp w
  = (mkWorld (files w) (readonly w) (interrupted w)
       (log w ++ ["处理失败：数据文件不存在：" +:+ dp])
       (trace w ++ [EvExists tp; EvExists dp]),
     inr (false, Some ("处理失败：数据文件不存在：" +:+ dp))).
Proof.
  intros Htp Hdp. run_early.
  rewrite bool_decide_eq_true_2 by done.
  cbn [files readonly interrupted log trace fst snd]. rewrite Hdp.
  rewrite bool_decide_eq_false_2 by by intros [? [=]].
  cbn [files readonly interrupted log trace fst snd]. by rewrite <- app_assoc.
Qed.

(** X3. A data workbook in which no sheet name has the shipment marker,
    or none has the backlog marker: the list of matches is empty, its
    first item raises, and the run reports the index error.  No sheet
    has been read: the library calls are the two existence checks and
    the listing of the sheet names. *)
Theorem sheet_not_found_reported (tp dp sp : string) (w : World) (wb : Workbook) :
  is_Some (files w !! tp) → files w !! dp = Some (Xlsx wb) →
  (∀ name, name ∈ sheetnames wb → contains "发货" name = false)
  ∨ (∀ name, name ∈ sheetnames wb → contains "滞留" name = false) →
  process_excel_core tp dp sp w
  = (mkWorld (files w) (readonly w) (interrupted w)
       (log w ++ ["开始读取数据文件（提取数据并转换数值类型）...";
                  "处理失败：list index out of range"])
       (trace w ++ [EvExists tp; EvExists dp; EvExcelFile dp]),
     inr (false, Some "处理失败：list index out of range")).
Proof.
  intros Htp Hdp Hnone. run_early.
  rewrite bool_decide_eq_true_2 by done.
  cbn [files readonly interrupted log trace fst snd]. rewrite Hdp.
  rewrite bool_decide_eq_true_2 by done.
  cbn [files readonly interrupted log trace fst snd]. unfold open_file. rewrite Hdp.
  destruct (first_item (List.filter (contains "发货") (sheetnames wb)))
    as [e|s1] eqn:Hs1.
  - apply first_item_inl in Hs1 as ->.
    cbn [files readonly interrupted log trace fst snd exn_str]. by rewrite <- !app_assoc.
  - destruct Hnone as [Hnone|Hnone];
      [by rewrite (list_filter_nil _ _ Hnone) in Hs1|].
    rewrite (list_filter_nil _ _ Hnone).
    cbn [files readonly interrupted log trace fst snd exn_str first_item].
    by rewrite <- !app_assoc.
Qed.

End Early.

(** * More on the written sheet *)

Section Written.

Variable L : Library.

Local Abbreviation clean_template := (clean_template L).
Local Abbreviation fill_rows := (fill_rows L).
Local Abbreviation written_cell := (written_cell L).

Lemma written_cell_plain (row : Row) (c : nat) (old : Cell) :
  c ∈ clean_columns → ∃ v f, written_cell row c old = mkCell v f.
Proof.
  intros Hc. unfold clean_columns in Hc.
  repeat (apply elem_of_cons in Hc as [->|Hc]; [by eexists _, _|]).
  by apply elem_of_nil in Hc.
Qed.

(** Writing over what the table wrote changes nothing. *)
Lemma written_cell_again (row : Row) (c : nat) (old : Cell) :
  c ∈ clean_columns →
  written_cell row c (written_cell row c old) = written_cell row c old.
Proof.
  intros Hc. unfold clean_columns in Hc.
  repeat (apply elem_of_cons in Hc as [->|Hc];
          [unfold written_cell;
           cbn [List.find template_table Nat.eqb fst snd number_format default];
           by rewrite ?bind_format_again|]).
  by apply elem_of_nil in Hc.
Qed.

(** Every cell of the written sheet, by cases. *)
Lemma written_sheet_cases (rows : list Row) (ws wsc ws' : Worksheet) (r c : nat) :
  Forall is_record rows →
  clean_template ws = inr wsc → fill_rows 0 rows wsc = inr ws' →
  (c ∈ clean_columns ∧ 2 ≤ r < 2 + length rows
   ∧ ∃ row, rows !! (r - 2) = Some row
       ∧ ws' !! (r, c) = Some (written_cell row c (ws_cell ws r c)))
  ∨ (c ∈ clean_columns ∧ 2 + length rows ≤ r ≤ max_row ws
     ∧ ws' !! (r, c) = Some (mkCell VNull (number_format (ws_cell ws r c))))
  ∨ ((c ∉ clean_columns ∨ r < 2 ∨ (max_row ws < r ∧ 2 + length rows ≤ r))
     ∧ ws' !! (r, c) = ws !! (r, c)).
Proof.
  intros Hrec Hclean Hfill.
  destruct (written_sheet L rows ws wsc ws' Hrec Hclean Hfill) as (Hin & Hcl & Hout).
  destruct (decide (c ∈ clean_columns)) as [Hc|Hc]; [|right; right; auto].
  destruct (decide (r < 2)) as [Hr|Hr]; [right; right; auto|].
  destruct (decide (r < 2 + length rows)) as [Hlt|Hge].
  - left. split; [done|]. split; [lia|].
    destruct (lookup_lt_is_Some_2 rows (r - 2)) as [row Hrow]; [lia|].
    exists row. split; [done|].
    specialize (Hin _ _ _ Hrow Hc). by replace (2 + (r - 2)) with r in Hin by lia.
  - destruct (decide (r ≤ max_row ws)) as [Hle|Hgt].
    + right; left. split; [done|]. split; [lia|]. apply Hcl; [done|lia].
    + right; right. split; [|apply Hout]; right; right; lia.
Qed.

(** The written sheet ends where the longer of the template and the
    written rows ends. *)
Lemma written_sheet_max_row (rows : list Row) (ws wsc ws' : Worksheet) :
  Forall is_record rows →
  clean_template ws = inr wsc → fill_rows 0 rows wsc = inr ws' →
  max_row ws' = max_row ws `max` (1 + length rows).
Proof.
  intros Hrec Hclean Hfill.
  pose proof (written_sheet_cases rows ws wsc ws') as Hcases.
  destruct (max_row_bounds ws) as [Hone Hb]. destruct (max_row_bounds ws') as [Hone' Hb'].
  apply Nat.le_antisymm.
  - apply max_row_least; [lia|]. intros [r c] cell Hk. cbn.
    destruct (Hcases r c Hrec Hclean Hfill)
      as [(_ & ? & _)|[(_ & ? & _)|[_ Heq]]]; [lia|lia|].
    rewrite Heq in Hk. specialize (Hb _ _ Hk). cbn in Hb. lia.
  - apply Nat.max_lub.
    + apply max_row_least; [lia|]. intros [r c] cell Hk. cbn.
      apply (max_row_le ws' r c).
      destruct (Hcases r c Hrec Hclean Hfill)
        as [(_ & _ & row & _ & ->)|[(_ & _ & ->)|[_ ->]]]; eauto.
    + destruct (decide (rows = [])) as [->|Hne]; [cbn; lia|].
      assert (0 < length rows) by (destruct rows; [done|cbn; lia]).
      apply (max_row_le ws' _ 4).
      destruct (Hcases (1 + length rows) 4 Hrec Hclean Hfill)
        as [(_ & _ & row & _ & ->)|[(_ & ? & _)|[[Hc|[?|[? ?]]] _]]];
        [eauto|lia| |lia|lia].
      exfalso. apply Hc. by apply (bool_decide_unpack _).
Qed.

(** Cleaning and filling a sheet that was cleaned and filled with the
    same records goes through and gives the same sheet. *)
Lemma fill_rerun (rows : list Row) (ws wsc ws' : Worksheet) :
  Forall is_record rows →
  clean_template ws = inr wsc → fill_rows 0 rows wsc = inr ws' →
  ∃ wsc', clean_template ws' = inr wsc' ∧ fill_rows 0 rows wsc' = inr ws'.
Proof.
  intros Hrec Hclean Hfill.
  pose proof (written_sheet_cases rows ws wsc ws') as Hcases.
  pose proof (written_sheet_max_row rows ws wsc ws' Hrec Hclean Hfill) as Hmax.
  destruct (fill_rows_spec L _ _ _ _ Hrec Hfill) as (_ & Hacc & _).
  destruct (clean_template_is_inr L ws') as [wsc' Hclean'].
  { intros r c Hr Hc. unfold ws_cell.
    destruct (Hcases r c Hrec Hclean Hfill)
      as [(_ & _ & row & _ & ->)|[(_ & _ & ->)|[[?|[?|[? ?]]] _]]];
      [|done|done|lia|lia].
    by destruct (written_cell_plain row c (ws_cell ws r c)) as (v & f & ->). }
  exists wsc'. split; [done|].
  destruct (clean_template_spec L _ _ Hclean') as [Hcin' Hcout'].
  destruct (fill_rows_is_inr L rows 0 wsc' Hrec) as [ws'' Hfill'].
  { intros i row c Hi Hc. apply lookup_lt_Some in Hi. unfold start_row.
    destruct (Hcin' (2 + 0 + i) c) as [_ Hcell]; [lia|done|].
    unfold ws_cell. by rewrite Hcell. }
  { done. }
  rewrite Hfill'. f_equal. apply map_eq. intros [r c].
  pose proof (written_sheet_cases rows ws' wsc' ws'' r c Hrec Hclean' Hfill') as H2.
  destruct (Hcases r c Hrec Hclean Hfill)
    as [(Hc & Hr & row & Hrow & Hcell)|[(Hc & Hr & Hcell)|[Hno Hcell]]].
  - destruct H2 as [(_ & _ & row' & Hrow' & ->)|[(_ & ? & _)|[[?|[?|[? ?]]] _]]];
      [|lia|done|lia|lia].
    rewrite Hrow in Hrow'. injection Hrow' as <-. rewrite Hcell. f_equal.
    unfold ws_cell at 1. rewrite Hcell. cbn [default]. by apply written_cell_again.
  - destruct H2 as [(_ & ? & _)|[(_ & _ & ->)|[[?|[?|[? ?]]] _]]];
      [lia| |done|lia|lia].
    rewrite Hcell. unfold ws_cell at 1. by rewrite Hcell.
  - destruct H2 as [(Hc & ? & _)|[(Hc & ? & _)|[_ ->]]]; [| |done].
    + destruct Hno as [?|[?|[? ?]]]; [done|lia|lia].
    + destruct Hno as [?|[?|[? ?]]]; [done|lia|lia].
Qed.

End Written.

(** * More on runs: what they report and what they write *)

Section More.

Variable L : Library.

Local Abbreviation ship_stage := (ship_stage L).
Local Abbreviation delay_stage := (delay_stage L).
Local Abbreviation ship_rows := (ship_rows L).
Local Abbreviation delay_rows := (delay_rows L).
Local Abbreviation read_frame := (read_frame L).
Local Abbreviation process_excel_core := (process_excel_core L).
Local Abbreviation merge_phase := (merge_phase L).
Local Abbreviation outcome := (outcome L).
Local Abbreviation merged_of := (merged_of L).
Local Abbreviation combined_of_file := (combined_of_file L).
Local Abbreviation filled_book := (filled_book L).

(** X4. A template without the target sheet: the run reports the missing
    sheet, with the message in the double quotes that the text of a
    [KeyError] carries, and writes no file. *)
Theorem missing_target_sheet_reported (tp dp sp : string) (w : World)
    (wb : Workbook) (df : DataFrame) :
  files w !! tp = Some (Xlsx wb) → "宁波发货" ∉ sheetnames wb →
  (merge_phase tp dp w).2 = inr df → df_len df ≠ 0 →
  (process_excel_core tp dp sp w).2
  = inr (false, Some ("处理失败：" +:+ dquote
                      +:+ "模板文件中不存在'宁波发货'工作表" +:+ dquote))
  ∧ files (process_excel_core tp dp sp w).1 = files w.
Proof.
  intros Htp Hno Hdf Hlen.
  destruct (merge_phase_run L tp dp w) as (Hm & _). rewrite Hm in Hdf.
  destruct (process_excel_core_run L tp dp sp w) as (Hres & Hfiles & _).
  assert (outcome (files w) (readonly w) (interrupted w) tp dp sp
          = (inl (KeyError "模板文件中不存在'宁波发货'工作表"), None)) as Ho.
  { apply (outcome_not_filled L _ _ _ _ _ _ df); [done|done|].
    unfold filled_book, open_file. rewrite Htp.
    cbn [mbind result_bind]. by rewrite bool_decide_eq_false_2 by done. }
  rewrite Ho in Hres, Hfiles. by split.
Qed.

(** X5. A sheet too narrow for the positions the routine reads: the run
    reports the index error of [iloc] and writes no file. *)
Theorem narrow_sheet_reported (tp dp sp : string) (w : World) (wb : Workbook)
    (s1 s2 : string) (ws1 ws2 : Worksheet) :
  is_Some (files w !! tp) → files w !! dp = Some (Xlsx wb) →
  first_item (List.filter (contains "发货") (sheetnames wb)) = inr s1 →
  first_item (List.filter (contains "滞留") (sheetnames wb)) = inr s2 →
  assoc s1 wb = Some ws1 → assoc s2 wb = Some ws2 →
  max_column ws1 < 44 ∨ max_column ws2 < 56 →
  (process_excel_core tp dp sp w).2
  = inr (false, Some "处理失败：single positional indexer is out-of-bounds")
  ∧ files (process_excel_core tp dp sp w).1 = files w.
Proof.
  intros Htp Hdp Hs1 Hs2 Hws1 Hws2 Hnarrow.
  destruct (process_excel_core_run L tp dp sp w) as (Hres & Hfiles & _).
  pose proof (read_frame_width L ws1) as Hw1.
  pose proof (read_frame_width L ws2) as Hw2.
  assert (outcome (files w) (readonly w) (interrupted w) tp dp sp
          = (inl (IndexError "single positional indexer is out-of-bounds"), None))
    as Ho.
  { unfold outcome.
    rewrite merged_of_present by (done || by rewrite Hdp).
    rewrite (combined_of_file_sheets _ _ _ _ _ _ _ _ Hdp Hs1 Hs2 Hws1 Hws2).
    destruct (decide (length (read_frame ws1) < 44)) as [Hn1|Hn1].
    - by rewrite ship_stage_narrow by done.
    - rewrite (ship_stage_rows _ _ _ (read_frame_rect L ws1)) by lia.
      cbn [mbind result_bind].
      by rewrite delay_stage_narrow by lia. }
  rewrite Ho in Hres, Hfiles. by split.
Qed.

(** X6. What success takes: the run returns success only if both files
    are workbooks, the data workbook has a sheet for either marker, each
    read wide enough for the positions the routine reads, at least one
    record is kept, the template has the target sheet, no cell the
    cleaning assigns to is the placeholder of a merged range, and the
    save path can be written and the write does not break off. *)
Theorem run_succeeds_only_if (tp dp sp : string) (w : World) :
  (process_excel_core tp dp sp w).2 = inr (true, None) →
  ∃ (wbt wbd : Workbook) (s1 s2 : string) (ws1 ws2 ws : Worksheet),
      files w !! tp = Some (Xlsx wbt) ∧ files w !! dp = Some (Xlsx wbd)
      ∧ first_item (List.filter (contains "发货") (sheetnames wbd)) = inr s1
      ∧ first_item (List.filter (contains "滞留") (sheetnames wbd)) = inr s2
      ∧ assoc s1 wbd = Some ws1 ∧ assoc s2 wbd = Some ws2
      ∧ 44 ≤ length (read_frame ws1) ∧ 56 ≤ length (read_frame ws2)
      ∧ 44 ≤ max_column ws1 ∧ 56 ≤ max_column ws2
      ∧ ship_rows (read_frame ws1) ++ delay_rows (read_frame ws2) ≠ []
      ∧ "宁波发货" ∈ sheetnames wbt
      ∧ wb_getitem wbt "宁波发货" = inr ws
      ∧ (∀ r c, 2 ≤ r ≤ max_row ws → c ∈ clean_columns → plain (ws_cell ws r c))
      ∧ (sp ∉ readonly w) ∧ interrupted w !! sp = None.
Proof.
  intros Hok.
  destruct (success_sheets L _ _ _ _ Hok)
    as (wbt & wbd & s1 & s2 & ws1 & ws2 & ws & wsc & ws' & Htp & Hdp & Hs1 & Hs2
        & Hws1 & Hws2 & Hw1 & Hw2 & Hrows & Hws & Hclean & _ & Hsp & Hbr & _).
  pose proof (read_frame_width L ws1). pose proof (read_frame_width L ws2).
  exists wbt, wbd, s1, s2, ws1, ws2, ws. repeat (split; [done|]).
  split; [lia|]. split; [lia|]. split; [done|].
  split; [eapply assoc_Some_sheetnames; by apply wb_getitem_inr|].
  split; [done|]. split; [|done].
  intros r c Hr Hc. by destruct (clean_template_spec L _ _ Hclean) as [Hin _];
    destruct (Hin r c Hr Hc).
Qed.

(** X7. The routine writes at the save path only: every other path holds
    after the run what it held before, whatever the run came to. *)
Theorem only_save_path_written (tp dp sp p : string) (w : World) :
  p ≠ sp →
  files (process_excel_core tp dp sp w).1 !! p = files w !! p.
Proof.
  intros Hp.
  destruct (process_excel_core_run L tp dp sp w) as (_ & Hfiles & _).
  rewrite Hfiles. destruct (outcome _ _ _ _ _ _).2 as [d|]; cbn; [|done].
  by rewrite lookup_insert_ne.
Qed.

(** X8. Rows the template had below the last written row stay, emptied: in
    the saved sheet each of their cells in the eight columns holds no
    value and the format it had, and the sheet ends where the longer of
    the template and the written rows ends. *)
Theorem stale_rows_cleared (tp dp sp : string) (w : World) :
  (process_excel_core tp dp sp w).2 = inr (true, None) →
  ∃ (wb : Workbook) (ws ws' : Worksheet) (df : DataFrame),
    files w !! tp = Some (Xlsx wb)
    ∧ wb_getitem wb "宁波发货" = inr ws
    ∧ combined_of_file (files w) dp = inr df
    ∧ files (process_excel_core tp dp sp w).1 !! sp
      = Some (Xlsx (wb_update wb "宁波发货" ws'))
    ∧ (∀ r c, c ∈ clean_columns → 2 + df_len df ≤ r ≤ max_row ws →
         ws' !! (r, c) = Some (mkCell VNull (number_format (ws_cell ws r c))))
    ∧ max_row ws' = max_row ws `max` (1 + df_len df).
Proof.
  intros Hok.
  destruct (success_inv L _ _ _ _ Hok)
    as (wb & ws & wsc & ws' & rows & Htp & _ & Hws & Hdf & Hrec & Hne & Hclean & Hfill
        & _ & _ & Hfiles).
  exists wb, ws, ws', (frame_of_records rows).
  rewrite df_len_frame_of_records.
  destruct (written_sheet L rows ws wsc ws' Hrec Hclean Hfill) as (_ & Hcl & _).
  repeat (split; [done|]).
  split; [by rewrite Hfiles, lookup_insert_eq|]. split; [done|].
  by eapply written_sheet_max_row.
Qed.

(** X9. A second run that takes the saved workbook as its template, with
    the same data file, succeeds and saves the same workbook again: the
    files stay as the first run left them. *)
Theorem rerun_on_output_is_stable (tp dp sp : string) (w : World) :
  (process_excel_core tp dp sp w).2 = inr (true, None) → sp ≠ dp →
  (process_excel_core sp dp sp (process_excel_core tp dp sp w).1).2
  = inr (true, None)
  ∧ files (process_excel_core sp dp sp (process_excel_core tp dp sp w).1).1
    = files (process_excel_core tp dp sp w).1.
Proof.
  intros Hok Hne. set (w1 := (process_excel_core tp dp sp w).1).
  destruct (success_inv L _ _ _ _ Hok)
    as (wb & ws & wsc & ws' & rows & Htp & Hdp & Hws & Hdf & Hrec & Hrows & Hclean
        & Hfill & Hsp & Hbr & Hfiles).
  destruct (process_excel_core_run L tp dp sp w) as (_ & _ & Hro & Hin & _).
  destruct (process_excel_core_run L sp dp sp w1) as (Hres2 & Hfiles2 & _).
  fold w1 in Hfiles, Hro, Hin. rewrite Hro, Hin, Hfiles in Hres2, Hfiles2.
  destruct (fill_rerun L rows ws wsc ws' Hrec Hclean Hfill)
    as (wsc' & Hclean' & Hfill').
  assert (outcome (<[sp := Xlsx (wb_update wb "宁波发货" ws')]> (files w))
            (readonly w) (interrupted w) sp dp sp
          = (inr (true, None), Some (Xlsx (wb_update wb "宁波发货" ws')))) as Ho.
  { apply (outcome_saved_eq L _ _ _ _ _ _ (frame_of_records rows)).
    - apply merged_of_inr. split; [by rewrite lookup_insert_eq|].
      by rewrite combined_of_file_insert.
    - rewrite df_len_frame_of_records. by destruct rows.
    - rewrite <- (wb_update_wb_update wb "宁波发货" ws' ws') at 2.
      apply (filled_book_eq L _ _ _ _ ws' wsc'); [by rewrite lookup_insert_eq| |done|].
      + unfold wb_getitem.
        by rewrite (assoc_wb_update_eq _ _ ws) by by apply wb_getitem_inr.
      + unfold fill_template. by rewrite iterrows_frame_of_records by done.
    - done.
    - done. }
  rewrite Ho in Hres2, Hfiles2.
  split; [done|]. rewrite Hfiles2, Hfiles. cbn. apply insert_insert_eq.
Qed.

(** X19. Frame of the writer: after a successful run the saved workbook
    is the template with its target sheet rewritten; the other sheets
    are the template's; in the target sheet every cell outside the
    eight fixed columns, and every cell above row 2 or below both the
    last row of the template and the last written row, is exactly the
    template's cell; and a number format differs from the template's
    only in a written row, and there only in the four numeric columns
    and the date column, or in the customer or the item column where the
    value written is a date, a time or a missing value and the format of
    the template is no date format. *)
Theorem writer_frame (tp dp sp : string) (w : World) :
  (process_excel_core tp dp sp w).2 = inr (true, None) →
  ∃ wb ws ws' df,
    files w !! tp = Some (Xlsx wb)
    ∧ wb_getitem wb "宁波发货" = inr ws
    ∧ (merge_phase tp dp w).2 = inr df
    ∧ files (process_excel_core tp dp sp w).1 !! sp
      = Some (Xlsx (wb_update wb "宁波发货" ws'))
    ∧ sheetnames (wb_update wb "宁波发货" ws') = sheetnames wb
    ∧ wb_getitem (wb_update wb "宁波发货" ws') "宁波发货" = inr ws'
    ∧ (∀ title, title ≠ "宁波发货" →
         assoc title (wb_update wb "宁波发货" ws') = assoc title wb)
    ∧ (∀ r c, c ∉ clean_columns → ws' !! (r, c) = ws !! (r, c))
    ∧ (∀ r c, r < 2 ∨ (max_row ws < r ∧ 2 + length (iterrows df) ≤ r) →
         ws' !! (r, c) = ws !! (r, c))
    ∧ (∀ r c, number_format (ws_cell ws' r c) ≠ number_format (ws_cell ws r c) →
         2 ≤ r < 2 + length (iterrows df)
         ∧ (c ∈ [21; 24; 26; 43; 45]
            ∨ (c ∈ [8; 15]
               ∧ (is_Some (time_format (value_of (ws_cell ws' r c)))
                  ∨ value_of (ws_cell ws' r c) = VNull)
               ∧ is_date_format L (number_format (ws_cell ws r c)) = false))).
Proof.
  intros Hok. destruct (success_saved L _ _ _ _ Hok)
    as (ws1 & ws2 & wb & ws & wsc & ws' & df & Hsheets & Hdf & Hrows & Htp & Hws
        & Hclean & Hfill & Hfiles & Hget).
  assert (Forall is_record (iterrows df)) as Hrec
    by (rewrite Hrows; apply kept_rows_records).
  destruct (written_sheet L _ ws wsc ws' Hrec Hclean Hfill) as (_ & _ & Hout).
  exists wb, ws, ws', df.
  split; [done|]. split; [done|]. split; [done|].
  split; [by rewrite Hfiles, lookup_insert_eq|].
  split; [apply sheetnames_wb_update|]. split; [done|].
  split; [by intros title Hne; apply assoc_wb_update_ne|].
  split; [by intros r c Hc; apply Hout; left|].
  split; [by intros r c Hr; apply Hout; right|].
  intros r c Hne.
  destruct (written_sheet_cases L _ ws wsc ws' r c Hrec Hclean Hfill)
    as [(Hc & Hr & row & Hrow & Hcell)|[(Hc & Hr & Hcell)|[Hno Hcell]]].
  - split; [done|]. unfold ws_cell at 1 in Hne. unfold ws_cell at 1.
    rewrite Hcell in *. cbn [default] in *.
    assert (row ∈ iterrows df) as Hmem by by eapply list_elem_of_lookup_2.
    assert (assoc "城市群" row = Some (VStr "舟山区")) as Hregion.
    { rewrite Hrows in Hmem. apply elem_of_app in Hmem as [Hmem|Hmem];
        [by eapply ship_rows_region | by eapply delay_rows_region]. }
    revert Hne. unfold clean_columns in Hc.
    repeat (apply elem_of_cons in Hc as [->|Hc];
            [unfold written_cell;
             cbn [List.find template_table Nat.eqb fst snd number_format value_of default]
            |]); [| | | | | | | |by apply elem_of_nil in Hc];
      try (intros _; left; by apply (bool_decide_unpack _)).
    + rewrite Hregion. cbn. done.
    + intros Hne. right. split; [by apply (bool_decide_unpack _)|].
      revert Hne. unfold bind_format.
      destruct (time_format _) as [f|]; [|done].
      destruct (is_date_format L _); [done|]. eauto.
    + intros Hne. right. split; [by apply (bool_decide_unpack _)|].
      revert Hne. unfold bind_format.
      destruct (time_format _) as [f|]; [|done].
      destruct (is_date_format L _); [done|]. eauto.
  - exfalso. apply Hne. unfold ws_cell at 1. by rewrite Hcell.
  - exfalso. apply Hne. f_equal. by apply ws_cell_lookup.
Qed.

(** X20. The first phase returns: when both paths exist, the data file
    is a workbook with a sheet for either marker, and pandas reads the
    two sheets at least 44 and 56 columns wide, the phase hands on a
    frame, whose rows are the kept shipment records followed by the kept
    backlog records. *)
Theorem merge_phase_returns (tp dp : string) (w : World) (ws1 ws2 : Worksheet) :
  is_Some (files w !! tp) → data_sheets (files w) dp ws1 ws2 →
  44 ≤ length (read_frame ws1) → 56 ≤ length (read_frame ws2) →
  ∃ df, (merge_phase tp dp w).2 = inr df
    ∧ iterrows df = ship_rows (read_frame ws1) ++ delay_rows (read_frame ws2)
    ∧ df_len df
      = length (ship_rows (read_frame ws1)) + length (delay_rows (read_frame ws2)).
Proof.
  intros Htp (wb & s1 & s2 & Hdp & Hs1 & Hs2 & Hws1 & Hws2) Hw1 Hw2.
  exists (frame_of_records (ship_rows (read_frame ws1) ++ delay_rows (read_frame ws2))).
  split.
  { destruct (merge_phase_run L tp dp w) as (-> & _).
    apply merged_of_inr. split; [done|]. by eapply combined_of_file_wide. }
  split; [apply iterrows_frame_of_records, kept_rows_records|].
  by rewrite df_len_frame_of_records, length_app.
Qed.

End More.

(** * The log of a run *)

Section Log.

Variable L : Library.

Local Abbreviation process_excel_core := (process_excel_core L).
Local Abbreviation merge_phase := (merge_phase L).
Local Abbreviation write_phase := (write_phase L).

Local Opaque ship_cols delay_cols process_date_column filter_ship filter_delay
  convert_numeric_columns pd_DataFrame fill_template clean_template
  pd_concat dropna_all df_len first_item parse_sheet wb_getitem wb_update
  setitem pretty String.append sheetnames List.filter contains.

Ltac run_steps :=
  unfold merge_phase, write_phase;
  unfold os_path_exists, pd_ExcelFile_sheet_names, pd_read_excel, load_workbook,
    wb_save, write_file, open_xlsx, record_event, log_callback, raise_unless, lift, raise,
    gets, modify, mbind, M_bind, mret, M_ret, result_bind, result_ret;
  cbn;
  repeat match goal with
         | |- context [bool_decide ?P] => destruct (bool_decide P) eqn:?; cbn
         | |- context [decide ?P] => destruct (decide P); cbn
         | |- context [match ?x with inl _ => _ | inr _ => _ end] =>
             match x with
             | open_file _ _ _ => idtac | first_item _ => idtac
             | parse_sheet _ _ _ => idtac | ship_cols _ => idtac
             | delay_cols _ => idtac | process_date_column _ _ _ => idtac
             | filter_ship _ => idtac | filter_delay _ => idtac
             | wb_getitem _ _ => idtac | fill_template _ _ _ => idtac
             | clean_template _ _ => idtac
             end; destruct x eqn:?; cbn
         | |- context [match interrupted ?w !! ?p with Some _ => _ | None => _ end] =>
             destruct (interrupted w !! p) as [[? ?]|] eqn:?; cbn
         end;
  rewrite <- ?app_assoc; cbn [app].

(** The first phase only adds to the log. *)
Lemma merge_phase_log (tp dp : string) (w : World) :
  ∃ msgs, log (merge_phase tp dp w).1 = log w ++ msgs.
Proof.
  run_steps.
  all: first [ by exists []; rewrite app_nil_r | eexists; reflexivity ].
Qed.

(** So does the second, and when it returns its last message is the
    completion message. *)
Lemma write_phase_log (tp sp : string) (df : DataFrame) (w : World) :
  ∃ msgs, log (write_phase tp sp df w).1 = log w ++ msgs
    ∧ (∀ r, (write_phase tp sp df w).2 = inr r →
         r = (true, None)
         ∧ last msgs
           = Some ("处理完成！模板表原有数据已清洗，AS列（45列）仅保留日期部分，保存至："
                   +:+ sp)).
Proof.
  run_steps.
  all: eexists; split; [reflexivity|]; intros r [= <-]; by split.
Qed.

(** X10. The log tells the outcome.  A run only adds to the log, and
    the last line it adds goes with what it returns: the completion
    line with the save path when it returns success, the warning line
    when it returns the empty-data failure, and the returned message
    itself when it returns the failure of an exception. *)
Theorem log_tells_outcome (tp dp sp : string) (w : World) :
  ∃ msgs, log (process_excel_core tp dp sp w).1 = log w ++ msgs
    ∧ (((process_excel_core tp dp sp w).2 = inr (true, None)
        ∧ last msgs
          = Some ("处理完成！模板表原有数据已清洗，AS列（45列）仅保留日期部分，保存至："
                  +:+ sp))
       ∨ ((process_excel_core tp dp sp w).2
          = inr (false, Some "数据文件合并后无有效数据")
          ∧ last msgs = Some "警告：数据文件合并后无有效数据！")
       ∨ (∃ e, (process_excel_core tp dp sp w).2
               = inr (false, Some ("处理失败：" +:+ exn_str e))
               ∧ last msgs = Some ("处理失败：" +:+ exn_str e))).
Proof.
  destruct (merge_phase_log tp dp w) as (msgs1 & Hlog1).
  destruct (process_excel_core tp dp sp w) as [w' r] eqn:Hrun.
  unfold process_excel_core, try_except in Hrun. rewrite bind_run in Hrun.
  destruct (merge_phase tp dp w) as [w1 [e|df]]; cbn [fst snd] in *.
  - cbn in Hrun. injection Hrun as <- <-. cbn [log].
    exists (msgs1 ++ ["处理失败：" +:+ exn_str e]).
    split; [by rewrite Hlog1, app_assoc|].
    right; right. exists e. by rewrite last_snoc.
  - destruct (decide (df_len df = 0)) as [Hlen|Hlen].
    + cbn in Hrun. injection Hrun as <- <-. cbn [log].
      exists (msgs1 ++ ["警告：数据文件合并后无有效数据！"]).
      split; [by rewrite Hlog1, app_assoc|].
      right; left. by rewrite last_snoc.
    + destruct (write_phase_log tp sp df w1) as (msgs2 & Hlog2 & Hlast).
      destruct (write_phase tp sp df w1) as [w2 [e|r2]]; cbn [fst snd] in *.
      * cbn in Hrun. injection Hrun as <- <-. cbn [log].
        exists (msgs1 ++ msgs2 ++ ["处理失败：" +:+ exn_str e]).
        split; [by rewrite Hlog2, Hlog1, <- !app_assoc|].
        right; right. exists e. by rewrite !app_assoc, last_snoc.
      * destruct (Hlast r2 eq_refl) as [-> Hl].
        cbn in Hrun. injection Hrun as <- <-.
        exists (msgs1 ++ msgs2). split; [by rewrite Hlog2, Hlog1, app_assoc|].
        left. split; [done|]. rewrite last_app, Hl. done.
Qed.

End Log.

Section SuccessPath.

Variable L : Library.

Local Abbreviation ship_stage := (ship_stage L).
Local Abbreviation delay_stage := (delay_stage L).
Local Abbreviation ship_rows := (ship_rows L).
Local Abbreviation delay_rows := (delay_rows L).
Local Abbreviation read_frame := (read_frame L).
Local Abbreviation process_excel_core := (process_excel_core L).

Lemma ship_stage_inr (df a : DataFrame) :
  ship_stage df = inr a →
  ∃ cols p, ship_cols df = inr cols
    ∧ process_date_column L
        (convert_numeric_columns L (pd_DataFrame cols) numeric_cols)
        "签收关单时间" = inr p
    ∧ filter_ship p = inr a.
Proof.
  unfold ship_stage. destruct (ship_cols df) as [?|cols]; [done|].
  cbn [mbind result_bind].
  destruct (process_date_column _ _ _) as [?|p] eqn:Hp; [done|].
  cbn [mbind result_bind]. intros Ha. by exists cols, p.
Qed.

Lemma delay_stage_inr (df b : DataFrame) :
  delay_stage df = inr b →
  ∃ cols, delay_cols df = inr cols
    ∧ filter_delay
        (setitem (convert_numeric_columns L (pd_DataFrame cols) numeric_cols)
           "签收关单时间"
           (replicate (df_len (convert_numeric_columns L (pd_DataFrame cols)
                                 numeric_cols)) VNull))
      = inr b.
Proof.
  unfold delay_stage. destruct (delay_cols df) as [?|cols]; [done|].
  cbn [mbind result_bind]. intros Hb. by exists cols.
Qed.

Ltac run_step :=
  cbn [files readonly interrupted log trace fst snd].

(** X11. The log and the library calls of a successful run, in full:
    thirteen lines, among them the names of the two sheets that were
    picked, the number of shipment records kept, the number of backlog
    records kept and their sum as the size of the merged table; and
    seven calls, the two existence checks, the listing of the sheets,
    one read per sheet, one load of the template and one save, in this
    order. *)
Theorem log_of_success (tp dp sp : string) (w : World) :
  (process_excel_core tp dp sp w).2 = inr (true, None) →
  ∃ (wbd : Workbook) (s1 s2 : string) (ws1 ws2 : Worksheet),
    files w !! dp = Some (Xlsx wbd)
    ∧ first_item (List.filter (contains "发货") (sheetnames wbd)) = inr s1
    ∧ first_item (List.filter (contains "滞留") (sheetnames wbd)) = inr s2
    ∧ assoc s1 wbd = Some ws1 ∧ assoc s2 wbd = Some ws2
    ∧ log (process_excel_core tp dp sp w).1
      = log w
        ++ ["开始读取数据文件（提取数据并转换数值类型）...";
            "识别到数据文件发货表：" +:+ s1 +:+ "，滞留表：" +:+ s2;
            "提取数据文件发货表舟山区数据并转换数值类型...";
            "转换发货表签收关单时间（仅保留年月日，隐藏时分秒）...";
            "数据文件发货表提取到舟山区数据 "
              +:+ pretty (length (ship_rows (read_frame ws1))) +:+ " 行";
            "提取数据文件滞留表舟山区数据并转换数值类型...";
            "数据文件滞留表提取到舟山区数据 "
              +:+ pretty (length (delay_rows (read_frame ws2))) +:+ " 行";
            "合并数据文件发货/滞留数据（仅保留日期，隐藏时分秒）...";
            "数据文件合并后总数据 "
              +:+ pretty (length (ship_rows (read_frame ws1))
                          + length (delay_rows (read_frame ws2))) +:+ " 行";
            "加载模板文件（保留所有原始格式）...";
            "清洗模板表原有数据（仅清空数值，保留格式和公式）...";
            "填充数据文件新数据到模板（仅保留日期，兼容Excel公式）...";
            "处理完成！模板表原有数据已清洗，AS列（45列）仅保留日期部分，保存至："
              +:+ sp]
    ∧ trace (process_excel_core tp dp sp w).1
      = trace w
        ++ [EvExists tp; EvExists dp; EvExcelFile dp; EvReadExcel dp s1;
            EvReadExcel dp s2; EvLoadWorkbook tp; EvSave sp].
Proof.
  intros Hok.
  destruct (success_sheets L _ _ _ _ Hok)
    as (wbt & wbd & s1 & s2 & ws1 & ws2 & ws & wsc & ws' & Htp & Hdp & Hs1 & Hs2
        & Hws1 & Hws2 & Hw1 & Hw2 & Hrows & Hws & Hclean & Hfill & Hsp & Hbr & _).
  exists wbd, s1, s2, ws1, ws2. repeat (split; [done|]). clear Hok.
  pose proof (ship_stage_rows L _ _ (read_frame_rect L ws1) Hw1) as Ha.
  pose proof (delay_stage_rows L _ _ (read_frame_rect L ws2) Hw2) as Hb.
  apply ship_stage_inr in Ha as (cols1 & p1 & Hcols1 & Hp1 & Ha).
  apply delay_stage_inr in Hb as (cols2 & Hcols2 & Hb).
  assert ("宁波发货" ∈ sheetnames wbt) as Hsheet
    by (eapply assoc_Some_sheetnames; by apply wb_getitem_inr).
  apply wb_getitem_inr in Hws.
  assert (dropna_all (pd_concat (frame_of_records (ship_rows (read_frame ws1)))
                        (frame_of_records (delay_rows (read_frame ws2))))
          = frame_of_records (ship_rows (read_frame ws1)
                              ++ delay_rows (read_frame ws2))) as Hcomb.
  { fold (combine (frame_of_records (ship_rows (read_frame ws1)))
            (frame_of_records (delay_rows (read_frame ws2)))).
    rewrite combine_frame_of_records
      by (apply ship_rows_records || apply delay_rows_records).
    f_equal. apply (merged_rows_app L). }
  unfold process_excel_core, try_except, merge_phase, write_phase.
  unfold os_path_exists, pd_ExcelFile_sheet_names, pd_read_excel, load_workbook,
    wb_save, write_file, open_xlsx, parse_sheet, record_event, log_callback,
    raise_unless, lift, raise, gets, modify, mbind, M_bind, mret, M_ret, result_ret,
    open_file, wb_getitem, fill_template.
  assert (length (ship_rows (read_frame ws1) ++ delay_rows (read_frame ws2)) ≠ 0)
    as Hlen by by destruct (_ ++ _).
  repeat (run_step;
          first [ rewrite Htp | rewrite Hdp | rewrite Hs1 | rewrite Hs2
                | rewrite Hws1 | rewrite Hws2 | rewrite Hcols1 | rewrite Hp1
                | rewrite Ha | rewrite Hcols2 | rewrite Hb | rewrite Hcomb
                | rewrite Hws | rewrite Hclean | rewrite Hfill | rewrite Hbr
                | rewrite bool_decide_eq_true_2 by done
                | rewrite decide_False by done
                | rewrite df_len_frame_of_records
                | rewrite iterrows_frame_of_records by apply kept_rows_records ]).
  run_step. rewrite length_app, <- !app_assoc. done.
Qed.

End SuccessPath.

(** * The helpers of the pipeline on any frame *)

Lemma df_columns_setitem (df : DataFrame) (col : string) (s s0 : Series) :
  assoc col df = Some s0 → df_columns (setitem df col s) = df_columns df.
Proof.
  unfold df_columns. induction df as [|[k s1] df IH]; cbn; [done|].
  destruct (String.eqb k col) eqn:Hk; cbn; [done|].
  intros Hs0. by rewrite IH.
Qed.

Section Helpers.

Variable L : Library.

Local Abbreviation convert_numeric_columns := (convert_numeric_columns L).
Local Abbreviation to_numeric_coerce := (to_numeric_coerce L).
Local Abbreviation process_date_column := (process_date_column L).
Local Abbreviation date_at := (date_at L).

(** X12. The numeric helper on any frame and any list of names: the labels
    stay, in their order, so a name the frame lacks adds no column; a
    column that is not named is untouched; and every column keeps its
    length. *)
Theorem convert_numeric_columns_frame (df : DataFrame) (names : list string) :
  df_columns (convert_numeric_columns df names) = df_columns df
  ∧ (∀ col, col ∉ names →
       assoc col (convert_numeric_columns df names) = assoc col df)
  ∧ (∀ col s, assoc col df = Some s →
       ∃ s', assoc col (convert_numeric_columns df names) = Some s'
         ∧ length s' = length s).
Proof.
  revert df. induction names as [|name names IH]; intros df.
  - cbn. split; [done|]. split; [done|]. intros col s Hs. by exists s.
  - cbn [convert_numeric_columns foldl].
    destruct (assoc name df) as [s0|] eqn:Hname.
    + destruct (IH (setitem df name (to_numeric_coerce s0))) as (Hcols & Hother & Hlen).
      fold (convert_numeric_columns (setitem df name (to_numeric_coerce s0)) names).
      split; [by rewrite Hcols; apply (df_columns_setitem _ _ _ s0)|]. split.
      * intros col Hcol. apply not_elem_of_cons in Hcol as [Hne Hcol].
        rewrite Hother by done. by apply assoc_setitem_ne.
      * intros col s Hs. destruct (decide (col = name)) as [->|Hne].
        -- destruct (Hlen name (to_numeric_coerce s0)) as (s' & Hs' & Hl);
             [apply assoc_setitem_eq|].
           exists s'. split; [done|]. rewrite Hl. unfold to_numeric_coerce.
           rewrite length_imap. congruence.
        -- apply Hlen. by rewrite assoc_setitem_ne.
    + destruct (IH df) as (Hcols & Hother & Hlen).
      fold (convert_numeric_columns df names).
      split; [done|]. split; [|done].
      intros col Hcol. apply not_elem_of_cons in Hcol as [Hne Hcol]. auto.
Qed.

(** X13. The date helper on any frame: a frame without the column raises the
    key error of the lookup; otherwise the labels stay, every other
    column is untouched, and the column comes back with the same length
    and nothing in it but time stamps of a midnight and missing
    values. *)
Theorem process_date_column_frame (df : DataFrame) (col : string) :
  (assoc col df = None → process_date_column df col = inl (KeyError col))
  ∧ (∀ s, assoc col df = Some s →
       ∃ df' s', process_date_column df col = inr df'
         ∧ df_columns df' = df_columns df
         ∧ (∀ c, c ≠ col → assoc c df' = assoc c df)
         ∧ assoc col df' = Some s' ∧ length s' = length s
         ∧ Forall (λ v, v = VNull ∨ ∃ d, v = VDateTime d (mkTime 0 0 0)) s').
Proof.
  split.
  - intros Hnone. unfold process_date_column, getitem. by rewrite Hnone.
  - intros s Hs.
    exists (setitem df col (imap (λ i _, date_at s i) s)), (imap (λ i _, date_at s i) s).
    split; [apply process_date_column_eq; unfold getitem; by rewrite Hs|].
    split; [by apply (df_columns_setitem _ _ _ s)|].
    split; [by intros c Hc; apply assoc_setitem_ne|].
    split; [apply assoc_setitem_eq|]. split; [apply length_imap|].
    apply Forall_forall. intros v Hv.
    apply elem_of_lookup_imap in Hv as (i & x & -> & _). unfold date_at.
    destruct (to_datetime_parse L s i) as [[d t]|]; [right; by exists d | by left].
Qed.

End Helpers.

(** * Names of sheets and files *)

Lemma string_app_cons (a : Ascii.ascii) (s t : string) :
  String a s +:+ t = String a (s +:+ t).
Proof. done. Qed.

Lemma string_app_assoc (a b c : string) : (a +:+ b) +:+ c = a +:+ (b +:+ c).
Proof.
  induction a as [|x a IH]; [done|].
  rewrite !string_app_cons. by rewrite IH.
Qed.

Lemma prefix_spec (sub name : string) :
  String.prefix sub name = true ↔ ∃ post, name = sub +:+ post.
Proof.
  revert name. induction sub as [|a sub IH]; intros name.
  - destruct name; cbn; (split; [intros _; by eexists | done]).
  - destruct name as [|b name]; cbn [String.prefix].
    + split; [done | by intros [post [=]]].
    + destruct (Ascii.ascii_dec a b) as [->|Hne].
      * rewrite IH. setoid_rewrite string_app_cons.
        split; intros [post Hp]; exists post; congruence.
      * setoid_rewrite string_app_cons.
        split; [done | intros [post [=]]; congruence].
Qed.

(** [contains] is Python's [in]: the name has the text somewhere in
    it. *)
Lemma contains_spec (sub name : string) :
  contains sub name = true ↔ ∃ pre post, name = pre +:+ sub +:+ post.
Proof.
  induction name as [|b name IH]; cbn [contains];
    rewrite orb_true_iff, prefix_spec.
  - split.
    + intros [[post Hp]|?]; [|done]. by exists "", post.
    + intros (pre & post & Hp). left. destruct pre as [|? ?]; [|done].
      by exists post.
  - rewrite IH. split.
    + intros [[post Hp]|(pre & post & Hp)]; [by exists "", post|].
      exists (String b pre), post. rewrite string_app_cons. by f_equal.
    + intros ([|a pre] & post & Hp).
      * left. by exists post.
      * right. rewrite string_app_cons in Hp. injection Hp as -> Hp.
        by exists pre, post.
Qed.

Lemma first_item_filter {A} (p : A → bool) (l : list A) (x : A) :
  first_item (List.filter p l) = inr x
  ↔ ∃ i, l !! i = Some x ∧ p x = true
       ∧ ∀ j y, j < i → l !! j = Some y → p y = false.
Proof.
  induction l as [|a l IH]; cbn [List.filter].
  - split; [done | by intros (i & Hi & _)].
  - destruct (p a) eqn:Ha; cbn [first_item].
    + split.
      * intros [= ->]. exists 0. split; [done|]. split; [done|]. intros; lia.
      * intros ([|i] & Hi & Hx & Hmin).
        -- by injection Hi as ->.
        -- rewrite (Hmin 0 a) in Ha; [done|lia|done].
    + rewrite IH. split.
      * intros (i & Hi & Hx & Hmin). exists (S i). split; [done|].
        split; [done|]. intros [|j] y Hj Hy; [by injection Hy as <-|].
        apply (Hmin j); [lia|done].
      * intros ([|i] & Hi & Hx & Hmin).
        -- injection Hi as ->. congruence.
        -- exists i. split; [done|]. split; [done|]. intros j y Hj Hy.
           apply (Hmin (S j)); [lia|done].
Qed.

(** X14. The sheet locator of lines 82-83 picks, in workbook order, the
    first sheet whose name has the marker in it; names before it do not
    have it. *)
Theorem sheet_locator_first (marker : string) (sheet_names : list string)
    (name : string) :
  first_item (List.filter (contains marker) sheet_names) = inr name
  ↔ ∃ i, sheet_names !! i = Some name
       ∧ (∃ pre post, name = pre +:+ marker +:+ post)
       ∧ ∀ j other, j < i → sheet_names !! j = Some other →
           ¬ ∃ pre post, other = pre +:+ marker +:+ post.
Proof.
  rewrite first_item_filter. setoid_rewrite <- contains_spec.
  split; intros (i & Hi & Hx & Hmin); exists i; (split; [done|]); (split; [done|]);
    intros j y Hj Hy; specialize (Hmin j y Hj Hy).
  - by rewrite Hmin.
  - by destruct (contains marker y).
Qed.

Lemma endswith_spec (s suffix : string) :
  endswith s suffix = true ↔ ∃ stem, s = stem +:+ suffix.
Proof.
  induction s as [|a s IH]; cbn [endswith]; rewrite orb_true_iff, String.eqb_eq.
  - split.
    + intros [<-|?]; [|done]. by exists "".
    + intros ([|? ?] & Hs); [|done]. by left.
  - rewrite IH. split.
    + intros [<-|[stem ->]]; [by exists ""|]. by exists (String a stem).
    + intros ([|b stem] & Hs); [by left|].
      right. rewrite string_app_cons in Hs. injection Hs as -> ->.
      by exists stem.
Qed.

(** X15. The name of the result file always ends in [.xlsx]; a name that
    does already is kept as typed, any other gets the suffix once; and
    completing a completed name changes nothing. *)
Theorem result_filename_suffix (typed : string) :
  (∃ stem, result_filename typed = stem +:+ ".xlsx")
  ∧ ((∃ stem, typed = stem +:+ ".xlsx") → result_filename typed = typed)
  ∧ ((¬ ∃ stem, typed = stem +:+ ".xlsx") →
     result_filename typed = typed +:+ ".xlsx")
  ∧ result_filename (result_filename typed) = result_filename typed.
Proof.
  assert (∀ t, (∃ stem, t = stem +:+ ".xlsx") → result_filename t = t) as Hkeep.
  { intros t Ht%endswith_spec. unfold result_filename. by rewrite Ht. }
  assert (∃ stem, result_filename typed = stem +:+ ".xlsx") as Hends.
  { unfold result_filename. destruct (endswith typed ".xlsx") eqn:He; cbn.
    - by apply endswith_spec.
    - by exists typed. }
  split; [done|]. split; [apply Hkeep|]. split; [|by apply Hkeep].
  intros Hno. unfold result_filename.
  destruct (endswith typed ".xlsx") eqn:He; [|done].
  by apply endswith_spec in He.
Qed.

(** * The log and the result area of the page *)

Lemma last_drop {A} (n : nat) (l : list A) :
  n < length l → last (drop n l) = last l.
Proof.
  revert n. induction l as [|x l IH]; intros n Hn; [cbn in Hn; lia|].
  destruct n as [|n]; [done|]. cbn [drop]. rewrite IH by (cbn in Hn; lia).
  destruct l; [cbn in Hn; lia | done].
Qed.

Lemma streamlit_log_callback_list (timestamp msg : string) (s : Session) :
  log_list (streamlit_log_callback timestamp msg s)
  = last_items 50 (log_list s ++ [timestamp +:+ " " +:+ msg]).
Proof.
  unfold streamlit_log_callback, last_items. cbn [log_list].
  destruct (Nat.ltb_spec 50 (length (log_list s ++ [timestamp +:+ " " +:+ msg])))
    as [Hlt|Hle]; [done|].
  by replace (length _ - 50) with 0 by lia.
Qed.

Lemma streamlit_log_callback_last (timestamp msg : string) (s : Session) :
  last (log_list (streamlit_log_callback timestamp msg s))
  = Some (timestamp +:+ " " +:+ msg).
Proof.
  rewrite streamlit_log_callback_list. unfold last_items.
  rewrite last_drop by (rewrite length_app; cbn; lia). apply last_snoc.
Qed.

(** X16. One call of the log callback: the message, stamped, is the last
    entry; the list is the end of the old list with the message added
    and never has more than fifty entries, whatever it had before; the
    other two keys of the session are untouched. *)
Theorem streamlit_log_bounded (timestamp msg : string) (s : Session) :
  last (log_list (streamlit_log_callback timestamp msg s))
  = Some (timestamp +:+ " " +:+ msg)
  ∧ length (log_list (streamlit_log_callback timestamp msg s))
    = S (length (log_list s)) `min` 50
  ∧ log_list (streamlit_log_callback timestamp msg s)
    `suffix_of` (log_list s ++ [timestamp +:+ " " +:+ msg])
  ∧ process_success (streamlit_log_callback timestamp msg s) = process_success s
  ∧ save_path (streamlit_log_callback timestamp msg s) = save_path s.
Proof.
  split; [apply streamlit_log_callback_last|].
  rewrite streamlit_log_callback_list. unfold last_items.
  split; [rewrite length_drop, length_app; cbn; lia|].
  split; [apply suffix_drop|]. done.
Qed.

Lemma last_items_app {A} (n : nat) (l k : list A) :
  last_items n (last_items n l ++ k) = last_items n (l ++ k).
Proof.
  unfold last_items. rewrite !length_app, length_drop.
  destruct (decide (length l ≤ n)) as [Hle|Hgt].
  - replace (length l - n) with 0 by lia. by rewrite Nat.sub_0_r.
  - set (m := length l - n).
    replace (length l - m + length k - n) with (length k) by lia.
    replace (length l + length k - n) with (m + length k) by lia.
    rewrite <- drop_drop. by rewrite (drop_app_le l k m) by (unfold m; lia).
Qed.

(** X17. Any number of calls: the log holds the latest fifty entries of all
    that were ever added, in the order of the calls. *)
Theorem streamlit_log_keeps_latest (calls : list (string * string)) (s : Session) :
  length (log_list s) ≤ 50 →
  log_list (foldl (λ s c, streamlit_log_callback c.1 c.2 s) s calls)
  = last_items 50 (log_list s ++ ((λ c, c.1 +:+ " " +:+ c.2) <$> calls)).
Proof.
  revert s. induction calls as [|[ts msg] calls IH]; intros s Hlen.
  - cbn. rewrite app_nil_r. unfold last_items.
    by replace (length (log_list s) - 50) with 0 by lia.
  - cbn [foldl fmap list_fmap fst snd]. rewrite IH.
    + rewrite streamlit_log_callback_list, last_items_app.
      by rewrite <- app_assoc.
    + rewrite streamlit_log_callback_list. unfold last_items.
      rewrite length_drop. lia.
Qed.

Lemma contains_failure (pre post : string) :
  contains "处理失败" (pre +:+ " " +:+ "❌ 处理失败：" +:+ post) = true.
Proof.
  apply contains_spec. exists (pre +:+ " ❌ "), ("：" +:+ post).
  rewrite !string_app_assoc. done.
Qed.

Ltac failed_run :=
  cbn [returned report_result fst snd mbind result_bind];
  rewrite streamlit_log_callback_last; cbn;
  rewrite contains_failure.

Section Page.

Variable L : Library.

Local Abbreviation process_excel_core := (process_excel_core L).

(** X18. The page after a run: with the pair the routine returned reported
    into a session whose save path is the one the routine was given, the
    result area offers the saved file when the routine returned success
    and shows the error banner when it returned failure, whatever the
    log held before and whatever the clock says. *)
Theorem page_shows_outcome (tp dp sp timestamp : string) (w : World)
    (s : Session) :
  save_path s = sp →
  ∃ res, (process_excel_core tp dp sp w).2 = inr res
    ∧ result_area
        (λ p, bool_decide (is_Some (files (process_excel_core tp dp sp w).1 !! p)))
        (report_result timestamp res sp s)
      = if res.1 then Download sp else ErrorBanner.
Proof.
  intros Hsp.
  destruct (process_excel_core_run L tp dp sp w)
    as (Hres & Hfiles & _).
  eexists. split; [exact Hres|]. rewrite Hfiles.
  unfold result_area, outcome.
  destruct (merged_of _ _ _ _) as [e|df]; [by failed_run|].
  destruct (decide _); [by failed_run|].
  destruct (filled_book _ _ _ _) as [e|wb]; [by failed_run|].
  destruct (save_outcome_cases (readonly w) (interrupted w) sp wb)
    as [[? ->]|[(? & e & left_over & ? & ->)|(? & ? & ->)]];
    [by failed_run|by failed_run|].
  cbn. rewrite Hsp, lookup_insert_eq.
  by rewrite bool_decide_eq_true_2.
Qed.

End Page.

(** * The sample run

    The scenario of the specification: the shipment record of the target
    region with quantity 10.5 and sign-off 2024-01-02 08:00:00 lands in
    row 2 with the quantity as a number in format 0.00 and the sign-off
    as the midnight of its date in format yyyy/mm/dd; the backlog record
    without organisation is left out; the old record of row 5 loses its
    values and keeps its formats, and the formula beside it stays. *)

Example sample_run_returns :
  (process_excel_core sample_library
     "t.xlsx" "d.xlsx" "o.xlsx" sample_world).2 = inr (true, None).
Proof. by vm_compute. Qed.

Example sample_run_cells :
  sample_saved_sheet !! (2, 4) = Some (mkCell (VStr "舟山区") "General")
  ∧ sample_saved_sheet !! (2, 8) = Some (mkCell (VStr "A") "General")
  ∧ sample_saved_sheet !! (2, 21) = Some (mkCell (VNum (Qmake 21 2)) "0.00")
  ∧ sample_saved_sheet !! (2, 45)
    = Some (mkCell (VDateTime (mkDate 2024 1 2) (mkTime 0 0 0)) "yyyy/mm/dd")
  ∧ sample_saved_sheet !! (3, 8) = Some (mkCell (VStr "C") "General")
  ∧ sample_saved_sheet !! (3, 21) = Some (mkCell VNull "0.00")
  ∧ sample_saved_sheet !! (3, 45) = Some (mkCell VNull "yyyy/mm/dd")
  ∧ sample_saved_sheet !! (4, 8) = Some (mkCell (VStr "E") "General")
  ∧ sample_saved_sheet !! (4, 45) = Some (mkCell VNull "yyyy/mm/dd")
  ∧ sample_saved_sheet !! (5, 4) = Some (mkCell VNull "@")
  ∧ sample_saved_sheet !! (5, 5) = Some (mkCell (VStr "=D5") "0.0")
  ∧ sample_saved_sheet !! (5, 21) = Some (mkCell VNull "0.0")
  ∧ sample_saved_sheet !! (1, 4) = Some (mkCell (VStr "城市群") "General")
  ∧ sample_saved_sheet !! (6, 4) = None.
Proof. by vm_compute. Qed.

Example sample_run_missing_template :
  (process_excel_core sample_library
     "none.xlsx" "d.xlsx" "o.xlsx" sample_world).2
  = inr (false, Some "处理失败：模板文件不存在：none.xlsx").
Proof. by vm_compute. Qed.

Example sample_run_missing_sheet :
  (process_excel_core sample_library
     "d.xlsx" "d.xlsx" "o.xlsx" sample_world).2
  = inr (false, Some ("处理失败：" +:+ dquote +:+ "模板文件中不存在'宁波发货'工作表"
                      +:+ dquote)).
Proof. by vm_compute. Qed.

Example sample_run_merged :
  (merge_phase sample_library "t.xlsx" "d.xlsx" sample_world).2 = inr sample_merged.
Proof. by vm_compute. Qed.


(** * The theorems at the sample data *)

Lemma region_filter_correct_witness :
  ∃ ws1 ws2, data_sheets (files sample_world) "d.xlsx" ws1 ws2
    ∧ iterrows sample_merged
      = flat_map (ship_contribution sample_library (read_frame sample_library ws1))
                 (enumerate (iterrows (read_frame sample_library ws1)))
        ++ flat_map (delay_contribution sample_library (read_frame sample_library ws2))
                    (enumerate (iterrows (read_frame sample_library ws2)))
    ∧ (∀ d ir, field ir.2 3 ≠ VStr "舟山区" →
         ship_contribution sample_library d ir = []
         ∧ delay_contribution sample_library d ir = [])
    ∧ (∀ row, row ∈ iterrows sample_merged →
         row_get row "城市群" = inr (VStr "舟山区"))
    ∧ (∀ d ir, delay_contribution sample_library d ir ≠ [] →
         field ir.2 3 = VStr "舟山区"
         ∧ field ir.2 26 ≠ VNull ∧ field ir.2 26 ≠ VStr "").
Proof.
  apply (region_filter_correct sample_library "t.xlsx" "d.xlsx" sample_world).
  by vm_compute.
Defined.


Lemma numeric_coercion_to_null_witness :
  ∃ s', getitem (convert_numeric_columns sample_library
                   [("税率", [VStr "10.5"; VStr ""; VStr "n/a"])] numeric_cols)
                "税率" = inr s'
    ∧ length s' = 3
    ∧ s' !! 1 = Some VNull ∧ s' !! 1 ≠ Some (VNum 0).
Proof.
  assert (∀ s i, s !! i = Some (VStr "") → to_numeric_parse sample_library s i = None)
    as Hempty.
  { intros s i Hs. cbn. unfold sample_to_numeric. rewrite Hs. reflexivity. }
  apply (proj1 (numeric_coercion_to_null sample_library Hempty)
           [("税率", [VStr "10.5"; VStr ""; VStr "n/a"])] "税率"
           [VStr "10.5"; VStr ""; VStr "n/a"] 1).
  - apply (bool_decide_unpack _). by vm_compute.
  - reflexivity.
  - cbn. lia.
  - by right.
Defined.

Lemma empty_merge_reported_witness :
  (process_excel_core sample_library
     "t.xlsx" "d.xlsx" "o.xlsx" sample_world_empty).2
  = inr (false, Some "数据文件合并后无有效数据")
  ∧ files (process_excel_core sample_library
             "t.xlsx" "d.xlsx" "o.xlsx" sample_world_empty).1
    = files sample_world_empty
  ∧ ∃ evs, trace (process_excel_core sample_library
                    "t.xlsx" "d.xlsx" "o.xlsx" sample_world_empty).1
           = trace sample_world_empty ++ evs
      ∧ ∀ p, EvSave p ∉ evs.
Proof.
  apply (empty_merge_reported sample_library
           "t.xlsx" "d.xlsx" "o.xlsx" sample_world_empty (frame_of_records [])).
  - by vm_compute.
  - reflexivity.
Defined.

Lemma rows_written_in_order_witness :
  ∃ ws1 ws2 wb ws' df,
    data_sheets (files sample_world) "d.xlsx" ws1 ws2
    ∧ (merge_phase sample_library "t.xlsx" "d.xlsx" sample_world).2 = inr df
    ∧ iterrows df
      = ((λ ir, ship_record sample_library (read_frame sample_library ws1) ir.1 ir.2)
           <$> List.filter (λ ir, ship_keep ir.2)
                           (enumerate (iterrows (read_frame sample_library ws1))))
        ++ ((λ ir, delay_record sample_library (read_frame sample_library ws2)
                     ir.1 ir.2)
              <$> List.filter (λ ir, delay_keep ir.2)
                              (enumerate (iterrows (read_frame sample_library ws2))))
    ∧ files (process_excel_core sample_library
               "t.xlsx" "d.xlsx" "o.xlsx" sample_world).1 !! "o.xlsx"
      = Some (Xlsx wb)
    ∧ wb_getitem wb "宁波发货" = inr ws'
    ∧ ∀ i row label c fmt,
        iterrows df !! i = Some row →
        (label, c, fmt) ∈ template_table →
        ∃ v, row_get row label = inr v
          ∧ value_of (ws_cell ws' (2 + i) c) = v
          ∧ ∀ f, fmt = Some f → number_format (ws_cell ws' (2 + i) c) = f.
Proof.
  apply (rows_written_in_order sample_library
           "t.xlsx" "d.xlsx" "o.xlsx" sample_world).
  by vm_compute.
Defined.

Lemma empty_check_precedes_template_witness :
  (process_excel_core sample_library
     "t.xlsx" "d.xlsx" "o.xlsx" sample_world_empty).2
  = inr (false, Some "数据文件合并后无有效数据")
  ∧ (∃ evs, trace (process_excel_core sample_library
                     "t.xlsx" "d.xlsx" "o.xlsx" sample_world_empty).1
            = trace sample_world_empty ++ evs
       ∧ ∀ p, EvLoadWorkbook p ∉ evs)
  ∧ (∀ wb, files sample_world_empty !! "t.xlsx" = Some (Xlsx wb) →
       "宁波发货" ∉ sheetnames wb →
       (process_excel_core sample_library
          "t.xlsx" "d.xlsx" "o.xlsx" sample_world_empty).2
       ≠ inr (false, Some ("处理失败：" +:+
                           exn_str (KeyError "模板文件中不存在'宁波发货'工作表")))).
Proof.
  apply (empty_check_precedes_template sample_library
           "t.xlsx" "d.xlsx" "o.xlsx" sample_world_empty (frame_of_records [])).
  - by vm_compute.
  - reflexivity.
Defined.

(** * The further properties at the sample data *)

Lemma missing_template_reported_witness :
  process_excel_core sample_library "x.xlsx" "d.xlsx" "o.xlsx" sample_world
  = (mkWorld (files sample_world) (readonly sample_world)
       (interrupted sample_world)
       (log sample_world ++ ["处理失败：模板文件不存在：" +:+ "x.xlsx"])
       (trace sample_world ++ [EvExists "x.xlsx"]),
     inr (false, Some ("处理失败：模板文件不存在：" +:+ "x.xlsx"))).
Proof.
  apply (missing_template_reported sample_library
           "x.xlsx" "d.xlsx" "o.xlsx" sample_world).
  by vm_compute.
Defined.

Lemma missing_data_reported_witness :
  process_excel_core sample_library "t.xlsx" "x.xlsx" "o.xlsx" sample_world
  = (mkWorld (files sample_world) (readonly sample_world)
       (interrupted sample_world)
       (log sample_world ++ ["处理失败：数据文件不存在：" +:+ "x.xlsx"])
       (trace sample_world ++ [EvExists "t.xlsx"; EvExists "x.xlsx"]),
     inr (false, Some ("处理失败：数据文件不存在：" +:+ "x.xlsx"))).
Proof.
  apply (missing_data_reported sample_library
           "t.xlsx" "x.xlsx" "o.xlsx" sample_world).
  - eexists. vm_compute. reflexivity.
  - by vm_compute.
Defined.

Lemma sheet_not_found_reported_witness :
  process_excel_core sample_library "t.xlsx" "t.xlsx" "o.xlsx" sample_world
  = (mkWorld (files sample_world) (readonly sample_world)
       (interrupted sample_world)
       (log sample_world ++ ["开始读取数据文件（提取数据并转换数值类型）...";
                             "处理失败：list index out of range"])
       (trace sample_world
        ++ [EvExists "t.xlsx"; EvExists "t.xlsx"; EvExcelFile "t.xlsx"]),
     inr (false, Some "处理失败：list index out of range")).
Proof.
  apply (sheet_not_found_reported sample_library
           "t.xlsx" "t.xlsx" "o.xlsx" sample_world
           [("说明", ∅); ("宁波发货", sample_template_sheet)]).
  - eexists. vm_compute. reflexivity.
  - by vm_compute.
  - right. intros name Hname. cbn in Hname.
    repeat (apply elem_of_cons in Hname as [->|Hname]; [by vm_compute|]).
    by apply elem_of_nil in Hname.
Defined.

Lemma missing_target_sheet_reported_witness :
  (process_excel_core sample_library
     "d.xlsx" "d.xlsx" "o.xlsx" sample_world).2
  = inr (false, Some ("处理失败：" +:+ dquote
                      +:+ "模板文件中不存在'宁波发货'工作表" +:+ dquote))
  ∧ files (process_excel_core sample_library
             "d.xlsx" "d.xlsx" "o.xlsx" sample_world).1
    = files sample_world.
Proof.
  eapply (missing_target_sheet_reported sample_library
            "d.xlsx" "d.xlsx" "o.xlsx" sample_world
            [("发货明细", sample_ship_sheet); ("滞留明细", sample_delay_sheet)]).
  - by vm_compute.
  - apply (bool_decide_unpack _). by vm_compute.
  - vm_compute. reflexivity.
  - vm_compute. lia.
Defined.

Lemma narrow_sheet_reported_witness :
  (process_excel_core sample_library
     "t.xlsx" "d.xlsx" "o.xlsx" sample_world_narrow).2
  = inr (false, Some "处理失败：single positional indexer is out-of-bounds")
  ∧ files (process_excel_core sample_library
             "t.xlsx" "d.xlsx" "o.xlsx" sample_world_narrow).1
    = files sample_world_narrow.
Proof.
  eapply (narrow_sheet_reported sample_library
            "t.xlsx" "d.xlsx" "o.xlsx" sample_world_narrow).
  - eexists. vm_compute. reflexivity.
  - vm_compute. reflexivity.
  - by vm_compute.
  - by vm_compute.
  - by vm_compute.
  - by vm_compute.
  - left. vm_compute. lia.
Defined.

Lemma run_succeeds_only_if_witness :
  ∃ (wbt wbd : Workbook) (s1 s2 : string) (ws1 ws2 ws : Worksheet),
      files sample_world !! "t.xlsx" = Some (Xlsx wbt)
      ∧ files sample_world !! "d.xlsx" = Some (Xlsx wbd)
      ∧ first_item (List.filter (contains "发货") (sheetnames wbd)) = inr s1
      ∧ first_item (List.filter (contains "滞留") (sheetnames wbd)) = inr s2
      ∧ assoc s1 wbd = Some ws1 ∧ assoc s2 wbd = Some ws2
      ∧ 44 ≤ length (read_frame sample_library ws1)
      ∧ 56 ≤ length (read_frame sample_library ws2)
      ∧ 44 ≤ max_column ws1 ∧ 56 ≤ max_column ws2
      ∧ ship_rows sample_library (read_frame sample_library ws1)
        ++ delay_rows sample_library (read_frame sample_library ws2) ≠ []
      ∧ "宁波发货" ∈ sheetnames wbt
      ∧ wb_getitem wbt "宁波发货" = inr ws
      ∧ (∀ r c, 2 ≤ r ≤ max_row ws → c ∈ clean_columns → plain (ws_cell ws r c))
      ∧ ("o.xlsx" ∉ readonly sample_world)
      ∧ interrupted sample_world !! "o.xlsx" = None.
Proof.
  apply (run_succeeds_only_if sample_library
           "t.xlsx" "d.xlsx" "o.xlsx" sample_world).
  by vm_compute.
Defined.

Lemma only_save_path_written_witness :
  files (process_excel_core sample_library
           "t.xlsx" "d.xlsx" "o.xlsx" sample_world).1 !! "t.xlsx"
  = files sample_world !! "t.xlsx".
Proof.
  apply (only_save_path_written sample_library
           "t.xlsx" "d.xlsx" "o.xlsx" "t.xlsx" sample_world).
  by vm_compute.
Defined.

Lemma stale_rows_cleared_witness :
  ∃ (wb : Workbook) (ws ws' : Worksheet) (df : DataFrame),
    files sample_world !! "t.xlsx" = Some (Xlsx wb)
    ∧ wb_getitem wb "宁波发货" = inr ws
    ∧ combined_of_file sample_library (files sample_world) "d.xlsx" = inr df
    ∧ files (process_excel_core sample_library
               "t.xlsx" "d.xlsx" "o.xlsx" sample_world).1 !! "o.xlsx"
      = Some (Xlsx (wb_update wb "宁波发货" ws'))
    ∧ (∀ r c, c ∈ clean_columns → 2 + df_len df ≤ r ≤ max_row ws →
         ws' !! (r, c) = Some (mkCell VNull (number_format (ws_cell ws r c))))
    ∧ max_row ws' = max_row ws `max` (1 + df_len df).
Proof.
  apply (stale_rows_cleared sample_library
           "t.xlsx" "d.xlsx" "o.xlsx" sample_world).
  by vm_compute.
Defined.

Lemma rerun_on_output_is_stable_witness :
  (process_excel_core sample_library "o.xlsx" "d.xlsx" "o.xlsx"
     (process_excel_core sample_library
        "t.xlsx" "d.xlsx" "o.xlsx" sample_world).1).2
  = inr (true, None)
  ∧ files (process_excel_core sample_library
             "o.xlsx" "d.xlsx" "o.xlsx"
             (process_excel_core sample_library
                "t.xlsx" "d.xlsx" "o.xlsx" sample_world).1).1
    = files (process_excel_core sample_library
               "t.xlsx" "d.xlsx" "o.xlsx" sample_world).1.
Proof.
  apply (rerun_on_output_is_stable sample_library
           "t.xlsx" "d.xlsx" "o.xlsx" sample_world).
  - by vm_compute.
  - by vm_compute.
Defined.

Lemma log_of_success_witness :
  ∃ (wbd : Workbook) (s1 s2 : string) (ws1 ws2 : Worksheet),
    files sample_world !! "d.xlsx" = Some (Xlsx wbd)
    ∧ first_item (List.filter (contains "发货") (sheetnames wbd)) = inr s1
    ∧ first_item (List.filter (contains "滞留") (sheetnames wbd)) = inr s2
    ∧ assoc s1 wbd = Some ws1 ∧ assoc s2 wbd = Some ws2
    ∧ log (process_excel_core sample_library
             "t.xlsx" "d.xlsx" "o.xlsx" sample_world).1
      = log sample_world
        ++ ["开始读取数据文件（提取数据并转换数值类型）...";
            "识别到数据文件发货表：" +:+ s1 +:+ "，滞留表：" +:+ s2;
            "提取数据文件发货表舟山区数据并转换数值类型...";
            "转换发货表签收关单时间（仅保留年月日，隐藏时分秒）...";
            "数据文件发货表提取到舟山区数据 "
              +:+ pretty (length (ship_rows sample_library
                                    (read_frame sample_library ws1))) +:+ " 行";
            "提取数据文件滞留表舟山区数据并转换数值类型...";
            "数据文件滞留表提取到舟山区数据 "
              +:+ pretty (length (delay_rows sample_library
                                    (read_frame sample_library ws2))) +:+ " 行";
            "合并数据文件发货/滞留数据（仅保留日期，隐藏时分秒）...";
            "数据文件合并后总数据 "
              +:+ pretty (length (ship_rows sample_library
                                    (read_frame sample_library ws1))
                          + length (delay_rows sample_library
                                      (read_frame sample_library ws2))) +:+ " 行";
            "加载模板文件（保留所有原始格式）...";
            "清洗模板表原有数据（仅清空数值，保留格式和公式）...";
            "填充数据文件新数据到模板（仅保留日期，兼容Excel公式）...";
            "处理完成！模板表原有数据已清洗，AS列（45列）仅保留日期部分，保存至："
              +:+ "o.xlsx"]
    ∧ trace (process_excel_core sample_library
               "t.xlsx" "d.xlsx" "o.xlsx" sample_world).1
      = trace sample_world
        ++ [EvExists "t.xlsx"; EvExists "d.xlsx"; EvExcelFile "d.xlsx";
            EvReadExcel "d.xlsx" s1; EvReadExcel "d.xlsx" s2;
            EvLoadWorkbook "t.xlsx"; EvSave "o.xlsx"].
Proof.
  apply (log_of_success sample_library
           "t.xlsx" "d.xlsx" "o.xlsx" sample_world).
  by vm_compute.
Defined.

Lemma streamlit_log_keeps_latest_witness :
  log_list (foldl (λ s c, streamlit_log_callback c.1 c.2 s) sample_session
              [("[2024-01-02 08:00:01]", "a"); ("[2024-01-02 08:00:02]", "b")])
  = last_items 50
      (log_list sample_session
       ++ ((λ c, c.1 +:+ " " +:+ c.2)
             <$> [("[2024-01-02 08:00:01]", "a"); ("[2024-01-02 08:00:02]", "b")])).
Proof.
  apply (streamlit_log_keeps_latest
           [("[2024-01-02 08:00:01]", "a"); ("[2024-01-02 08:00:02]", "b")]
           sample_session).
  vm_compute. lia.
Defined.

Lemma page_shows_outcome_witness :
  ∃ res,
    (process_excel_core sample_library
       "t.xlsx" "d.xlsx" "o.xlsx" sample_world).2 = inr res
    ∧ result_area
        (λ p, bool_decide
                (is_Some (files (process_excel_core sample_library
                                   "t.xlsx" "d.xlsx" "o.xlsx"
                                   sample_world).1 !! p)))
        (report_result "[2024-01-02 08:00:03]" res "o.xlsx" sample_session)
      = if res.1 then Download "o.xlsx" else ErrorBanner.
Proof.
  apply (page_shows_outcome sample_library
           "t.xlsx" "d.xlsx" "o.xlsx" "[2024-01-02 08:00:03]"
           sample_world sample_session).
  reflexivity.
Defined.

Lemma writer_frame_witness :
  ∃ wb ws ws' df,
    files sample_world_dated !! "t.xlsx" = Some (Xlsx wb)
    ∧ wb_getitem wb "宁波发货" = inr ws
    ∧ (merge_phase sample_library "t.xlsx" "d.xlsx" sample_world_dated).2 = inr df
    ∧ files (process_excel_core sample_library
               "t.xlsx" "d.xlsx" "o.xlsx" sample_world_dated).1 !! "o.xlsx"
      = Some (Xlsx (wb_update wb "宁波发货" ws'))
    ∧ sheetnames (wb_update wb "宁波发货" ws') = sheetnames wb
    ∧ wb_getitem (wb_update wb "宁波发货" ws') "宁波发货" = inr ws'
    ∧ (∀ title, title ≠ "宁波发货" →
         assoc title (wb_update wb "宁波发货" ws') = assoc title wb)
    ∧ (∀ r c, c ∉ clean_columns → ws' !! (r, c) = ws !! (r, c))
    ∧ (∀ r c, r < 2 ∨ (max_row ws < r ∧ 2 + length (iterrows df) ≤ r) →
         ws' !! (r, c) = ws !! (r, c))
    ∧ (∀ r c, number_format (ws_cell ws' r c) ≠ number_format (ws_cell ws r c) →
         2 ≤ r < 2 + length (iterrows df)
         ∧ (c ∈ [21; 24; 26; 43; 45]
            ∨ (c ∈ [8; 15]
               ∧ (is_Some (time_format (value_of (ws_cell ws' r c)))
                  ∨ value_of (ws_cell ws' r c) = VNull)
               ∧ is_date_format sample_library (number_format (ws_cell ws r c))
                 = false))).
Proof.
  apply (writer_frame sample_library
           "t.xlsx" "d.xlsx" "o.xlsx" sample_world_dated).
  by vm_compute.
Defined.

Lemma merge_phase_returns_witness :
  ∃ df, (merge_phase sample_library "t.xlsx" "d.xlsx" sample_world).2 = inr df
    ∧ iterrows df
      = ship_rows sample_library (read_frame sample_library sample_ship_sheet)
        ++ delay_rows sample_library (read_frame sample_library sample_delay_sheet)
    ∧ df_len df
      = length (ship_rows sample_library
                  (read_frame sample_library sample_ship_sheet))
        + length (delay_rows sample_library
                    (read_frame sample_library sample_delay_sheet)).
Proof.
  apply (merge_phase_returns sample_library "t.xlsx" "d.xlsx" sample_world
           sample_ship_sheet sample_delay_sheet).
  - eexists. vm_compute. reflexivity.
  - exists [("发货明细", sample_ship_sheet); ("滞留明细", sample_delay_sheet)],
      "发货明细", "滞留明细".
    split; [by vm_compute|]. split; [by vm_compute|]. split; [by vm_compute|].
    split; by vm_compute.
  - vm_compute. lia.
  - vm_compute. lia.
Defined.
